(** * Product Search Dashboard ([app.py]): a shallow embedding and its properties

    The dashboard flattens a nested catalog (category -> item -> attributes)
    into a pandas [DataFrame], filters and sorts it from sidebar widgets,
    searches it by a free-text query and shows two average-price figures.

    Python values are modelled as follows.
    - [str] is [string] (a sequence of bytes; the catalog is ASCII, and case
      folding below is the ASCII one).
    - [int] is [Z].
    - [pd.Timestamp] is a calendar date [Timestamp]; time of day is always
      midnight in this program.
    - A [DataFrame] with the five product columns is a list of labelled rows
      (index label, [Row]), in row order.
    - [np.float64] is IEEE binary64, through the Standard Library's
      [SpecFloat].
    - A call either returns, raises, or leaves the fragment of pandas and
      [re] that is modelled here: [outcome].
    - The sort inside [sort_values] is numpy's, not this program's: the
      program is a function of that kernel, [argsort].  numpy's kernel for
      a column of at most eight integers is written out as [simd_argsort].
    - Where identity of objects matters, frames live in a heap and calls run
      in the monad [py]; the dicts of the items live in a store of their
      own, and [load_data] runs over it in the monad [dpy]. *)

From Stdlib Require Import ZArith List String Ascii Bool Lia Permutation Sorted.
From Stdlib Require Import SpecFloat.
From Stdlib Require Import DecimalString DecimalZ.
From stdpp Require Import base option list sorting gmap strings.

Local Open Scope string_scope.
Local Open Scope list_scope.
Local Open Scope Z_scope.

(** ** Outcomes of Python calls *)

Inductive exn : Type :=
| KeyError (key : string)        (* a column label that the frame lacks *)
| ParseError (text : string)     (* [pd.to_datetime] on an impossible date *)
| ValueError (msg : string)      (* [int(nan)] *)
| OverflowError (msg : string)   (* [int(inf)] *)
| AttributeError (msg : string). (* a method that the object lacks *)

Inductive outcome (A : Type) : Type :=
| Ok (a : A)                     (* the call returns [a] *)
| Raise (e : exn)                (* the exception [e] propagates *)
| Unmodelled.                    (* outside the modelled fragment of a library *)

Arguments Ok {A} a.
Arguments Raise {A} e.
Arguments Unmodelled {A}.

#[global] Instance outcome_ret : MRet outcome := @Ok.

#[global] Instance outcome_bind : MBind outcome := fun A B f m =>
  match m with
  | Ok a => f a
  | Raise e => Raise e
  | Unmodelled => Unmodelled
  end.

#[global] Instance outcome_fmap : FMap outcome := fun A B f m =>
  match m with
  | Ok a => Ok (f a)
  | Raise e => Raise e
  | Unmodelled => Unmodelled
  end.

(** A Python [for] loop over [xs] whose body updates the state [s] and may
    raise: the first exception ends the loop. *)
Fixpoint for_each {A S : Type} (xs : list A) (body : A -> S -> outcome S) (s : S)
  : outcome S :=
  match xs with
  | [] => Ok s
  | x :: xs' => s' ← body x s; for_each xs' body s'
  end.

(** ** Dates: [pd.to_datetime] on the catalog's [YYYY-MM-DD] strings *)

Record Timestamp : Type := { year : Z; month : Z; day : Z }.

#[global] Instance Timestamp_eq_dec : EqDecision Timestamp.
Proof. solve_decision. Defined.

Definition digit (c : ascii) : option Z :=
  let n := Z.of_N (N_of_ascii c) in
  if (48 <=? n) && (n <=? 57) then Some (n - 48) else None.

Fixpoint number (cs : list ascii) (acc : Z) : option Z :=
  match cs with
  | [] => Some acc
  | c :: cs' => d ← digit c; number cs' (10 * acc + d)
  end.

Definition is_leap (y : Z) : bool :=
  ((y mod 4 =? 0) && negb (y mod 100 =? 0)) || (y mod 400 =? 0).

Definition days_in_month (y m : Z) : Z :=
  if m =? 2 then (if is_leap y then 29 else 28)
  else if (m =? 4) || (m =? 6) || (m =? 9) || (m =? 11) then 30
  else 31.

(** Strings of the form [dddd-dd-dd] only.  A month or day that does not
    exist raises; other spellings, which pandas may accept, and years outside
    the nanosecond range of [Timestamp] are left out of the model. *)
Definition to_datetime (s : string) : outcome Timestamp :=
  match list_ascii_of_string s with
  | [y1; y2; y3; y4; "-"%char; m1; m2; "-"%char; d1; d2] =>
      match number [y1; y2; y3; y4] 0, number [m1; m2] 0, number [d1; d2] 0 with
      | Some y, Some m, Some d =>
          if negb ((1 <=? m) && (m <=? 12) && (1 <=? d) && (d <=? days_in_month y m))
          then Raise (ParseError s)
          else if (1678 <=? y) && (y <=? 2261)
          then Ok {| year := y; month := m; day := d |}
          else Unmodelled
      | _, _, _ => Unmodelled
      end
  | _ => Unmodelled
  end.

(** ** Rows and frames *)

(** One row of the frame, with the columns in the order [pd.DataFrame] gives
    them: the four keys of an item, then the [category] added by [load_data]. *)
Record Row : Type := {
  name : string;
  price : Z;
  company : string;
  last_updated : Timestamp;
  category : string
}.

(** A frame: index labels with their rows, in row order. *)
Abbreviation DataFrame := (list (nat * Row)).

Definition rows (df : DataFrame) : list Row := map snd df.
Definition index_labels (df : DataFrame) : list nat := map fst df.

(** [pd.DataFrame(data)] for a list of row dicts: a fresh [RangeIndex].
    Every frame of the model has the five columns, the one without rows
    too. *)
Definition pd_DataFrame (data : list Row) : DataFrame :=
  combine (seq 0 (length data)) data.

(** ** The dataset *)

(** The attributes of one item as the nested dict holds them. *)
Record Details : Type := {
  d_name : string;
  d_price : Z;
  d_company : string;
  d_last_updated : string
}.

(** A Python dict read in insertion order: keys with their values. *)
Abbreviation Catalog := (list (string * list (string * Details))).

Definition item (n : string) (p : Z) (c : string) (d : string) : string * Details :=
  (n, {| d_name := n; d_price := p; d_company := c; d_last_updated := d |}).

Definition PRODUCTS : Catalog :=
  [ ("Electronics",
      [ item "Laptop" 70000 "Dell" "2025-10-10";
        item "Smartphone" 30000 "Samsung" "2025-09-15";
        item "Earbuds" 2500 "Realme" "2025-08-20" ]);
    ("Appliances",
      [ item "Refrigerator" 55000 "LG" "2025-09-25";
        item "Washing Machine" 45000 "Whirlpool" "2025-07-18" ]);
    ("Accessories",
      [ item "Keyboard" 1200 "Logitech" "2025-08-05";
        item "Mouse" 800 "HP" "2025-07-30" ]) ].

(** ** [load_data] *)

(** The loop body: copy the item, add its category, parse its date. *)
Definition make_row (cat : string) (details : Details) : outcome Row :=
  ts ← to_datetime (d_last_updated details);
  Ok {| name := d_name details; price := d_price details;
        company := d_company details; last_updated := ts; category := cat |}.

Definition load_rows (products : Catalog) : outcome (list Row) :=
  for_each products (fun '(cat, items) data =>
    for_each items (fun '(_, details) data =>
      r ← make_row cat details;
      Ok (data ++ [r])) data) [].

(** [load_data] over a given nested dict; the cache decorator only saves
    recomputation of this pure function. *)
Definition load_data_from (products : Catalog) : outcome DataFrame :=
  data ← load_rows products;
  Ok (pd_DataFrame data).

Definition load_data : outcome DataFrame := load_data_from PRODUCTS.

(** The (category, item) pairs of a nested dict in insertion order. *)
Definition entries (products : Catalog) : list (string * Details) :=
  flat_map (fun '(cat, items) => map (fun '(_, details) => (cat, details)) items)
           products.

(** Rows built one by one, stopping at the first failure. *)
Fixpoint collect (es : list (string * Details)) : outcome (list Row) :=
  match es with
  | [] => Ok []
  | (cat, details) :: es' =>
      r ← make_row cat details; rs ← collect es'; Ok (r :: rs)
  end.

(** What a row owes to the entry it was built from. *)
Definition built_from (e : string * Details) (r : Row) : Prop :=
  name r = d_name (snd e) /\ price r = d_price (snd e) /\
  company r = d_company (snd e) /\ category r = fst e /\
  to_datetime (d_last_updated (snd e)) = Ok (last_updated r).

Definition date (y m d : Z) : Timestamp := {| year := y; month := m; day := d |}.

(** The seven rows of the sample catalog, in the order of the source. *)
Definition laptop : Row :=
  {| name := "Laptop"; price := 70000; company := "Dell";
     last_updated := date 2025 10 10; category := "Electronics" |}.
Definition smartphone : Row :=
  {| name := "Smartphone"; price := 30000; company := "Samsung";
     last_updated := date 2025 9 15; category := "Electronics" |}.
Definition earbuds : Row :=
  {| name := "Earbuds"; price := 2500; company := "Realme";
     last_updated := date 2025 8 20; category := "Electronics" |}.
Definition refrigerator : Row :=
  {| name := "Refrigerator"; price := 55000; company := "LG";
     last_updated := date 2025 9 25; category := "Appliances" |}.
Definition washing_machine : Row :=
  {| name := "Washing Machine"; price := 45000; company := "Whirlpool";
     last_updated := date 2025 7 18; category := "Appliances" |}.
Definition keyboard : Row :=
  {| name := "Keyboard"; price := 1200; company := "Logitech";
     last_updated := date 2025 8 5; category := "Accessories" |}.
Definition mouse : Row :=
  {| name := "Mouse"; price := 800; company := "HP";
     last_updated := date 2025 7 30; category := "Accessories" |}.

Definition catalog_rows : list Row :=
  [laptop; smartphone; earbuds; refrigerator; washing_machine; keyboard; mouse].

Definition catalog : DataFrame := pd_DataFrame catalog_rows.

(** A frame with the given prices, for the averages. *)
Definition priced (prices : list Z) : DataFrame :=
  pd_DataFrame (map (fun p => {| name := "x"; price := p; company := "y";
                                 last_updated := date 2025 1 1;
                                 category := "z" |}) prices).

(** The sample catalog with the names and companies kept and every other
    column changed. *)
Definition repriced_catalog : DataFrame :=
  map (fun '(i, r) =>
         (i, {| name := name r; price := 1; company := company r;
                last_updated := date 2000 1 1; category := "Other" |}))
      catalog.

(** Seven products with the prices 0, 1, 0, 1, 0, 1, 0, told apart by
    their names. *)
Definition priced_as (n : string) (p : Z) : Row :=
  {| name := n; price := p; company := "y"; last_updated := date 2025 1 1;
     category := "z" |}.

Definition tied_prices : DataFrame :=
  pd_DataFrame [priced_as "a" 0; priced_as "b" 1; priced_as "c" 0;
                priced_as "d" 1; priced_as "e" 0; priced_as "f" 1;
                priced_as "g" 0].

(** ** Column operations of pandas *)

(** [Series.isin(values)]. *)
Definition isin (col : list string) (values : list string) : list bool :=
  map (fun v => existsb (String.eqb v) values) col.

(** [Series.between(left, right)], both ends included. *)
Definition between (col : list Z) (left right : Z) : list bool :=
  map (fun p => (left <=? p) && (p <=? right)) col.

(** Element-wise [&] and [|] of two boolean Series. *)
Fixpoint mask_and (m1 m2 : list bool) : list bool :=
  match m1, m2 with
  | b1 :: m1', b2 :: m2' => (b1 && b2) :: mask_and m1' m2'
  | _, _ => []
  end.

Fixpoint mask_or (m1 m2 : list bool) : list bool :=
  match m1, m2 with
  | b1 :: m1', b2 :: m2' => (b1 || b2) :: mask_or m1' m2'
  | _, _ => []
  end.

(** [df[mask]]: the rows whose mask entry is true, labels kept. *)
Fixpoint getitem_mask (df : DataFrame) (mask : list bool) : DataFrame :=
  match df, mask with
  | r :: df', b :: mask' =>
      if b then r :: getitem_mask df' mask' else getitem_mask df' mask'
  | _, _ => []
  end.

(** [a[indexer]] by position.  The indexers of this program come from
    [argsort] and are in range; a position out of range (an [IndexError] in
    numpy) selects nothing here. *)
Definition np_take {A : Type} (a : list A) (indexer : list nat) : list A :=
  omap (fun i => a !! i) indexer.

Arguments np_take : simpl never.

(** [df.reset_index(drop=True)]. *)
Definition reset_index (df : DataFrame) : DataFrame := pd_DataFrame (rows df).

(** ** Orders of the column types *)

(** Integers are ordered by [Z.leb].  Python compares [str] by code
    point, which on UTF-8 bytes is the byte-wise order [String.leb].
    Timestamps at midnight are ordered as their dates. *)
Definition Timestamp_leb (a b : Timestamp) : bool :=
  if year a =? year b then
    if month a =? month b then day a <=? day b else month a <? month b
  else year a <? year b.

Inductive Column : Type :=
| ColName | ColPrice | ColCompany | ColLastUpdated | ColCategory.

Definition column_labels : list string :=
  ["name"; "price"; "company"; "last_updated"; "category"].

Definition column_label (c : Column) : string :=
  match c with
  | ColName => "name"
  | ColPrice => "price"
  | ColCompany => "company"
  | ColLastUpdated => "last_updated"
  | ColCategory => "category"
  end.

(** The column a label names, if the frame has it. *)
Definition column_of_label (label : string) : option Column :=
  if String.eqb label "name" then Some ColName
  else if String.eqb label "price" then Some ColPrice
  else if String.eqb label "company" then Some ColCompany
  else if String.eqb label "last_updated" then Some ColLastUpdated
  else if String.eqb label "category" then Some ColCategory
  else None.

(** Two rows tie on a column when their values in it are equal. *)
Definition same_key (c : Column) (r1 r2 : Row) : bool :=
  match c with
  | ColName => bool_decide (name r1 = name r2)
  | ColPrice => bool_decide (price r1 = price r2)
  | ColCompany => bool_decide (company r1 = company r2)
  | ColLastUpdated => bool_decide (last_updated r1 = last_updated r2)
  | ColCategory => bool_decide (category r1 = category r2)
  end.

(** The order of a column's values on two rows. *)
Definition key_le (c : Column) (r1 r2 : Row) : bool :=
  match c with
  | ColName => String.leb (name r1) (name r2)
  | ColPrice => price r1 <=? price r2
  | ColCompany => String.leb (company r1) (company r2)
  | ColLastUpdated => Timestamp_leb (last_updated r1) (last_updated r2)
  | ColCategory => String.leb (category r1) (category r2)
  end.

(** ** Free-text search: [Series.str.contains(query, case=False, na=False)] *)

(** pandas compiles the query with [re.compile(query, re.IGNORECASE)]
    ([regex=True] is the default) and keeps the strings [pattern.search]
    accepts.  The fragment of [re] modelled here is a sequence of literal
    characters and dots. *)
Inductive token : Type :=
| Literal (c : ascii)    (* an ordinary character *)
| AnyChar.               (* [.]: any character but a newline *)

(** The characters [re] reads as syntax: [. ^ $ * + ? { } [ ] \ | ( )]. *)
Definition special_chars : list ascii :=
  list_ascii_of_string ".^$*+?{}[]\|()".

Definition is_special (c : ascii) : bool :=
  existsb (Ascii.eqb c) special_chars.

(** [None]: the pattern uses syntax beyond literals and dots. *)
Fixpoint sre_parse (pat : list ascii) : option (list token) :=
  match pat with
  | [] => Some []
  | c :: pat' =>
      ts ← sre_parse pat';
      if Ascii.eqb c "."%char then Some (AnyChar :: ts)
      else if is_special c then None
      else Some (Literal c :: ts)
  end.

(** A character of ASCII, and a text of such characters only. *)
Definition is_ascii (c : ascii) : bool := (N_of_ascii c <? 128)%N.

Definition ascii_text (s : string) : bool :=
  forallb is_ascii (list_ascii_of_string s).

(** ASCII lower case, the folding of [re.IGNORECASE] on ASCII text.  Other
    characters are left as they are, where [re] folds by Unicode: what is
    said below of the folding is said of ASCII text. *)
Definition lower (c : ascii) : ascii :=
  let n := N_of_ascii c in
  if ((65 <=? n) && (n <=? 90))%N then ascii_of_N (n + 32) else c.

Definition token_matches (t : token) (c : ascii) : bool :=
  match t with
  | Literal x => Ascii.eqb (lower x) (lower c)
  | AnyChar => negb (Ascii.eqb c "010"%char)
  end.

(** The tokens match a prefix of [s]. *)
Fixpoint match_here (ts : list token) (s : list ascii) : bool :=
  match ts, s with
  | [], _ => true
  | t :: ts', c :: s' => token_matches t c && match_here ts' s'
  | _ :: _, [] => false
  end.

(** [pattern.search(s) is not None]: a match starts somewhere in [s]. *)
Fixpoint re_search (ts : list token) (s : list ascii) : bool :=
  match_here ts s ||
  match s with
  | [] => false
  | _ :: s' => re_search ts s'
  end.

Definition str_contains (col : list string) (pat : string) : outcome (list bool) :=
  match sre_parse (list_ascii_of_string pat) with
  | Some ts => Ok (map (fun s => re_search ts (list_ascii_of_string s)) col)
  | None => Unmodelled
  end.

(** The [mask] of the search branch. *)
Definition search_mask (df : DataFrame) (query : string) : outcome (list bool) :=
  by_name ← str_contains (map name (rows df)) query;
  by_company ← str_contains (map company (rows df)) query;
  Ok (mask_or by_name by_company).

(** [df[mask]] of the search branch. *)
Definition search (df : DataFrame) (query : string) : outcome DataFrame :=
  mask ← search_mask df query;
  Ok (getitem_mask df mask).

(** *** Substring search, as the specification words it *)

Fixpoint is_prefix (p s : list ascii) : bool :=
  match p, s with
  | [], _ => true
  | a :: p', b :: s' => Ascii.eqb a b && is_prefix p' s'
  | _ :: _, [] => false
  end.

Fixpoint is_substring (p s : list ascii) : bool :=
  is_prefix p s ||
  match s with
  | [] => false
  | _ :: s' => is_substring p s'
  end.

(** [q] occurs in [s] when case is ignored. *)
Definition ci_substring (q s : string) : bool :=
  is_substring (map lower (list_ascii_of_string q))
               (map lower (list_ascii_of_string s)).

Definition search_matches (query : string) (r : Row) : bool :=
  ci_substring query (name r) || ci_substring query (company r).

(** A query with no character that [re] reads as syntax. *)
Definition plain_query (query : string) : bool :=
  forallb (fun c => negb (is_special c)) (list_ascii_of_string query).

(** ** [str.strip()] and truth of a string *)

(** Python's whitespace within ASCII: tab to carriage return, the four
    separators 28 to 31, and the space.  [str.strip()] also removes the
    whitespace of Unicode beyond ASCII: what is said below of [strip] is
    said of ASCII text. *)
Definition is_space (c : ascii) : bool :=
  let n := N_of_ascii c in
  (((9 <=? n) && (n <=? 13)) || ((28 <=? n) && (n <=? 32)))%N.

Fixpoint lstrip (cs : list ascii) : list ascii :=
  match cs with
  | [] => []
  | c :: cs' => if is_space c then lstrip cs' else cs
  end.

Definition strip (s : string) : string :=
  string_of_list_ascii (rev (lstrip (rev (lstrip (list_ascii_of_string s))))).

(** [bool(s)] for a string. *)
Definition truthy (s : string) : bool := negb (String.eqb s "").

(** ** The two average-price figures *)

(** [np.float64] operations, by the IEEE 754 binary64 specification. *)
Definition f64_of_int (z : Z) : spec_float := binary_normalize 53 1024 z 0 false.
Definition f64_add : spec_float -> spec_float -> spec_float := SFadd 53 1024.
Definition f64_mul : spec_float -> spec_float -> spec_float := SFmul 53 1024.
Definition f64_div : spec_float -> spec_float -> spec_float := SFdiv 53 1024.

(** The sum of a run of doubles as numpy's [add] reduces it (pairwise
    summation).  Fewer than 8 doubles are added from left to right.  Up to
    128 go to eight partial sums, the first eight doubles, to which the
    further blocks of eight are added lane by lane; the eight sums are
    added as a tree and the doubles left over are added to the result one
    by one. *)
Fixpoint unrolled (r a : list spec_float) (blocks : nat)
  : list spec_float * list spec_float :=
  match blocks with
  | O => (r, a)
  | S blocks' => unrolled (zip_with f64_add r (take 8 a)) (drop 8 a) blocks'
  end.

Definition tree8 (r : list spec_float) : spec_float :=
  match r with
  | [r0; r1; r2; r3; r4; r5; r6; r7] =>
      f64_add (f64_add (f64_add r0 r1) (f64_add r2 r3))
              (f64_add (f64_add r4 r5) (f64_add r6 r7))
  | _ => S754_nan
  end.

Definition pairwise_block (a : list spec_float) : spec_float :=
  let '(r, rest) := unrolled (take 8 a) (drop 8 a) (length a / 8 - 1) in
  fold_left f64_add rest (tree8 r).

(** A longer run is cut in two, the first part of [n / 2] doubles less the
    remainder of [n / 2] by 8, and the two sums are added.  [fuel] counts
    the cuts still allowed; the length of the run is enough of it. *)
Fixpoint pairwise_sum_rec (fuel : nat) (a : list spec_float) : spec_float :=
  let n := length a in
  if (n <? 8)%nat then fold_left f64_add a (S754_zero true)
  else if (n <=? 128)%nat then pairwise_block a
  else
    match fuel with
    | O => S754_nan
    | S fuel' =>
        let n2 := (n / 2 - (n / 2) mod 8)%nat in
        f64_add (pairwise_sum_rec fuel' (take n2 a))
                (pairwise_sum_rec fuel' (drop n2 a))
    end.

Definition pairwise_sum (a : list spec_float) : spec_float :=
  pairwise_sum_rec (length a) a.

(** What [np.mean(col)] gives for a column of a frame: it is the column's
    own [mean()]. *)
Inductive mean_value : Type :=
| Float64 (x : spec_float)   (* a [np.float64] *)
| PyNan.                     (* Python's [float('nan')], for no entries *)

(** A value of an [int64] column. *)
Definition in_int64 (p : Z) : bool := (- 2 ^ 63 <=? p) && (p <? 2 ^ 63).

(** [np.mean] of an integer column: the entries are cast to doubles, their
    sum is taken by numpy starting from zero, and the sum is divided by the
    count.  Columns of more than 8192 entries, which numpy sums buffer by
    buffer, and entries beyond [int64] are left out. *)
Definition np_mean (col : list Z) : outcome mean_value :=
  match col with
  | [] => Ok PyNan
  | _ :: _ =>
      if forallb in_int64 col && (Z.of_nat (length col) <=? 8192) then
        let the_sum := f64_add (S754_zero false)
                               (pairwise_sum (map f64_of_int col)) in
        Ok (Float64 (f64_div the_sum (f64_of_int (Z.of_nat (length col)))))
      else Unmodelled
  end.

(** [int(x)] of a float: truncation towards zero. *)
Definition py_int (x : spec_float) : outcome Z :=
  match x with
  | S754_zero _ => Ok 0
  | S754_finite s m e =>
      Ok (cond_Zopp s (if 0 <=? e then Zpos m * 2 ^ e else Zpos m / 2 ^ (- e)))
  | S754_infinity _ => Raise (OverflowError "cannot convert float infinity to integer")
  | S754_nan => Raise (ValueError "cannot convert float NaN to integer")
  end.

(** [np.rint]: the nearest integer, ties to even. *)
Definition np_rint (x : spec_float) : spec_float :=
  match x with
  | S754_finite s m e =>
      if 0 <=? e then x
      else
        let d := 2 ^ (- e) in
        let q := Zpos m / d in
        let n := match 2 * (Zpos m mod d) ?= d with
                 | Lt => q
                 | Eq => if Z.even q then q else q + 1
                 | Gt => q + 1
                 end in
        if n =? 0 then S754_zero s else f64_of_int (cond_Zopp s n)
  | _ => x
  end.

(** [x.round(2)] of numpy: scale by 100, round to an integer, scale back. *)
Definition round2 (x : spec_float) : spec_float :=
  f64_div (np_rint (f64_mul x (f64_of_int 100))) (f64_of_int 100).

(** The sidebar metric: [int(np.mean(df["price"]))]. *)
Definition sidebar_average (df : DataFrame) : outcome Z :=
  m ← np_mean (map price (rows df));
  match m with
  | Float64 x => py_int x
  | PyNan => Raise (ValueError "cannot convert float NaN to integer")
  end.

(** The footer caption: [np.mean(df['price']).round(2)].  Python's own
    [float] has no method [round]. *)
Definition caption_average (df : DataFrame) : outcome spec_float :=
  m ← np_mean (map price (rows df));
  match m with
  | Float64 x => Ok (round2 x)
  | PyNan => Raise (AttributeError "'float' object has no attribute 'round'")
  end.

(** *** The mean rounded to 2 decimals, as the specification words it *)

(** The exact mean [sum / count] in hundredths, rounded to the nearest
    integer (ties to even); [None] for no prices. *)
Definition mean_in_hundredths (col : list Z) : option Z :=
  let n := Z.of_nat (length col) in
  let s := 100 * fold_right Z.add 0 col in
  if n =? 0 then None
  else Some (match 2 * (s mod n) ?= n with
             | Lt => s / n
             | Eq => if Z.even (s / n) then s / n else s / n + 1
             | Gt => s / n + 1
             end).

(** The double that the decimal [h / 100] denotes. *)
Definition hundredths (h : Z) : spec_float := f64_div (f64_of_int h) (f64_of_int 100).

(** ** Sorting kernels *)

(** The positions of a column with their keys. *)
Definition enumerate {A : Type} (keys : list A) : list (nat * A) :=
  combine (seq 0 (length keys)) keys.

Fixpoint insert_key {A : Type} (leb : A -> A -> bool) (x : nat * A)
    (l : list (nat * A)) : list (nat * A) :=
  match l with
  | [] => [x]
  | y :: l' => if leb (snd x) (snd y) then x :: l else y :: insert_key leb x l'
  end.

Definition insertion_sort {A : Type} (leb : A -> A -> bool)
    (l : list (nat * A)) : list (nat * A) :=
  fold_right (insert_key leb) [] l.

(** An argsort by insertion: each position goes before the first later
    position whose key is not smaller, so ties keep their order. *)
Definition insertion_argsort (A : Type) (leb : A -> A -> bool) (keys : list A)
  : list nat :=
  map fst (insertion_sort leb (enumerate keys)).

(** An argsort that sorts downwards and reverses the result: it sorts, and
    ties come out in reverse order. *)
Definition reversed_argsort (A : Type) (leb : A -> A -> bool) (keys : list A)
  : list nat :=
  rev (insertion_argsort A (fun a b => leb b a) keys).

(** *** numpy's kernel for short columns of integers *)

(** [np.argsort] with [kind='quicksort'] on at most eight 64-bit integers,
    as numpy's builds for x86 processors with AVX-512 run it.  The keys
    fill one vector register of eight lanes together with their positions;
    a lane without a key holds the largest value ([None]) and the position
    0.  A bitonic network of six steps sorts the register: in each step a
    lane reads the key of a partner lane and keeps the smaller or the larger
    of the two keys, and where the key it keeps is not equal to its own it
    takes the partner's position. *)
Section Network.

Context {A : Type} (leb : A -> A -> bool).

Definition key_leb (x y : option A) : bool :=
  match x, y with
  | _, None => true
  | None, Some _ => false
  | Some a, Some b => leb a b
  end.

Definition key_min (x y : option A) : option A := if key_leb x y then x else y.
Definition key_max (x y : option A) : option A := if key_leb x y then y else x.
Definition key_eq (x y : option A) : bool := key_leb x y && key_leb y x.

(** One step: lane [i] has the partner lane [nth i partner i] and keeps the
    larger key where the mask is set at [i]. *)
Definition cmp_merge (partner : list nat) (mask : list bool)
    (v : list (option A * nat)) : list (option A * nat) :=
  imap (fun (i : nat) '((k1, i1) : option A * nat) =>
          match v !! nth i partner i with
          | Some (k2, i2) =>
              let t := if nth i mask false then key_max k1 k2
                       else key_min k1 k2 in
              (t, if key_eq t k1 then i1 else i2)
          | None => (k1, i1)
          end) v.

(** The partners of the steps: the neighbour, the mirror lane in a group
    of four, the mirror lane in the register, and the lane two further in
    a group of four. *)
Definition neighbour : list nat := [1; 0; 3; 2; 5; 4; 7; 6]%nat.
Definition mirror4 : list nat := [3; 2; 1; 0; 7; 6; 5; 4]%nat.
Definition mirror8 : list nat := [7; 6; 5; 4; 3; 2; 1; 0]%nat.
Definition across4 : list nat := [2; 3; 0; 1; 6; 7; 4; 5]%nat.

(** The masks [0xAA], [0xCC] and [0xF0], lane 0 first. *)
Definition mask_AA : list bool :=
  [false; true; false; true; false; true; false; true].
Definition mask_CC : list bool :=
  [false; false; true; true; false; false; true; true].
Definition mask_F0 : list bool :=
  [false; false; false; false; true; true; true; true].

Definition sort_zmm_64bit (v : list (option A * nat)) : list (option A * nat) :=
  let v := cmp_merge neighbour mask_AA v in
  let v := cmp_merge mirror4 mask_CC v in
  let v := cmp_merge neighbour mask_AA v in
  let v := cmp_merge mirror8 mask_F0 v in
  let v := cmp_merge across4 mask_CC v in
  cmp_merge neighbour mask_AA v.

End Network.

(** The kernel: the network for at most eight keys.  Longer columns go
    through wider networks and a partition, which are not written out
    here; the kernel sorts them by insertion. *)
Definition simd_argsort (A : Type) (leb : A -> A -> bool) (keys : list A)
  : list nat :=
  let n := length keys in
  if (n <=? 8)%nat then
    let v := take 8 (combine (map Some keys) (seq 0 n) ++
                     repeat (None, 0%nat) 8) in
    take n (map snd (sort_zmm_64bit leb v))
  else insertion_argsort A leb keys.

(** *** What [np.argsort] promises *)

Definition total_preorder {A : Type} (leb : A -> A -> bool) : Prop :=
  (forall a b, leb a b = true \/ leb b a = true) /\
  (forall a b c, leb a b = true -> leb b c = true -> leb a c = true).

(** The result lists every position once. *)
Definition permutes (argsort : forall A : Type, (A -> A -> bool) -> list A -> list nat)
  : Prop :=
  forall (A : Type) (leb : A -> A -> bool) (keys : list A),
    Permutation (argsort A leb keys) (seq 0 (length keys)).

(** The keys read through the result ascend. *)
Definition sorts (argsort : forall A : Type, (A -> A -> bool) -> list A -> list nat)
  : Prop :=
  forall (A : Type) (leb : A -> A -> bool) (keys : list A),
    total_preorder leb ->
    StronglySorted (fun a b => leb a b = true) (np_take keys (argsort A leb keys)).

(** Position [i] holds a key that ties with [k]. *)
Definition ties_at {A : Type} (leb : A -> A -> bool) (keys : list A) (k : A)
    (i : nat) : bool :=
  match keys !! i with
  | Some a => leb a k && leb k a
  | None => false
  end.

(** Stability, which only [kind='stable'] and [kind='mergesort'] promise:
    the positions of tying keys come out in ascending order. *)
Definition stable (argsort : forall A : Type, (A -> A -> bool) -> list A -> list nat)
  : Prop :=
  forall (A : Type) (leb : A -> A -> bool) (keys : list A) (k : A),
    total_preorder leb ->
    List.filter (ties_at leb keys k) (argsort A leb keys) =
    List.filter (ties_at leb keys k) (seq 0 (length keys)).

(** ** The program over a sorting kernel *)

Section Dashboard.

(** [np.argsort] with the default [kind='quicksort'], which pandas calls
    and which this repository does not contain: [argsort A leb keys] lists
    the positions of [keys] in ascending order of [leb]. *)
Variable argsort : forall A : Type, (A -> A -> bool) -> list A -> list nat.

(** [pandas.core.sorting.nargsort] on a column without missing values: a
    descending sort reverses the column, sorts it upwards and reverses the
    result. *)
Definition nargsort {A : Type} (leb : A -> A -> bool) (items : list A)
    (ascending : bool) : list nat :=
  let idx := seq 0 (length items) in
  let non_nans := if ascending then items else rev items in
  let non_nan_idx := if ascending then idx else rev idx in
  let indexer := np_take non_nan_idx (argsort A leb non_nans) in
  if ascending then indexer else rev indexer.

(** The rows of [df] in the order of one column's keys. *)
Definition sort_by_key {A : Type} (leb : A -> A -> bool) (key : Row -> A)
    (df : DataFrame) (ascending : bool) : DataFrame :=
  np_take df (nargsort leb (map key (rows df)) ascending).

(** Sorting by one column, with the order of its type. *)
Definition sort_by_column (c : Column) (df : DataFrame) (ascending : bool)
  : DataFrame :=
  match c with
  | ColName => sort_by_key String.leb name df ascending
  | ColPrice => sort_by_key Z.leb price df ascending
  | ColCompany => sort_by_key String.leb company df ascending
  | ColLastUpdated => sort_by_key Timestamp_leb last_updated df ascending
  | ColCategory => sort_by_key String.leb category df ascending
  end.

(** [df.sort_values(by, ascending=ascending)] for a single label: a label
    that names no column raises [KeyError]. *)
Definition sort_values (df : DataFrame) (by_ : string) (ascending : bool)
  : outcome DataFrame :=
  match column_of_label by_ with
  | Some c => Ok (sort_by_column c df ascending)
  | None => Raise (KeyError by_)
  end.

(** The boolean mask of [filter_data]. *)
Definition filter_mask (df : DataFrame) (categories : list string)
    (price_range : Z * Z) : list bool :=
  mask_and (isin (map category (rows df)) categories)
           (between (map price (rows df)) (fst price_range) (snd price_range)).

Definition filter_data (df : DataFrame) (categories : list string)
    (price_range : Z * Z) (sort_by : string) (ascending : bool)
  : outcome DataFrame :=
  let filtered := getitem_mask df (filter_mask df categories price_range) in
  sorted ← sort_values filtered sort_by ascending;
  Ok (reset_index sorted).

(** *** The page *)

(** The options of the "Sort By" select box. *)
Inductive SortOption : Type := SortPrice | SortLastUpdated | SortName.

Definition option_label (o : SortOption) : string :=
  match o with
  | SortPrice => "price"
  | SortLastUpdated => "last_updated"
  | SortName => "name"
  end.

(** The state of the widgets in one run of the script. *)
Record Widgets : Type := {
  selected_cats : list string;     (* the multiselect *)
  price_sel : Z * Z;               (* the slider *)
  sort_by : SortOption;            (* the select box *)
  ascending : bool;                (* the toggle *)
  text_input : string              (* the search box, before [strip] *)
}.

(** [result_df] of the script, for the frame [df] that [load_data] gave. *)
Definition result_df (df : DataFrame) (w : Widgets) : outcome DataFrame :=
  let query := strip (text_input w) in
  filtered_df ← filter_data df (selected_cats w) (price_sel w)
                            (option_label (sort_by w)) (ascending w);
  if truthy query then
    mask ← search_mask df query;
    Ok (getitem_mask df mask)
  else Ok filtered_df.

Definition page (w : Widgets) : outcome DataFrame :=
  df ← load_data;
  result_df df w.

(** *** Frames as objects of the Python heap *)

(** A call on objects runs in a heap of frames and leaves a heap, also when
    it raises. *)
Definition py (A : Type) : Type :=
  gmap nat (list (nat * Row)) -> outcome A * gmap nat (list (nat * Row)).

#[global] Instance py_ret : MRet py := fun A a h => (Ok a, h).

#[global] Instance py_bind : MBind py := fun A B f m h =>
  match m h with
  | (Ok a, h') => f a h'
  | (Raise e, h') => (Raise e, h')
  | (Unmodelled, h') => (Unmodelled, h')
  end.

(** A new object holding [v], at a reference the heap does not use. *)
Definition new (v : DataFrame) : py nat :=
  fun h => let l := fresh (dom h) in (Ok l, <[l := v]> h).

(** The object of a reference; a reference always has one in a running
    program. *)
Definition deref (l : nat) : py DataFrame :=
  fun h => (match h !! l with Some v => Ok v | None => Unmodelled end, h).

(** A computation on values: it does not touch the heap. *)
Definition pure {A : Type} (o : outcome A) : py A := fun h => (o, h).

(** Indexing by a mask, [sort_values] and [reset_index] (both without
    [inplace]) each build a new frame; none of them writes to its operand. *)
Definition obj_getitem_mask (df : nat) (mask_of : DataFrame -> list bool) : py nat :=
  v ← deref df;
  new (getitem_mask v (mask_of v)).

Definition obj_sort_values (df : nat) (by_ : string) (ascending : bool) : py nat :=
  v ← deref df;
  sorted ← pure (sort_values v by_ ascending);
  new sorted.

Definition obj_reset_index (df : nat) : py nat :=
  v ← deref df;
  new (reset_index v).

(** [filter_data] on a reference [df]: run in a heap, it gives the
    reference of the result, or the exception, and the heap after the call. *)
Definition filter_data_obj (df : nat) (categories : list string)
    (price_range : Z * Z) (sort_by : string) (ascending : bool) : py nat :=
  filtered ← obj_getitem_mask df (fun v => filter_mask v categories price_range);
  sorted ← obj_sort_values filtered sort_by ascending;
  obj_reset_index sorted.

End Dashboard.

(** A call that only adds objects: the heap before it is part of the heap
    after it. *)
Definition extends_heap {A : Type} (m : py A) : Prop :=
  forall h : gmap nat (list (nat * Row)), h ⊆ snd (m h).

(** The rows [filter_data] keeps. *)
Definition selected (categories : list string) (price_range : Z * Z) (r : Row) : bool :=
  existsb (String.eqb (category r)) categories &&
  ((fst price_range <=? price r) && (price r <=? snd price_range)).

(** The rows ascend, or descend, in the values of column [c]. *)
Definition ordered (c : Column) (ascending : bool) (rs : list Row) : Prop :=
  StronglySorted
    (fun r1 r2 => (if ascending then key_le c r1 r2 else key_le c r2 r1) = true)
    rs.

(** ** The rest of the page: widgets, banner and details view *)

(** [Series.unique()]: the values in the order of their first appearance. *)
Fixpoint unique_from (seen : list string) (col : list string) : list string :=
  match col with
  | [] => []
  | v :: col' =>
      if existsb (String.eqb v) seen then unique_from seen col'
      else v :: unique_from (v :: seen) col'
  end.

Definition unique (col : list string) : list string := unique_from [] col.

(** [int(col.min())] and [int(col.max())] of an integer column: the minimum
    of a column without entries is [nan], which [int] refuses. *)
Definition int_min (col : list Z) : outcome Z :=
  match col with
  | [] => Raise (ValueError "cannot convert float NaN to integer")
  | p :: col' => Ok (fold_left Z.min col' p)
  end.

Definition int_max (col : list Z) : outcome Z :=
  match col with
  | [] => Raise (ValueError "cannot convert float NaN to integer")
  | p :: col' => Ok (fold_left Z.max col' p)
  end.

(** The values the sidebar starts with: every category of the frame in
    the multiselect, and the whole price span in the slider. *)
Definition default_selection (df : DataFrame) : outcome (list string * (Z * Z)) :=
  let cats := unique (map category (rows df)) in
  p_min ← int_min (map price (rows df));
  p_max ← int_max (map price (rows df));
  Ok (cats, (p_min, p_max)).

(** What the page says above the table: a warning for a frame without
    rows, and the number of rows otherwise. *)
Inductive banner : Type :=
| Warning              (* "No matching products found." *)
| Success (n : nat).   (* "Found n matching products." *)

Definition result_banner (result : DataFrame) : banner :=
  match result with
  | [] => Warning
  | _ :: _ => Success (length result)
  end.

(** The options of the details select box: [df["name"].unique()]. *)
Definition name_options (df : DataFrame) : list string :=
  unique (map name (rows df)).

(** [frame.iloc[0]]: the first row, or [IndexError] for a frame without
    rows. *)
Inductive first_row : Type :=
| FirstRow (r : Row)
| IndexError.

Definition iloc0 (df : DataFrame) : first_row :=
  match df with
  | [] => IndexError
  | (_, r) :: _ => FirstRow r
  end.

(** [df[df["name"] == selected].iloc[0]].  The select box gives [None] when
    it has no option, and [None] equals no name. *)
Definition details (df : DataFrame) (selected : option string) : first_row :=
  iloc0 (getitem_mask df
           (map (fun n => match selected with
                          | Some s => String.eqb n s
                          | None => false
                          end)
                (map name (rows df)))).

(** ** Words for the properties of the search *)

(** An ASCII letter: the characters that [lower] can change or give. *)
Definition is_letter (c : ascii) : bool :=
  let n := N_of_ascii c in
  (((65 <=? n) && (n <=? 90)) || ((97 <=? n) && (n <=? 122)))%N.

(** Two strings that differ in the case of their letters at most. *)
Definition same_letters (s1 s2 : string) : Prop :=
  map lower (list_ascii_of_string s1) = map lower (list_ascii_of_string s2).

(** Two tokens that accept the same characters. *)
Definition token_equiv (t1 t2 : token) : Prop :=
  match t1, t2 with
  | Literal a, Literal b => lower a = lower b
  | AnyChar, AnyChar => True
  | _, _ => False
  end.

(** ** What the details view prints *)

(** The character of a decimal digit. *)
Definition digit_char (d : Z) : ascii := ascii_of_N (Z.to_N (48 + d)).

(** [%d]: the day of the month in two digits. *)
Definition two_digits (n : Z) : list ascii :=
  [digit_char (n / 10 mod 10); digit_char (n mod 10)].

(** [%Y] for a year of four digits, as every year of a [Timestamp] is. *)
Definition four_digits (n : Z) : list ascii :=
  [digit_char (n / 1000 mod 10); digit_char (n / 100 mod 10);
   digit_char (n / 10 mod 10); digit_char (n mod 10)].

(** [%b]: the short name of the month, in the C locale. *)
Definition month_abbr (m : Z) : string :=
  match m with
  | 1 => "Jan" | 2 => "Feb" | 3 => "Mar" | 4 => "Apr"
  | 5 => "May" | 6 => "Jun" | 7 => "Jul" | 8 => "Aug"
  | 9 => "Sep" | 10 => "Oct" | 11 => "Nov" | 12 => "Dec"
  | _ => ""
  end.

(** [ts.strftime('%d %b %Y')]. *)
Definition strftime (ts : Timestamp) : string :=
  string_of_list_ascii (two_digits (day ts)) ++ " " ++
  month_abbr (month ts) ++ " " ++
  string_of_list_ascii (four_digits (year ts)).

(** [str(n)] of an integer: its decimal digits after a minus sign for a
    negative one. *)
Definition py_str (n : Z) : string := NilZero.string_of_int (Z.to_int n).

(** The digits from the last to the first, with a comma after every third
    one that has a digit after it. *)
Fixpoint group_rev (ds : list ascii) : list ascii :=
  match ds with
  | a :: b :: c :: ((_ :: _) as rest) => a :: b :: c :: ","%char :: group_rev rest
  | _ => ds
  end.

Definition group (s : string) : string :=
  string_of_list_ascii (rev (group_rev (rev (list_ascii_of_string s)))).

(** [f"{n:,}"]: the digits in groups of three from the right. *)
Definition format_thousands (n : Z) : string :=
  if n <? 0 then String "-" (group (py_str (- n))) else group (py_str n).

(** A formatted number without its commas, and a decimal number read back. *)
Definition not_comma (c : ascii) : bool := negb (Ascii.eqb c ","%char).

Definition remove_commas (s : string) : string :=
  string_of_list_ascii (List.filter not_comma (list_ascii_of_string s)).

Definition parse_int (s : string) : option Z :=
  option_map Z.of_int (NilZero.int_of_string s).

(** ** The dicts of [PRODUCTS] as objects *)

(** What a key of an item's dict holds. *)
Inductive scalar : Type :=
| Str (s : string)
| Int (n : Z)
| Date (ts : Timestamp).

(** A call runs in the store of the items' dicts, by reference, and leaves
    a store, also when it raises.  The two outer levels of [PRODUCTS] are
    only read, through [.items()]: they are lists of keys with, at the inner
    level, the references of the items' dicts. *)
Definition dpy (A : Type) : Type :=
  gmap nat (gmap string scalar) -> outcome A * gmap nat (gmap string scalar).

#[global] Instance dpy_ret : MRet dpy := fun A a h => (Ok a, h).

#[global] Instance dpy_bind : MBind dpy := fun A B f m h =>
  match m h with
  | (Ok a, h') => f a h'
  | (Raise e, h') => (Raise e, h')
  | (Unmodelled, h') => (Unmodelled, h')
  end.

(** [d.copy()]: a new dict with the keys and values of [d]. *)
Definition dict_copy (d : nat) : dpy nat := fun h =>
  match h !! d with
  | Some o => let l := fresh (dom h) in (Ok l, <[l := o]> h)
  | None => (Unmodelled, h)
  end.

(** [d[k] = v] writes to the dict itself. *)
Definition dict_setitem (d : nat) (k : string) (v : scalar) : dpy unit := fun h =>
  match h !! d with
  | Some o => (Ok tt, <[d := <[k := v]> o]> h)
  | None => (Unmodelled, h)
  end.

(** [d[k]] raises [KeyError] for a key that [d] lacks. *)
Definition dict_getitem (d : nat) (k : string) : dpy scalar := fun h =>
  match h !! d with
  | Some o =>
      match o !! k with
      | Some v => (Ok v, h)
      | None => (Raise (KeyError k), h)
      end
  | None => (Unmodelled, h)
  end.

(** [pd.to_datetime] of a value of a dict; only strings are modelled. *)
Definition pd_to_datetime (v : scalar) : dpy scalar := fun h =>
  match v with
  | Str s => (Date <$> to_datetime s, h)
  | _ => (Unmodelled, h)
  end.

(** A [for] loop whose body runs in the store. *)
Fixpoint dfor_each {A S : Type} (xs : list A) (body : A -> S -> dpy S) (s : S)
  : dpy S :=
  match xs with
  | [] => mret s
  | x :: xs' => s' ← body x s; dfor_each xs' body s'
  end.

(** The row that [pd.DataFrame] reads off a dict with the five keys of the
    frame; dicts with other keys or other types of values give frames that
    the model does not have. *)
Definition row_of_dict (o : gmap string scalar) : option Row :=
  match o !! "name", o !! "price", o !! "company", o !! "last_updated",
        o !! "category" with
  | Some (Str n), Some (Int p), Some (Str c), Some (Date ts), Some (Str cat) =>
      if decide (size o = 5%nat)
      then Some {| name := n; price := p; company := c; last_updated := ts;
                   category := cat |}
      else None
  | _, _, _, _, _ => None
  end.

(** [pd.DataFrame(data)] for a list of references of dicts. *)
Fixpoint read_rows (data : list nat) : dpy (list Row) :=
  match data with
  | [] => mret []
  | d :: data' =>
      r ← (fun h => (match h !! d ≫= row_of_dict with
                     | Some r => Ok r
                     | None => Unmodelled
                     end, h));
      rs ← read_rows data';
      mret (r :: rs)
  end.

(** The body of the loop: the copy is written to, and not [details]. *)
Definition load_item (cat : string) (details : nat) (data : list nat)
  : dpy (list nat) :=
  details ← dict_copy details;
  _ ← dict_setitem details "category" (Str cat);
  v ← dict_getitem details "last_updated";
  ts ← pd_to_datetime v;
  _ ← dict_setitem details "last_updated" ts;
  mret (data ++ [details]).

(** [load_data] in the store. *)
Definition load_data_obj (products : list (string * list (string * nat)))
  : dpy DataFrame :=
  data ← dfor_each products (fun '(cat, items) data =>
            dfor_each items (fun '(_, details) data =>
              load_item cat details data) data) [];
  rs ← read_rows data;
  mret (pd_DataFrame rs).

(** The item that a dict of [PRODUCTS] holds: the four keys of the
    source, with a string, an integer and two strings. *)
Definition details_of_dict (o : gmap string scalar) : option Details :=
  match o !! "name", o !! "price", o !! "company", o !! "last_updated" with
  | Some (Str n), Some (Int p), Some (Str c), Some (Str d) =>
      if decide (size o = 4%nat)
      then Some {| d_name := n; d_price := p; d_company := c;
                   d_last_updated := d |}
      else None
  | _, _, _, _ => None
  end.

(** The nested dict that the store holds at the references of [products]. *)
Definition read_products (h : gmap nat (gmap string scalar))
    (products : list (string * list (string * nat))) : option Catalog :=
  mapM (fun '(cat, items) =>
          items' ← mapM (fun '(key, d) =>
                           o ← h !! d; details ← details_of_dict o;
                           Some (key, details)) items;
          Some (cat, items'))
       products.

(** The (category, reference) pairs in the order of the loops. *)
Definition entries_obj (products : list (string * list (string * nat)))
  : list (string * nat) :=
  flat_map (fun '(cat, items) => map (fun '(_, d) => (cat, d)) items) products.

(** The store after a call holds every dict of the store before it. *)
Definition keeps_dicts {A : Type} (m : dpy A) : Prop :=
  forall h : gmap nat (gmap string scalar), h ⊆ snd (m h).

(** The reference of the entry [e] holds, in the store [h], the item of the
    entry [e']. *)
Definition holds (h : gmap nat (gmap string scalar)) (e : string * nat)
    (e' : string * Details) : Prop :=
  fst e = fst e' /\
  exists o, h !! snd e = Some o /\ details_of_dict o = Some (snd e').

(** The dict of an item. *)
Definition dict_of_details (d : Details) : gmap string scalar :=
  {[ "name" := Str (d_name d); "price" := Int (d_price d);
     "company" := Str (d_company d); "last_updated" := Str (d_last_updated d) ]}.

(** [PRODUCTS] in a store: the references 0 to 6 hold the seven dicts. *)
Definition PRODUCTS_store : gmap nat (gmap string scalar) :=
  list_to_map
    (imap (fun i e => (i, dict_of_details (snd e))) (entries PRODUCTS)).

Definition PRODUCTS_obj : list (string * list (string * nat)) :=
  [ ("Electronics", [("Laptop", 0%nat); ("Smartphone", 1%nat); ("Earbuds", 2%nat)]);
    ("Appliances", [("Refrigerator", 3%nat); ("Washing Machine", 4%nat)]);
    ("Accessories", [("Keyboard", 5%nat); ("Mouse", 6%nat)]) ].

(** * Properties *)

(** ** Loading *)

Lemma collect_app (es1 es2 : list (string * Details)) :
  collect (es1 ++ es2) =
  (rs1 ← collect es1; rs2 ← collect es2; Ok (rs1 ++ rs2)).
Proof.
  induction es1 as [|[cat d] es1 IH]; simpl.
  - destruct (collect es2); reflexivity.
  - destruct (make_row cat d) as [r| |]; simpl; try reflexivity.
    rewrite IH. destruct (collect es1) as [rs1| |]; simpl; try reflexivity.
    destruct (collect es2); reflexivity.
Qed.

(** The inner loop appends the rows of one category to [data]. *)
Lemma inner_loop_collect (cat : string) (items : list (string * Details))
    (data : list Row) :
  for_each items (fun '(_, details) data =>
      r ← make_row cat details; Ok (data ++ [r])) data =
  (rs ← collect (map (fun '(_, details) => (cat, details)) items);
   Ok (data ++ rs)).
Proof.
  revert data. induction items as [|[key d] items IH]; intros data; simpl.
  - by rewrite app_nil_r.
  - destruct (make_row cat d) as [r| |]; simpl; try reflexivity.
    rewrite IH.
    destruct (collect _) as [rs| |]; simpl; try reflexivity.
    by rewrite <- app_assoc.
Qed.

Lemma outer_loop_collect (products : Catalog) (data : list Row) :
  for_each products (fun '(cat, items) data =>
    for_each items (fun '(_, details) data =>
      r ← make_row cat details; Ok (data ++ [r])) data) data =
  (rs ← collect (entries products); Ok (data ++ rs)).
Proof.
  revert data. induction products as [|[cat items] products IH]; intros data.
  - simpl. by rewrite app_nil_r.
  - cbn [for_each entries flat_map]. rewrite inner_loop_collect, collect_app.
    destruct (collect (map _ items)) as [rs1| |]; simpl; try reflexivity.
    rewrite IH. fold (entries products).
    destruct (collect (entries products)) as [rs2| |]; simpl; try reflexivity.
    by rewrite <- app_assoc.
Qed.

Lemma load_rows_collect (products : Catalog) :
  load_rows products = collect (entries products).
Proof.
  unfold load_rows. rewrite outer_loop_collect.
  destruct (collect (entries products)); reflexivity.
Qed.

Lemma collect_built_from (es : list (string * Details)) (rs : list Row) :
  collect es = Ok rs -> Forall2 built_from es rs.
Proof.
  revert rs. induction es as [|[cat d] es IH]; intros rs; simpl.
  - intros [= <-]. constructor.
  - unfold make_row.
    destruct (to_datetime (d_last_updated d)) as [ts| |] eqn:Hts; simpl;
      try discriminate.
    destruct (collect es) as [rs'| |]; simpl; try discriminate.
    intros [= <-]. constructor; [|by apply IH].
    unfold built_from; simpl. by rewrite Hts.
Qed.

Lemma rows_pd_DataFrame (data : list Row) : rows (pd_DataFrame data) = data.
Proof.
  unfold rows, pd_DataFrame. generalize 0%nat.
  induction data as [|r data IH]; intros n; simpl; [done|]. by rewrite IH.
Qed.

Lemma index_pd_DataFrame (data : list Row) :
  index_labels (pd_DataFrame data) = seq 0 (length data).
Proof.
  unfold index_labels, pd_DataFrame. generalize 0%nat.
  induction data as [|r data IH]; intros n; simpl; [done|]. by rewrite IH.
Qed.

(** C5: [load_data] flattens the nested dict into one row per item, built
    from the item's attributes and its category's name, in the order of the
    dict (categories, then the items of each), with a fresh range index and
    no sorting; on the sample catalog it gives the 7 rows of [catalog]. *)
Theorem load_data_flattens :
  (forall products : Catalog,
     load_data_from products = pd_DataFrame <$> collect (entries products)) /\
  (forall (products : Catalog) (df : DataFrame),
     load_data_from products = Ok df ->
     Forall2 built_from (entries products) (rows df) /\
     index_labels df = seq 0 (length (entries products))) /\
  load_data = Ok catalog /\
  rows catalog = catalog_rows /\
  length catalog = 7%nat.
Proof.
  assert (Heq : forall products : Catalog,
    load_data_from products = pd_DataFrame <$> collect (entries products)).
  { intros products. unfold load_data_from. rewrite load_rows_collect.
    destruct (collect (entries products)); reflexivity. }
  split; [exact Heq|]. split.
  - intros products df. rewrite Heq.
    destruct (collect (entries products)) as [rs| |] eqn:Hrs; simpl;
      try discriminate.
    intros [= <-]. rewrite rows_pd_DataFrame, index_pd_DataFrame.
    split; [by apply collect_built_from|].
    apply collect_built_from, Forall2_length in Hrs. by rewrite Hrs.
  - repeat split; vm_compute; reflexivity.
Qed.

(** ** Positions and masks *)

Lemma np_take_cons {A : Type} (a : list A) (i : nat) (idx : list nat) :
  np_take a (i :: idx) =
  match a !! i with Some x => x :: np_take a idx | None => np_take a idx end.
Proof. reflexivity. Qed.

Lemma np_take_app {A : Type} (a : list A) (i1 i2 : list nat) :
  np_take a (i1 ++ i2) = np_take a i1 ++ np_take a i2.
Proof. apply omap_app. Qed.

Lemma np_take_rev {A : Type} (a : list A) (idx : list nat) :
  np_take a (rev idx) = rev (np_take a idx).
Proof.
  induction idx as [|i idx IH]; [done|].
  simpl rev. rewrite np_take_app, IH, !np_take_cons.
  destruct (a !! i); simpl; [done|]. by rewrite app_nil_r.
Qed.

Lemma np_take_seq_app {A : Type} (pre a : list A) :
  np_take (pre ++ a) (seq (length pre) (length a)) = a.
Proof.
  revert pre. induction a as [|x a IH]; intros pre; [done|].
  simpl seq. rewrite np_take_cons, list_lookup_middle by done. f_equal.
  specialize (IH (pre ++ [x])).
  rewrite length_app, <- app_assoc in IH. simpl in IH.
  by rewrite Nat.add_1_r in IH.
Qed.

Lemma np_take_seq {A : Type} (a : list A) : np_take a (seq 0 (length a)) = a.
Proof. apply (np_take_seq_app []). Qed.

Lemma np_take_permutes {A : Type} (a : list A) (idx : list nat) :
  Permutation idx (seq 0 (length a)) -> Permutation (np_take a idx) a.
Proof.
  intros H. rewrite <- (np_take_seq a) at 2.
  unfold np_take. by apply omap_Permutation.
Qed.

Lemma lookup_map {A B : Type} (f : A -> B) (a : list A) (i : nat) :
  map f a !! i = f <$> a !! i.
Proof. apply (list_lookup_fmap f a i). Qed.

Lemma np_take_map {A B : Type} (f : A -> B) (a : list A) (idx : list nat) :
  np_take (map f a) idx = map f (np_take a idx).
Proof.
  induction idx as [|i idx IH]; [done|].
  rewrite !np_take_cons, lookup_map, IH. by destruct (a !! i).
Qed.

(** Filtering the taken elements is taking at the positions that pass. *)
Lemma filter_np_take {A : Type} (P : A -> bool) (a : list A) (idx : list nat) :
  List.filter P (np_take a idx) =
  np_take a (List.filter (fun i => match a !! i with
                                   | Some x => P x
                                   | None => false
                                   end) idx).
Proof.
  induction idx as [|i idx IH]; [done|].
  rewrite np_take_cons. simpl List.filter.
  destruct (a !! i) as [x|] eqn:Hi; [|done]. simpl List.filter.
  destruct (P x); rewrite ?np_take_cons, ?Hi, IH; done.
Qed.

Lemma lookup_np_take {A : Type} (a : list A) (m : list nat) (i : nat) :
  Forall (fun j => (j < length a)%nat) m ->
  np_take a m !! i = m !! i ≫= fun j => a !! j.
Proof.
  intros Hm. revert i. induction Hm as [|j m Hj Hm IH]; intros i; [done|].
  rewrite np_take_cons.
  destruct (lookup_lt_is_Some_2 a j Hj) as [x Hx]. rewrite Hx.
  destruct i as [|i]; simpl; [done|]. apply IH.
Qed.

(** Taking through a table of positions that are all in range. *)
Lemma np_take_np_take {A : Type} (a : list A) (m idx : list nat) :
  Forall (fun j => (j < length a)%nat) m ->
  np_take a (np_take m idx) = np_take (np_take a m) idx.
Proof.
  intros Hm. induction idx as [|i idx IH]; [done|].
  rewrite !np_take_cons, (lookup_np_take a m i Hm).
  destruct (m !! i) as [j|]; simpl; [|done].
  rewrite np_take_cons, IH. by destruct (a !! j).
Qed.

Lemma seq_in_range (n : nat) : Forall (fun j => (j < n)%nat) (seq 0 n).
Proof. apply Forall_forall. intros j Hj. apply elem_of_seq in Hj. lia. Qed.

Lemma getitem_mask_map (f : nat * Row -> bool) (df : DataFrame) :
  getitem_mask df (map f df) = List.filter f df.
Proof.
  induction df as [|x df IH]; [done|]. simpl. by rewrite IH.
Qed.

Lemma mask_and_map {A : Type} (f g : A -> bool) (l : list A) :
  mask_and (map f l) (map g l) = map (fun x => f x && g x) l.
Proof. induction l as [|x l IH]; [done|]. simpl. by rewrite IH. Qed.

Lemma mask_or_map {A : Type} (f g : A -> bool) (l : list A) :
  mask_or (map f l) (map g l) = map (fun x => f x || g x) l.
Proof. induction l as [|x l IH]; [done|]. simpl. by rewrite IH. Qed.

Lemma rows_filter (P : Row -> bool) (df : DataFrame) :
  rows (List.filter (fun x => P (snd x)) df) = List.filter P (rows df).
Proof.
  unfold rows. induction df as [|x df IH]; [done|]. simpl.
  destruct (P (snd x)); simpl; by rewrite IH.
Qed.

(** The mask of [filter_data] marks the rows that [selected] keeps. *)
Lemma filter_mask_selected (df : DataFrame) (categories : list string)
    (price_range : Z * Z) :
  filter_mask df categories price_range =
  map (fun x => selected categories price_range (snd x)) df.
Proof.
  unfold filter_mask, isin, between, rows. rewrite !map_map.
  apply (mask_and_map
    (fun x => existsb (String.eqb (category (snd x))) categories)
    (fun x => (fst price_range <=? price (snd x)) &&
              (price (snd x) <=? snd price_range))).
Qed.

(** ** The orders of the columns *)

Lemma Z_leb_preorder : total_preorder Z.leb.
Proof. split; intros; lia. Qed.

Lemma string_compare_trans (a b c : string) :
  String.compare a b <> Gt -> String.compare b c <> Gt ->
  String.compare a c <> Gt.
Proof.
  revert b c. induction a as [|x a IH]; intros [|y b] [|z c]; simpl;
    try congruence.
  unfold Ascii.compare.
  destruct (N.compare_spec (N_of_ascii x) (N_of_ascii y)) as [Hxy|Hxy|Hxy];
    destruct (N.compare_spec (N_of_ascii y) (N_of_ascii z)) as [Hyz|Hyz|Hyz];
    destruct (N.compare_spec (N_of_ascii x) (N_of_ascii z)) as [Hxz|Hxz|Hxz];
    try congruence; try lia.
  apply IH.
Qed.

Lemma String_leb_preorder : total_preorder String.leb.
Proof.
  split; [apply String.leb_total|].
  intros a b c. unfold String.leb.
  pose proof (string_compare_trans a b c) as H.
  destruct (String.compare a b), (String.compare b c), (String.compare a c);
    try done; intros; exfalso; apply H; congruence.
Qed.

Lemma Timestamp_leb_preorder : total_preorder Timestamp_leb.
Proof.
  split.
  - intros a b. unfold Timestamp_leb.
    rewrite (Z.eqb_sym (year b)), (Z.eqb_sym (month b)).
    destruct (year a =? year b) eqn:?, (month a =? month b) eqn:?; lia.
  - intros a b c. unfold Timestamp_leb.
    destruct (year a =? year b) eqn:?, (month a =? month b) eqn:?,
      (year b =? year c) eqn:?, (month b =? month c) eqn:?,
      (year a =? year c) eqn:?, (month a =? month c) eqn:?; lia.
Qed.

Lemma Timestamp_leb_antisym (a b : Timestamp) :
  Timestamp_leb a b = true -> Timestamp_leb b a = true -> a = b.
Proof.
  destruct a as [ya ma da], b as [yb mb db]. unfold Timestamp_leb. simpl.
  rewrite (Z.eqb_sym yb), (Z.eqb_sym mb).
  destruct (ya =? yb) eqn:?, (ma =? mb) eqn:?; intros; f_equal; lia.
Qed.

(** ** The insertion argsort *)

Lemma flip_preorder {A : Type} (leb : A -> A -> bool) :
  total_preorder leb -> total_preorder (fun a b => leb b a).
Proof. intros [Htot Htrans]. split; [intros a b; apply Htot|eauto]. Qed.

Lemma enumerate_from {A : Type} (pre keys : list A) :
  map fst (combine (seq (length pre) (length keys)) keys) =
    seq (length pre) (length keys) /\
  map snd (combine (seq (length pre) (length keys)) keys) = keys /\
  Forall (fun p => (pre ++ keys) !! fst p = Some (snd p))
         (combine (seq (length pre) (length keys)) keys).
Proof.
  revert pre. induction keys as [|k keys IH]; intros pre.
  - simpl. auto.
  - destruct (IH (pre ++ [k])) as (Hfst & Hsnd & Hall).
    rewrite length_app, Nat.add_1_r, <- app_assoc in *. simpl in *.
    rewrite Hfst, Hsnd. repeat split; [].
    constructor; [|done]. simpl. by apply list_lookup_middle.
Qed.

Lemma enumerate_fst {A : Type} (keys : list A) :
  map fst (enumerate keys) = seq 0 (length keys).
Proof. apply (enumerate_from [] keys). Qed.

Lemma enumerate_lookup {A : Type} (keys : list A) :
  Forall (fun p => keys !! fst p = Some (snd p)) (enumerate keys).
Proof. apply (enumerate_from [] keys). Qed.

Lemma insert_key_Permutation {A : Type} (leb : A -> A -> bool) (x : nat * A)
    (l : list (nat * A)) :
  Permutation (insert_key leb x l) (x :: l).
Proof.
  induction l as [|y l IH]; simpl; [done|].
  destruct (leb (snd x) (snd y)); [done|].
  rewrite IH. apply perm_swap.
Qed.

Lemma insertion_sort_Permutation {A : Type} (leb : A -> A -> bool)
    (l : list (nat * A)) :
  Permutation (insertion_sort leb l) l.
Proof.
  induction l as [|x l IH]; simpl; [done|].
  by rewrite insert_key_Permutation, IH.
Qed.

Lemma insert_key_sorted {A : Type} (leb : A -> A -> bool) (x : nat * A)
    (l : list (nat * A)) :
  total_preorder leb ->
  StronglySorted (fun p q => leb (snd p) (snd q) = true) l ->
  StronglySorted (fun p q => leb (snd p) (snd q) = true) (insert_key leb x l).
Proof.
  intros [Htot Htrans] Hl.
  induction Hl as [|y l Hl IH Hy]; simpl.
  - repeat constructor.
  - destruct (leb (snd x) (snd y)) eqn:Hxy.
    + constructor; [by constructor|].
      constructor; [done|].
      eapply Forall_impl; [exact Hy|]. simpl. eauto.
    + constructor; [done|].
      rewrite insert_key_Permutation. constructor; [|done].
      destruct (Htot (snd x) (snd y)); congruence.
Qed.

Lemma insertion_sort_sorted {A : Type} (leb : A -> A -> bool)
    (l : list (nat * A)) :
  total_preorder leb ->
  StronglySorted (fun p q => leb (snd p) (snd q) = true) (insertion_sort leb l).
Proof.
  intros Hleb. induction l as [|x l IH]; simpl; [constructor|].
  by apply insert_key_sorted.
Qed.

(** Inserting [x] puts it before the entries that tie with it. *)
Lemma insert_key_ties {A : Type} (leb : A -> A -> bool) (k : A) (x : nat * A)
    (l : list (nat * A)) :
  total_preorder leb ->
  List.filter (fun p => leb (snd p) k && leb k (snd p)) (insert_key leb x l) =
  List.filter (fun p => leb (snd p) k && leb k (snd p)) (x :: l).
Proof.
  intros [Htot Htrans]. induction l as [|y l IH]; [done|].
  simpl insert_key. destruct (leb (snd x) (snd y)) eqn:Hxy; [done|].
  simpl List.filter in *. rewrite IH.
  destruct (leb (snd x) k && leb k (snd x)) eqn:Hx; [|done].
  destruct (leb (snd y) k && leb k (snd y)) eqn:Hy; [|done].
  apply andb_true_iff in Hx as [Hx1 Hx2], Hy as [Hy1 Hy2].
  rewrite (Htrans _ _ _ Hx1 Hy2) in Hxy. discriminate.
Qed.

Lemma insertion_sort_ties {A : Type} (leb : A -> A -> bool) (k : A)
    (l : list (nat * A)) :
  total_preorder leb ->
  List.filter (fun p => leb (snd p) k && leb k (snd p)) (insertion_sort leb l) =
  List.filter (fun p => leb (snd p) k && leb k (snd p)) l.
Proof.
  intros Hleb. induction l as [|x l IH]; [done|].
  simpl insertion_sort. rewrite insert_key_ties by done.
  simpl. by rewrite IH.
Qed.

(** Pairs that carry the key of their position. *)
Lemma np_take_fst {A : Type} (keys : list A) (l : list (nat * A)) :
  Forall (fun p => keys !! fst p = Some (snd p)) l ->
  np_take keys (map fst l) = map snd l.
Proof.
  induction 1 as [|p l Hp Hl IH]; [done|].
  simpl map. by rewrite np_take_cons, Hp, IH.
Qed.

Lemma filter_ties_fst {A : Type} (leb : A -> A -> bool) (keys : list A) (k : A)
    (l : list (nat * A)) :
  Forall (fun p => keys !! fst p = Some (snd p)) l ->
  List.filter (ties_at leb keys k) (map fst l) =
  map fst (List.filter (fun p => leb (snd p) k && leb k (snd p)) l).
Proof.
  induction 1 as [|p l Hp Hl IH]; [done|].
  simpl. unfold ties_at at 1. rewrite Hp.
  destruct (leb (snd p) k && leb k (snd p)); simpl; by rewrite IH.
Qed.

Lemma insertion_argsort_permutes : permutes insertion_argsort.
Proof.
  intros A leb keys. unfold insertion_argsort.
  rewrite insertion_sort_Permutation. by rewrite enumerate_fst.
Qed.

Lemma insertion_argsort_sorts : sorts insertion_argsort.
Proof.
  intros A leb keys Hleb. unfold insertion_argsort.
  rewrite np_take_fst.
  - pose proof (insertion_sort_sorted leb (enumerate keys) Hleb) as Hs.
    induction Hs as [|p l Hs IH Hp]; simpl; constructor; [done|].
    apply List.Forall_forall. intros b Hb.
    apply in_map_iff in Hb as (q & <- & Hq).
    by apply (proj1 (List.Forall_forall _ _) Hp).
  - rewrite insertion_sort_Permutation. apply enumerate_lookup.
Qed.

Lemma insertion_argsort_stable : stable insertion_argsort.
Proof.
  intros A leb keys k Hleb. unfold insertion_argsort.
  rewrite filter_ties_fst.
  - rewrite insertion_sort_ties by done.
    rewrite <- (filter_ties_fst leb keys k) by apply enumerate_lookup.
    by rewrite enumerate_fst.
  - rewrite insertion_sort_Permutation. apply enumerate_lookup.
Qed.

(** ** The reversed argsort *)

Lemma StronglySorted_rev {A : Type} (R : A -> A -> Prop) (l : list A) :
  StronglySorted (fun a b => R b a) l -> StronglySorted R (rev l).
Proof.
  induction 1 as [|a l Hl IH Ha]; simpl; [constructor|].
  apply StronglySorted_app_2; [|done|repeat constructor].
  intros x1 x2 Hx1 Hx2. apply list_elem_of_In in Hx1, Hx2.
  apply in_rev in Hx1. destruct Hx2 as [<-|[]].
  rewrite Forall_forall in Ha. by apply Ha, list_elem_of_In.
Qed.

Lemma reversed_argsort_permutes : permutes reversed_argsort.
Proof.
  intros A leb keys. unfold reversed_argsort.
  rewrite <- Permutation_rev. apply insertion_argsort_permutes.
Qed.

Lemma reversed_argsort_sorts : sorts reversed_argsort.
Proof.
  intros A leb keys Hleb. unfold reversed_argsort.
  rewrite np_take_rev. apply StronglySorted_rev.
  apply (insertion_argsort_sorts A (fun a b => leb b a) keys).
  by apply flip_preorder.
Qed.

(** ** Sorting a frame with any kernel *)

Section Sorting.

Variable argsort : forall A : Type, (A -> A -> bool) -> list A -> list nat.

Lemma sort_by_key_ascending {A : Type} (leb : A -> A -> bool) (key : Row -> A)
    (df : DataFrame) :
  sort_by_key argsort leb key df true =
  np_take df (argsort A leb (map key (rows df))).
Proof.
  unfold sort_by_key, nargsort. rewrite np_take_np_take.
  - unfold rows. by rewrite !length_map, np_take_seq.
  - unfold rows. rewrite !length_map. apply seq_in_range.
Qed.

Lemma sort_by_key_descending {A : Type} (leb : A -> A -> bool) (key : Row -> A)
    (df : DataFrame) :
  sort_by_key argsort leb key df false =
  rev (np_take (rev df) (argsort A leb (rev (map key (rows df))))).
Proof.
  unfold sort_by_key, nargsort. rewrite np_take_rev, np_take_np_take.
  - unfold rows. by rewrite !length_map, np_take_rev, np_take_seq.
  - unfold rows. rewrite !length_map.
    apply Forall_forall. intros j Hj.
    apply list_elem_of_In, in_rev, in_seq in Hj. lia.
Qed.

Section Permutes.

Hypothesis argsort_permutes : permutes argsort.

Lemma sort_by_key_Permutation {A : Type} (leb : A -> A -> bool) (key : Row -> A)
    (df : DataFrame) (ascending : bool) :
  Permutation (sort_by_key argsort leb key df ascending) df.
Proof.
  destruct ascending.
  - rewrite sort_by_key_ascending. apply np_take_permutes.
    rewrite (argsort_permutes A leb). unfold rows. by rewrite !length_map.
  - rewrite sort_by_key_descending, <- Permutation_rev.
    rewrite np_take_permutes; [by rewrite <- Permutation_rev|].
    rewrite (argsort_permutes A leb). unfold rows.
    by rewrite !length_rev, !length_map.
Qed.

Lemma sort_by_column_Permutation (c : Column) (df : DataFrame) (ascending : bool) :
  Permutation (sort_by_column argsort c df ascending) df.
Proof. destruct c; apply sort_by_key_Permutation. Qed.

End Permutes.

Section Stable.

Hypothesis argsort_stable : stable argsort.

(** A stable kernel keeps the elements that tie with [k] in their order. *)
Lemma stable_np_take {A B : Type} (leb : A -> A -> bool) (f : B -> A) (k : A)
    (l : list B) :
  total_preorder leb ->
  List.filter (fun x => leb (f x) k && leb k (f x))
              (np_take l (argsort A leb (map f l))) =
  List.filter (fun x => leb (f x) k && leb k (f x)) l.
Proof.
  intros Hleb.
  assert (Hext : forall i,
    match l !! i with
    | Some x => leb (f x) k && leb k (f x)
    | None => false
    end = ties_at leb (map f l) k i).
  { intros i. unfold ties_at. rewrite lookup_map. by destruct (l !! i). }
  rewrite filter_np_take, (filter_ext _ _ Hext).
  rewrite (argsort_stable A leb (map f l) k Hleb).
  rewrite <- (filter_ext _ _ Hext), length_map, <- filter_np_take.
  by rewrite np_take_seq.
Qed.

Lemma sort_by_key_ties {A : Type} (leb : A -> A -> bool) (key : Row -> A)
    (k : A) (df : DataFrame) (ascending : bool) :
  total_preorder leb ->
  List.filter (fun x => leb (key (snd x)) k && leb k (key (snd x)))
              (sort_by_key argsort leb key df ascending) =
  List.filter (fun x => leb (key (snd x)) k && leb k (key (snd x))) df.
Proof.
  intros Hleb. unfold rows. destruct ascending.
  - rewrite sort_by_key_ascending. unfold rows. rewrite map_map.
    by apply (stable_np_take leb (fun x => key (snd x))).
  - rewrite sort_by_key_descending. unfold rows.
    rewrite map_map, <- map_rev, filter_rev.
    rewrite (stable_np_take leb (fun x => key (snd x))) by done.
    by rewrite filter_rev, rev_involutive.
Qed.

End Stable.

Section Sorts.

Hypothesis argsort_sorts : sorts argsort.

Lemma sort_by_key_sorted {A : Type} (leb : A -> A -> bool) (key : Row -> A)
    (df : DataFrame) (ascending : bool) :
  total_preorder leb ->
  StronglySorted
    (fun a b => (if ascending then leb a b else leb b a) = true)
    (map key (rows (sort_by_key argsort leb key df ascending))).
Proof.
  intros Hleb. unfold rows. destruct ascending.
  - rewrite sort_by_key_ascending. unfold rows.
    rewrite map_map, <- np_take_map, <- map_map. by apply argsort_sorts.
  - rewrite sort_by_key_descending. unfold rows.
    rewrite !map_map, map_rev, <- np_take_map, map_rev.
    apply StronglySorted_rev.
    apply (argsort_sorts A leb (rev (map (fun x => key (snd x)) df)) Hleb).
Qed.

End Sorts.

End Sorting.

(** ** [filter_data] *)

Lemma column_of_label_label (c : Column) : column_of_label (column_label c) = Some c.
Proof. by destruct c. Qed.

Ltac case_label :=
  match goal with
  | |- context [String.eqb ?a ?b] => destruct (String.eqb_spec a b) as [->|?]
  end.

Lemma column_of_label_Some (label : string) (c : Column) :
  column_of_label label = Some c -> label = column_label c.
Proof.
  unfold column_of_label.
  repeat (case_label; [by intros [= <-]|]).
  discriminate.
Qed.

Lemma column_of_label_In (label : string) :
  In label column_labels <-> exists c, column_of_label label = Some c.
Proof.
  split.
  - unfold column_labels. simpl.
    intros [<-|[<-|[<-|[<-|[<-|[]]]]]]; eexists; reflexivity.
  - intros [c Hc]. apply column_of_label_Some in Hc as ->.
    destruct c; simpl; tauto.
Qed.

Lemma selected_spec (categories : list string) (lo hi : Z) (r : Row) :
  selected categories (lo, hi) r = true <->
  In (category r) categories /\ lo <= price r <= hi.
Proof.
  unfold selected. simpl. rewrite !andb_true_iff, existsb_exists.
  split.
  - intros [(v & Hv & Heq) ?]. apply String.eqb_eq in Heq as <-.
    split; [done|lia].
  - intros [Hin ?]. split; [|lia].
    exists (category r). split; [done|apply String.eqb_refl].
Qed.

Lemma rows_reset_index (df : DataFrame) : rows (reset_index df) = rows df.
Proof. apply rows_pd_DataFrame. Qed.

Lemma tie_decides_eq {A : Type} `{EqDecision A} (leb : A -> A -> bool) (a k : A) :
  total_preorder leb ->
  (forall x y, leb x y = true -> leb y x = true -> x = y) ->
  leb a k && leb k a = bool_decide (k = a).
Proof.
  intros [Htot _] Hanti. destruct (decide (k = a)) as [->|Hne].
  - rewrite bool_decide_eq_true_2 by done. by destruct (Htot a a) as [->| ->].
  - rewrite bool_decide_eq_false_2 by done.
    destruct (leb a k) eqn:H1, (leb k a) eqn:H2; try done.
    destruct Hne. symmetry. by apply Hanti.
Qed.

Section FilterData.

Variable argsort : forall A : Type, (A -> A -> bool) -> list A -> list nat.

(** With the label of a column, [filter_data] returns the kept rows sorted
    by that column under a fresh index. *)
Lemma filter_data_column (df : DataFrame) (categories : list string)
    (price_range : Z * Z) (c : Column) (ascending : bool) :
  filter_data argsort df categories price_range (column_label c) ascending =
  Ok (reset_index (sort_by_column argsort c
        (List.filter (fun x => selected categories price_range (snd x)) df)
        ascending)).
Proof.
  unfold filter_data, sort_values.
  by rewrite filter_mask_selected, getitem_mask_map, column_of_label_label.
Qed.

Lemma filter_data_no_column (df : DataFrame) (categories : list string)
    (price_range : Z * Z) (by_ : string) (ascending : bool) :
  column_of_label by_ = None ->
  filter_data argsort df categories price_range by_ ascending =
  Raise (KeyError by_).
Proof. intros H. unfold filter_data, sort_values. by rewrite H. Qed.

(** C8, as the code has it: [filter_data] raises exactly on a sort key that
    names none of the five columns, and then it is [KeyError]; every column
    is accepted, the three options of the select box among them. *)
Theorem filter_data_sort_key (df : DataFrame) (categories : list string)
    (price_range : Z * Z) (by_ : string) (ascending : bool) :
  (In by_ column_labels ->
   exists out,
     filter_data argsort df categories price_range by_ ascending = Ok out) /\
  (~ In by_ column_labels ->
   filter_data argsort df categories price_range by_ ascending =
   Raise (KeyError by_)) /\
  (forall o : SortOption, In (option_label o) column_labels).
Proof.
  split; [|split].
  - intros Hin. apply column_of_label_In in Hin as [c Hc].
    apply column_of_label_Some in Hc as ->.
    rewrite filter_data_column. eauto.
  - intros Hnot. apply filter_data_no_column.
    destruct (column_of_label by_) as [c|] eqn:Hc; [|done].
    destruct Hnot. apply column_of_label_In. eauto.
  - intros []; simpl; tauto.
Qed.

Section Permutes.

Hypothesis argsort_permutes : permutes argsort.

(** C1: [filter_data] returns exactly the rows whose category is among
    [categories] and whose price lies in the closed range [lo, hi] (each as
    often as the input has it), whatever the column sorted by and the
    direction; with no category it returns no row.  The bounds need not be
    ordered for this: a range with [hi < lo] keeps nothing. *)
Theorem filter_data_selects (df : DataFrame) (categories : list string)
    (lo hi : Z) (c : Column) (ascending : bool) :
  exists out,
    filter_data argsort df categories (lo, hi) (column_label c) ascending = Ok out /\
    Permutation (rows out) (List.filter (selected categories (lo, hi)) (rows df)) /\
    (forall r, In r (rows out) <->
               In r (rows df) /\ In (category r) categories /\ lo <= price r <= hi) /\
    (categories = [] -> out = []).
Proof.
  rewrite filter_data_column. eexists. split; [reflexivity|].
  assert (Hperm : Permutation
    (rows (reset_index (sort_by_column argsort c
       (List.filter (fun x => selected categories (lo, hi) (snd x)) df)
       ascending)))
    (List.filter (selected categories (lo, hi)) (rows df))).
  { rewrite rows_reset_index, <- rows_filter. unfold rows.
    apply Permutation_map. by apply sort_by_column_Permutation. }
  split; [exact Hperm|]. split.
  - intros r. split.
    + intros Hr. apply (Permutation_in _ Hperm), filter_In in Hr as [Hr Hsel].
      by apply selected_spec in Hsel.
    + intros (Hr & Hsel). apply (Permutation_in _ (Permutation_sym Hperm)).
      apply filter_In. by rewrite selected_spec.
  - intros ->.
    assert (Hnil : List.filter
      (fun x : nat * Row => selected [] (lo, hi) (snd x)) df = []).
    { clear Hperm. induction df as [|x df' IH]; [done|]. simpl. apply IH. }
    rewrite Hnil.
    pose proof (sort_by_column_Permutation argsort argsort_permutes c []
                  ascending) as Hsorted.
    apply Permutation_sym, Permutation_nil in Hsorted. by rewrite Hsorted.
Qed.

End Permutes.

Section Stable.

Hypothesis argsort_stable : stable argsort.

Lemma sort_by_key_same {A : Type} `{EqDecision A} (leb : A -> A -> bool)
    (key : Row -> A) (r0 : Row) (df : DataFrame) (ascending : bool) :
  total_preorder leb ->
  (forall x y, leb x y = true -> leb y x = true -> x = y) ->
  List.filter (fun x => bool_decide (key r0 = key (snd x)))
              (sort_by_key argsort leb key df ascending) =
  List.filter (fun x => bool_decide (key r0 = key (snd x))) df.
Proof.
  intros Hpre Hanti.
  assert (Hext : forall x : nat * Row,
    bool_decide (key r0 = key (snd x)) =
    leb (key (snd x)) (key r0) && leb (key r0) (key (snd x))).
  { intros x. symmetry. by apply tie_decides_eq. }
  rewrite !(filter_ext _ _ Hext).
  by apply sort_by_key_ties.
Qed.

Lemma sort_by_column_same (c : Column) (r0 : Row) (df : DataFrame)
    (ascending : bool) :
  List.filter (fun x => same_key c r0 (snd x))
              (sort_by_column argsort c df ascending) =
  List.filter (fun x => same_key c r0 (snd x)) df.
Proof.
  destruct c; simpl.
  - apply sort_by_key_same;
      [apply String_leb_preorder|apply String.leb_antisym].
  - apply sort_by_key_same; [apply Z_leb_preorder|intros; lia].
  - apply sort_by_key_same;
      [apply String_leb_preorder|apply String.leb_antisym].
  - apply sort_by_key_same;
      [apply Timestamp_leb_preorder|apply Timestamp_leb_antisym].
  - apply sort_by_key_same;
      [apply String_leb_preorder|apply String.leb_antisym].
Qed.

(** With a stable kernel the rows of the result whose sort-key values are
    equal stand in their order in the input.  [filter_data] does not ask for
    one: [kind='stable'] is not passed to [sort_values]. *)
Lemma filter_data_keeps_ties (df : DataFrame) (categories : list string)
    (price_range : Z * Z) (c : Column) (ascending : bool) :
  exists out,
    filter_data argsort df categories price_range (column_label c) ascending = Ok out /\
    forall r0 : Row,
      List.filter (same_key c r0) (rows out) =
      List.filter (same_key c r0)
                  (List.filter (selected categories price_range) (rows df)).
Proof.
  rewrite filter_data_column. eexists. split; [reflexivity|].
  intros r0. rewrite rows_reset_index, <- rows_filter, <- !rows_filter.
  by rewrite sort_by_column_same.
Qed.

End Stable.

End FilterData.

(** ** Search *)

Lemma special_dot (c : ascii) : is_special c = false -> Ascii.eqb c "."%char = false.
Proof.
  unfold is_special, special_chars. simpl. intros H.
  by apply orb_false_elim in H as [H _].
Qed.

Lemma sre_parse_plain (p : list ascii) :
  forallb (fun c => negb (is_special c)) p = true ->
  sre_parse p = Some (map Literal p).
Proof.
  induction p as [|c p IH]; [done|]. simpl.
  intros [Hc Hp]%andb_true_iff. apply negb_true_iff in Hc.
  by rewrite (IH Hp), (special_dot c Hc), Hc.
Qed.

Lemma match_here_literal (p s : list ascii) :
  match_here (map Literal p) s = is_prefix (map lower p) (map lower s).
Proof.
  revert s. induction p as [|a p IH]; intros [|b s]; simpl; try done.
  by rewrite IH.
Qed.

Lemma re_search_literal (p s : list ascii) :
  re_search (map Literal p) s = is_substring (map lower p) (map lower s).
Proof.
  induction s as [|b s IH]; simpl.
  - by rewrite (match_here_literal p []).
  - by rewrite (match_here_literal p (b :: s)), IH.
Qed.

Lemma str_contains_plain (col : list string) (query : string) :
  plain_query query = true ->
  str_contains col query = Ok (map (ci_substring query) col).
Proof.
  intros Hq. unfold str_contains. rewrite (sre_parse_plain _ Hq).
  f_equal. apply map_ext. intros s. apply re_search_literal.
Qed.

Lemma search_mask_plain (df : DataFrame) (query : string) :
  plain_query query = true ->
  search_mask df query = Ok (map (fun x => search_matches query (snd x)) df).
Proof.
  intros Hq. unfold search_mask, rows.
  rewrite !str_contains_plain, !map_map by done. simpl.
  by rewrite (mask_or_map (fun x => ci_substring query (name (snd x)))
                          (fun x => ci_substring query (company (snd x)))).
Qed.

Lemma search_plain (df : DataFrame) (query : string) :
  plain_query query = true ->
  search df query = Ok (List.filter (fun x => search_matches query (snd x)) df).
Proof.
  intros Hq. unfold search. rewrite search_mask_plain by done. simpl.
  by rewrite getitem_mask_map.
Qed.

(** C4, as the code has it: on a frame whose names and companies are ASCII
    text, for an ASCII query without characters that [re] reads as syntax,
    [search] returns exactly the rows in whose name or company the query
    occurs when case is ignored, in their order and under their labels;
    "dell" matches a row whose company is "Dell", and "hp" on the sample
    catalog returns exactly the Mouse row. *)
Theorem search_plain_query :
  (forall (df : DataFrame) (query : string),
     ascii_text query = true ->
     Forall (fun r => ascii_text (name r) = true /\
                      ascii_text (company r) = true) (rows df) ->
     plain_query query = true ->
     search df query =
     Ok (List.filter (fun x => search_matches query (snd x)) df)) /\
  (forall r : Row, company r = "Dell" -> search_matches "dell" r = true) /\
  search catalog "hp" = Ok [(6%nat, mouse)].
Proof.
  split; [intros df query _ _; apply search_plain|]. split.
  - intros r Hr. unfold search_matches. rewrite Hr.
    apply orb_true_iff. right. vm_compute. reflexivity.
  - vm_compute. reflexivity.
Qed.

Lemma filter_all {A : Type} (l : list A) : List.filter (fun _ => true) l = l.
Proof. induction l as [|x l IH]; [done|]. simpl. by rewrite IH. Qed.

(** C7: [search] with the empty query returns the whole frame, rows and
    labels unchanged and in order: the mask is true at every row. *)
Theorem search_empty_query (df : DataFrame) :
  search_mask df "" = Ok (map (fun _ => true) df) /\ search df "" = Ok df.
Proof.
  assert (Hall : forall r, search_matches "" r = true).
  { intros r. unfold search_matches, ci_substring. simpl.
    by destruct (map lower (list_ascii_of_string (name r))). }
  split.
  - rewrite search_mask_plain by done. f_equal. apply map_ext. intros x. apply Hall.
  - rewrite search_plain by done. f_equal.
    rewrite (filter_ext _ (fun _ => true)) by (intros x; apply Hall).
    apply filter_all.
Qed.

Lemma getitem_mask_labels (df1 df2 : DataFrame) (mask : list bool) :
  index_labels df1 = index_labels df2 ->
  index_labels (getitem_mask df1 mask) = index_labels (getitem_mask df2 mask).
Proof.
  revert df2 mask. unfold index_labels.
  induction df1 as [|x df1 IH]; intros [|y df2] mask; simpl; try done.
  intros [= Hxy Hrest]. destruct mask as [|[] mask]; simpl; [done| |];
    rewrite ?Hxy; by rewrite (IH df2 mask Hrest).
Qed.

(** C10: the rows a query selects depend on the names and companies only:
    two frames that agree on these two columns get the same mask from every
    query, whatever their prices, categories and dates, and the same outcome
    of the call. *)
Theorem search_mask_name_company (df1 df2 : DataFrame) (query : string) :
  map name (rows df1) = map name (rows df2) ->
  map company (rows df1) = map company (rows df2) ->
  search_mask df1 query = search_mask df2 query /\
  (index_labels df1 = index_labels df2 ->
   index_labels <$> search df1 query = index_labels <$> search df2 query).
Proof.
  intros Hname Hcompany.
  assert (Hmask : search_mask df1 query = search_mask df2 query).
  { unfold search_mask. by rewrite Hname, Hcompany. }
  split; [done|]. intros Hlabels. unfold search. rewrite Hmask.
  destruct (search_mask df2 query) as [mask| |]; simpl; try done.
  f_equal. by apply getitem_mask_labels.
Qed.

Lemma getitem_mask_sublist (df : DataFrame) (mask : list bool) :
  sublist (getitem_mask df mask) df.
Proof.
  revert mask. induction df as [|x df IH]; intros [|[] mask]; simpl;
    try constructor; try apply IH. apply sublist_nil_l.
Qed.

(** What [search] returns is a part of the frame in the frame's order: the
    search sorts nothing and adds nothing. *)
Theorem search_sublist (df out : DataFrame) (query : string) :
  search df query = Ok out -> sublist out df.
Proof.
  unfold search. destruct (search_mask df query) as [mask| |]; simpl;
    try discriminate.
  intros [= <-]. apply getitem_mask_sublist.
Qed.

(** ** The page *)

Lemma load_data_catalog : load_data = Ok catalog.
Proof. vm_compute. reflexivity. Qed.

Lemma option_label_column (o : SortOption) :
  exists c, option_label o = column_label c.
Proof.
  destruct o; [exists ColPrice|exists ColLastUpdated|exists ColName]; reflexivity.
Qed.

Lemma truthy_spec (s : string) : truthy s = true <-> s <> "".
Proof.
  unfold truthy. rewrite negb_true_iff. apply String.eqb_neq.
Qed.

Lemma result_df_cases
    (argsort : forall A : Type, (A -> A -> bool) -> list A -> list nat)
    (df : DataFrame) (w : Widgets) :
  result_df argsort df w =
  if truthy (strip (text_input w))
  then search df (strip (text_input w))
  else filter_data argsort df (selected_cats w) (price_sel w)
                   (option_label (sort_by w)) (ascending w).
Proof.
  unfold result_df.
  destruct (option_label_column (sort_by w)) as [c ->].
  rewrite filter_data_column. simpl.
  by destruct (truthy (strip (text_input w))).
Qed.

(** C3: with a non-empty query (the text of the search box after [strip]),
    the page shows the search over the whole frame that [load_data] gave,
    and the category, price and sort widgets have no part in the result;
    only with an empty query does it show the filtered frame. *)
Theorem result_df_search_or_filter
    (argsort : forall A : Type, (A -> A -> bool) -> list A -> list nat)
    (w : Widgets) :
  (forall df : DataFrame,
     result_df argsort df w =
     if truthy (strip (text_input w))
     then search df (strip (text_input w))
     else filter_data argsort df (selected_cats w) (price_sel w)
                      (option_label (sort_by w)) (ascending w)) /\
  page argsort w =
    (if truthy (strip (text_input w))
     then search catalog (strip (text_input w))
     else filter_data argsort catalog (selected_cats w) (price_sel w)
                      (option_label (sort_by w)) (ascending w)) /\
  (truthy (strip (text_input w)) = true <-> strip (text_input w) <> "").
Proof.
  split; [intros df; apply result_df_cases|].
  split; [|apply truthy_spec].
  unfold page. rewrite load_data_catalog. simpl. apply result_df_cases.
Qed.

(** ** The averages *)

(** The cuts of [pairwise_sum] never use up the fuel: the sum obeys the
    equation of numpy's recursion. *)
Lemma pairwise_sum_rec_fuel (fuel1 fuel2 : nat) (a : list spec_float) :
  (length a <= fuel1)%nat -> (length a <= fuel2)%nat ->
  pairwise_sum_rec fuel1 a = pairwise_sum_rec fuel2 a.
Proof.
  revert fuel2 a. induction fuel1 as [|fuel1 IH]; intros fuel2 a H1 H2.
  - destruct a; [|simpl in H1; lia]. by destruct fuel2.
  - destruct fuel2 as [|fuel2].
    { destruct a; [done|simpl in H2; lia]. }
    cbn [pairwise_sum_rec].
    destruct (length a <? 8)%nat eqn:H8; [done|].
    destruct (length a <=? 128)%nat eqn:H128; [done|].
    apply Nat.leb_gt in H128.
    pose proof (Nat.div_mod_eq (length a) 2) as Hdiv.
    pose proof (Nat.mod_upper_bound (length a) 2 ltac:(lia)) as Hmod.
    pose proof (Nat.Div0.mod_le (length a / 2) 8) as Hle.
    pose proof (Nat.mod_upper_bound (length a / 2) 8 ltac:(lia)) as Hmod8.
    f_equal; apply IH; rewrite ?length_take, ?length_drop; lia.
Qed.

Lemma pairwise_sum_eq (a : list spec_float) :
  pairwise_sum a =
  let n := length a in
  if (n <? 8)%nat then fold_left f64_add a (S754_zero true)
  else if (n <=? 128)%nat then pairwise_block a
  else
    let n2 := (n / 2 - (n / 2) mod 8)%nat in
    f64_add (pairwise_sum (take n2 a)) (pairwise_sum (drop n2 a)).
Proof.
  unfold pairwise_sum. cbv zeta.
  rewrite (pairwise_sum_rec_fuel (length a) (S (length a)) a) by lia.
  cbn [pairwise_sum_rec].
  destruct (length a <? 8)%nat eqn:H8; [done|].
  destruct (length a <=? 128)%nat eqn:H128; [done|].
  apply Nat.leb_gt in H128.
  pose proof (Nat.div_mod_eq (length a) 2) as Hdiv.
  pose proof (Nat.mod_upper_bound (length a) 2 ltac:(lia)) as Hmod.
  pose proof (Nat.Div0.mod_le (length a / 2) 8) as Hle.
  pose proof (Nat.mod_upper_bound (length a / 2) 8 ltac:(lia)) as Hmod8.
  f_equal; apply pairwise_sum_rec_fuel; rewrite ?length_take, ?length_drop; lia.
Qed.

(** [int] cuts a double towards zero: of [m * 2^e] with [e < 0] it keeps
    the whole multiples of [2^-e] in [m]. *)
Lemma py_int_truncates (s : bool) (m : positive) (e : Z) :
  exists k : Z,
    py_int (S754_finite s m e) = Ok (cond_Zopp s k) /\ 0 <= k /\
    (0 <= e -> k = Zpos m * 2 ^ e) /\
    (e < 0 -> k * 2 ^ (- e) <= Zpos m < (k + 1) * 2 ^ (- e)).
Proof.
  unfold py_int. destruct (0 <=? e) eqn:He.
  - apply Z.leb_le in He. exists (Zpos m * 2 ^ e).
    split; [done|]. split; [|split; [done|lia]].
    apply Z.mul_nonneg_nonneg; [lia|]. by apply Z.pow_nonneg.
  - apply Z.leb_gt in He. exists (Zpos m / 2 ^ (- e)).
    assert (Hd : 0 < 2 ^ (- e)) by (apply Z.pow_pos_nonneg; lia).
    split; [done|]. split; [apply Z.div_pos; lia|]. split; [lia|].
    intros _. pose proof (Z.div_mod (Zpos m) (2 ^ (- e)) ltac:(lia)) as Hdm.
    pose proof (Z.mod_pos_bound (Zpos m) (2 ^ (- e)) Hd) as Hb. nia.
Qed.

(** [np.rint] takes a double [m * 2^e] with [e < 0] to the whole number [k]
    nearest to it, [|m - k * 2^-e| <= 2^-e / 2], and to the even one of the
    two when it lies half way between them. *)
Lemma np_rint_nearest_even (s : bool) (m : positive) (e : Z) :
  e < 0 ->
  exists k : Z,
    0 <= k /\
    np_rint (S754_finite s m e) =
      (if k =? 0 then S754_zero s else f64_of_int (cond_Zopp s k)) /\
    Z.abs (2 * Zpos m - 2 * k * 2 ^ (- e)) <= 2 ^ (- e) /\
    (Z.abs (2 * Zpos m - 2 * k * 2 ^ (- e)) = 2 ^ (- e) -> Z.even k = true).
Proof.
  intros He. unfold np_rint.
  destruct (0 <=? e) eqn:He'; [apply Z.leb_le in He'; lia|]. cbv zeta.
  assert (Hd : 0 < 2 ^ (- e)) by (apply Z.pow_pos_nonneg; lia).
  set (d := 2 ^ (- e)) in *.
  pose proof (Z.div_mod (Zpos m) d ltac:(lia)) as Hdm.
  pose proof (Z.mod_pos_bound (Zpos m) d Hd) as Hb.
  assert (Hq : 0 <= Zpos m / d) by (apply Z.div_pos; lia).
  set (q := Zpos m / d) in *. set (r := Zpos m mod d) in *.
  assert (Hdown : 2 * Zpos m - 2 * q * d = 2 * r) by lia.
  assert (Hup : 2 * Zpos m - 2 * (q + 1) * d = 2 * r - 2 * d) by lia.
  destruct (2 * r ?= d) eqn:Hcmp.
  - apply Z.compare_eq in Hcmp. destruct (Z.even q) eqn:Hev.
    + exists q. rewrite Hdown. split; [done|]. split; [done|].
      split; [lia|done].
    + exists (q + 1). rewrite Hup. split; [lia|]. split; [done|].
      split; [lia|]. intros _. by rewrite Z.even_add, Hev.
  - change (2 * r < d) in Hcmp. exists q. rewrite Hdown.
    split; [done|]. split; [done|]. split; lia.
  - apply Z.compare_gt_iff in Hcmp. exists (q + 1). rewrite Hup.
    split; [lia|]. split; [done|]. split; lia.
Qed.

(** C6, as the code has it.  Over every record sequence (of at most 8192
    records with prices of an [int64] column) the sidebar shows [int] of
    the mean, the mean cut towards zero to an integer, and the caption shows
    the mean times 100, rounded to the nearest integer with ties to even,
    divided by 100, all in doubles; without records the one raises
    [ValueError] and the other [AttributeError].  On the sample
    catalog the caption is 29214.29, which is 204500 / 7 rounded to
    hundredths, and the sidebar 29214.  A mean of 0.125 is shown as 0.12 and
    one of 0.375 as 0.38; the mean of 2^53 and nine ones is the mean of
    numpy's pairwise sum. *)
Theorem average_price_figures :
  (forall df : DataFrame,
     rows df <> [] ->
     forallb in_int64 (map price (rows df)) = true ->
     Z.of_nat (length (rows df)) <= 8192 ->
     exists x : spec_float,
       np_mean (map price (rows df)) = Ok (Float64 x) /\
       sidebar_average df = py_int x /\ caption_average df = Ok (round2 x)) /\
  (forall df : DataFrame,
     rows df = [] ->
     sidebar_average df =
       Raise (ValueError "cannot convert float NaN to integer") /\
     caption_average df =
       Raise (AttributeError "'float' object has no attribute 'round'")) /\
  (forall (s : bool) (m : positive) (e : Z),
     exists k : Z,
       py_int (S754_finite s m e) = Ok (cond_Zopp s k) /\ 0 <= k /\
       (0 <= e -> k = Zpos m * 2 ^ e) /\
       (e < 0 -> k * 2 ^ (- e) <= Zpos m < (k + 1) * 2 ^ (- e))) /\
  (forall (s : bool) (m : positive) (e : Z),
     e < 0 ->
     exists k : Z,
       0 <= k /\
       np_rint (S754_finite s m e) =
         (if k =? 0 then S754_zero s else f64_of_int (cond_Zopp s k)) /\
       Z.abs (2 * Zpos m - 2 * k * 2 ^ (- e)) <= 2 ^ (- e) /\
       (Z.abs (2 * Zpos m - 2 * k * 2 ^ (- e)) = 2 ^ (- e) ->
        Z.even k = true)) /\
  (forall (s : bool) (m : positive) (e : Z),
     0 <= e -> np_rint (S754_finite s m e) = S754_finite s m e) /\
  caption_average catalog = Ok (hundredths 2921429) /\
  mean_in_hundredths (map price (rows catalog)) = Some 2921429 /\
  fold_right Z.add 0 (map price (rows catalog)) = 204500 /\
  sidebar_average catalog = Ok 29214 /\
  caption_average (priced [1; 2; 2; 2]) = Ok (hundredths 175) /\
  sidebar_average (priced [1; 2; 2; 2]) = Ok 1 /\
  caption_average (priced [1; 0; 0; 0; 0; 0; 0; 0]) = Ok (hundredths 12) /\
  caption_average (priced [3; 0; 0; 0; 0; 0; 0; 0]) = Ok (hundredths 38) /\
  sidebar_average (priced (2 ^ 53 :: repeat 1 9)) = Ok 900719925474100.
Proof.
  split.
  { intros df Hrows Hint Hlen. unfold sidebar_average, caption_average.
    assert (Hm : exists x, np_mean (map price (rows df)) = Ok (Float64 x)).
    { unfold np_mean. rewrite Hint, length_map.
      rewrite (proj2 (Z.leb_le (Z.of_nat (length (rows df))) 8192) Hlen).
      destruct (rows df); [done|]. simpl. eauto. }
    destruct Hm as [x Hx]. exists x. by rewrite Hx. }
  split.
  { intros df Hdf. unfold sidebar_average, caption_average.
    by rewrite Hdf. }
  split; [exact py_int_truncates|].
  split; [exact np_rint_nearest_even|].
  split.
  { intros s m e He. unfold np_rint.
    by rewrite (proj2 (Z.leb_le 0 e) He). }
  repeat split; vm_compute; reflexivity.
Qed.

(** ** Frames in the heap *)

Lemma extends_heap_bind {A B : Type} (m : py A) (f : A -> py B) :
  extends_heap m -> (forall a, extends_heap (f a)) -> extends_heap (m ≫= f).
Proof.
  intros Hm Hf h. unfold mbind, py_bind. specialize (Hm h).
  destruct (m h) as [[a|e|] h']; simpl in *; [|done..].
  by transitivity h'; [|apply Hf].
Qed.

Lemma extends_heap_new (v : DataFrame) : extends_heap (new v).
Proof.
  intros h. unfold new. simpl. apply insert_subseteq, not_elem_of_dom, is_fresh.
Qed.

Lemma extends_heap_deref (l : nat) : extends_heap (deref l).
Proof. by intros h. Qed.

Lemma extends_heap_pure {A : Type} (o : outcome A) : extends_heap (pure o).
Proof. by intros h. Qed.

Lemma new_fresh (v : DataFrame) (h : gmap nat (list (nat * Row))) :
  exists l, new v h = (Ok l, <[l := v]> h) /\ h !! l = None.
Proof.
  exists (fresh (dom h)). split; [reflexivity|].
  apply not_elem_of_dom, is_fresh.
Qed.

Section Heap.

Variable argsort : forall A : Type, (A -> A -> bool) -> list A -> list nat.

Lemma filter_data_obj_extends (df : nat) (categories : list string)
    (price_range : Z * Z) (sort_by : string) (ascending : bool) :
  extends_heap (filter_data_obj argsort df categories price_range sort_by ascending).
Proof.
  unfold filter_data_obj, obj_getitem_mask, obj_sort_values, obj_reset_index.
  repeat (apply extends_heap_bind; [|intros ?]);
    auto using extends_heap_new, extends_heap_deref, extends_heap_pure.
Qed.

(** C9: [filter_data] run on a reference [df] to the frame [frame] leaves
    every object of the heap as it was, [frame] under [df] among them, also
    when it raises.  It returns whenever it returns on the value, with a
    reference [out] that the heap did not hold before the call (a new
    frame) and that holds the result after it; when the call raises on the
    value, it raises the same exception. *)
Theorem filter_data_obj_frame (h : gmap nat (list (nat * Row))) (df : nat)
    (frame : DataFrame) (categories : list string) (price_range : Z * Z)
    (sort_by : string) (ascending : bool) :
  h !! df = Some frame ->
  exists (r : outcome nat) (h' : gmap nat (list (nat * Row))),
    filter_data_obj argsort df categories price_range sort_by ascending h = (r, h') /\
    h ⊆ h' /\
    h' !! df = Some frame /\
    match filter_data argsort frame categories price_range sort_by ascending with
    | Ok result =>
        exists out : nat,
          r = Ok out /\ h !! out = None /\ out <> df /\ h' !! out = Some result
    | Raise e => r = Raise e
    | Unmodelled => r = Unmodelled
    end.
Proof.
  intros Hdf.
  pose proof (filter_data_obj_extends df categories price_range sort_by
                ascending h) as Hsub.
  destruct (filter_data_obj argsort df categories price_range sort_by ascending h)
    as [r h'] eqn:Hrun.
  exists r, h'. split; [reflexivity|]. split; [exact Hsub|].
  split; [by apply (lookup_weaken h)|].
  revert Hrun.
  unfold filter_data_obj, obj_getitem_mask, obj_sort_values, obj_reset_index,
    filter_data.
  unfold mbind, py_bind, deref, pure, outcome_bind. rewrite Hdf.
  set (filtered := getitem_mask frame (filter_mask frame categories price_range)).
  destruct (new_fresh filtered h) as (l1 & -> & Hl1).
  rewrite lookup_insert_eq.
  destruct (sort_values argsort filtered sort_by ascending) as [sorted| |];
    [|by intros [= <- <-]..].
  set (h1 := <[l1 := filtered]> h).
  destruct (new_fresh sorted h1) as (l2 & -> & Hl2).
  rewrite lookup_insert_eq.
  set (h2 := <[l2 := sorted]> h1).
  destruct (new_fresh (reset_index sorted) h2) as (l3 & -> & Hl3).
  intros [= <- <-]. exists l3.
  assert (Hnone : h !! l3 = None).
  { destruct (h !! l3) as [v|] eqn:Hv; [|done].
    assert (h2 !! l3 = Some v); [|congruence].
    apply (lookup_weaken h); [done|].
    transitivity h1; apply insert_subseteq; done. }
  repeat split; [done| |apply lookup_insert_eq].
  intros ->. congruence.
Qed.

End Heap.

(** ** The order of the result *)

Lemma StronglySorted_map_inv {A B : Type} (f : A -> B) (R : B -> B -> Prop)
    (l : list A) :
  StronglySorted R (map f l) -> StronglySorted (fun x y => R (f x) (f y)) l.
Proof.
  induction l as [|x l IH]; simpl; [constructor|].
  intros [Hl Hx]%StronglySorted_inv. constructor; [by apply IH|].
  apply List.Forall_forall. intros y Hy.
  apply (proj1 (List.Forall_forall _ _) Hx), in_map, Hy.
Qed.

Lemma Permutation_List_filter {A : Type} (f : A -> bool) (l1 l2 : list A) :
  Permutation l1 l2 -> Permutation (List.filter f l1) (List.filter f l2).
Proof.
  induction 1 as [|x l1 l2 _ IH|x y l|l1 l2 l3 _ IH1 _ IH2]; simpl.
  - constructor.
  - destruct (f x); [by constructor|done].
  - destruct (f x), (f y); try done. apply perm_swap.
  - by transitivity (List.filter f l2).
Qed.

Section Ordered.

Variable argsort : forall A : Type, (A -> A -> bool) -> list A -> list nat.
Hypothesis argsort_sorts : sorts argsort.

Lemma sort_by_key_ordered {A : Type} (leb : A -> A -> bool) (key : Row -> A)
    (df : DataFrame) (ascending : bool) :
  total_preorder leb ->
  StronglySorted
    (fun r1 r2 => (if ascending then leb (key r1) (key r2)
                   else leb (key r2) (key r1)) = true)
    (rows (sort_by_key argsort leb key df ascending)).
Proof.
  intros Hleb.
  apply (StronglySorted_map_inv key
           (fun a b => (if ascending then leb a b else leb b a) = true)).
  by apply sort_by_key_sorted.
Qed.

Lemma sort_by_column_ordered (c : Column) (df : DataFrame) (ascending : bool) :
  ordered c ascending (rows (sort_by_column argsort c df ascending)).
Proof.
  unfold ordered. destruct c; simpl.
  - apply (sort_by_key_ordered String.leb name), String_leb_preorder.
  - apply (sort_by_key_ordered Z.leb price), Z_leb_preorder.
  - apply (sort_by_key_ordered String.leb company), String_leb_preorder.
  - apply (sort_by_key_ordered Timestamp_leb last_updated), Timestamp_leb_preorder.
  - apply (sort_by_key_ordered String.leb category), String_leb_preorder.
Qed.

(** With a kernel that sorts, the rows of the result ascend in the column
    sorted by when [ascending] is true and descend otherwise. *)
Theorem filter_data_ordered (df : DataFrame) (categories : list string)
    (price_range : Z * Z) (c : Column) (ascending : bool) :
  exists out,
    filter_data argsort df categories price_range (column_label c) ascending = Ok out /\
    ordered c ascending (rows out).
Proof.
  rewrite filter_data_column. eexists. split; [reflexivity|].
  rewrite rows_reset_index. apply sort_by_column_ordered.
Qed.

Hypothesis argsort_permutes : permutes argsort.

(** The example of the specification: the electronics up to 100000 by
    ascending price are Earbuds, Smartphone, Laptop, with every kernel that
    sorts. *)
Theorem filter_data_electronics_by_price :
  filter_data argsort catalog ["Electronics"] (0, 100000) "price" true =
  Ok [(0%nat, earbuds); (1%nat, smartphone); (2%nat, laptop)].
Proof.
  change "price" with (column_label ColPrice). rewrite filter_data_column.
  f_equal. unfold reset_index.
  set (kept := List.filter
    (fun x : nat * Row => selected ["Electronics"] (0, 100000) (snd x)) catalog).
  pose proof (sort_by_column_Permutation argsort argsort_permutes ColPrice
                kept true) as Hperm.
  apply (Permutation_map snd) in Hperm.
  change (map snd kept) with [laptop; smartphone; earbuds] in Hperm.
  fold (rows (sort_by_column argsort ColPrice kept true)) in Hperm.
  assert (Hrows : rows (sort_by_column argsort ColPrice kept true) =
                  [earbuds; smartphone; laptop]).
  { apply (StronglySorted_unique_strong
             (fun r1 r2 => key_le ColPrice r1 r2 = true)).
    - intros x1 x2 Hx1 Hx2 H12 H21. rewrite Hperm in Hx1.
      apply list_elem_of_In in Hx1, Hx2. simpl in Hx1, Hx2, H12, H21.
      destruct Hx1 as [<-|[<-|[<-|[]]]], Hx2 as [<-|[<-|[<-|[]]]];
        try reflexivity; simpl in H12, H21; lia.
    - apply (sort_by_column_ordered ColPrice kept true).
    - repeat constructor.
    - rewrite Hperm. symmetry.
      apply (Permutation_rev [earbuds; smartphone; laptop]). }
  by rewrite Hrows.
Qed.

(** C2, as the code has it: [filter_data] sorts, and no more.  For every
    column sorted by and in both directions the rows of the result stand in
    the order of their sort-key values, so that rows with equal values
    stand together, and the rows with a given value are those that the
    filters keep with that value, each as often as it is kept.  Their order
    among themselves is left to the kernel: [kind='stable'] is not passed
    to [sort_values]. *)
Theorem filter_data_groups_ties (df : DataFrame) (categories : list string)
    (price_range : Z * Z) (c : Column) (ascending : bool) :
  exists out,
    filter_data argsort df categories price_range (column_label c) ascending = Ok out /\
    ordered c ascending (rows out) /\
    forall r0 : Row,
      Permutation
        (List.filter (same_key c r0) (rows out))
        (List.filter (same_key c r0)
           (List.filter (selected categories price_range) (rows df))).
Proof.
  rewrite filter_data_column. eexists. split; [reflexivity|].
  rewrite rows_reset_index. split; [apply sort_by_column_ordered|].
  intros r0. apply Permutation_List_filter.
  rewrite <- rows_filter. unfold rows. apply Permutation_map.
  by apply sort_by_column_Permutation.
Qed.

End Ordered.

(** ** The page does not depend on the kernel *)

(** The three columns of the select box have no two equal values in the
    sample catalog. *)
Lemma catalog_keys_distinct (o : SortOption) (c : Column) (r1 r2 : Row) :
  option_label o = column_label c ->
  In r1 catalog_rows -> In r2 catalog_rows ->
  key_le c r1 r2 = true -> key_le c r2 r1 = true -> r1 = r2.
Proof.
  intros Hc H1 H2.
  assert (Hcol : c = ColPrice \/ c = ColLastUpdated \/ c = ColName).
  { destruct o, c; simpl in Hc; try discriminate; tauto. }
  clear Hc. simpl in H1, H2.
  destruct Hcol as [->|[->| ->]];
    destruct H1 as [<-|[<-|[<-|[<-|[<-|[<-|[<-|[]]]]]]]];
    destruct H2 as [<-|[<-|[<-|[<-|[<-|[<-|[<-|[]]]]]]]];
    vm_compute; intros; first [reflexivity | discriminate].
Qed.

Section Deterministic.

Variables argsort1 argsort2 :
  forall A : Type, (A -> A -> bool) -> list A -> list nat.
Hypothesis permutes1 : permutes argsort1.
Hypothesis sorts1 : sorts argsort1.
Hypothesis permutes2 : permutes argsort2.
Hypothesis sorts2 : sorts argsort2.

(** No two rows of the sample catalog tie on a key that the page offers,
    so every kernel that sorts gives the page the same frame: what the page
    shows does not rest on the stability of the sort. *)
Theorem page_kernel_independent (w : Widgets) :
  page argsort1 w = page argsort2 w.
Proof.
  unfold page. rewrite load_data_catalog. simpl. rewrite !result_df_cases.
  destruct (truthy (strip (text_input w))); [reflexivity|].
  destruct (option_label_column (sort_by w)) as [c Hc]. rewrite Hc.
  rewrite !filter_data_column. f_equal. unfold reset_index. f_equal.
  set (kept := List.filter
    (fun x : nat * Row => selected (selected_cats w) (price_sel w) (snd x))
    catalog).
  assert (Hkept : forall r, r ∈ rows kept -> In r catalog_rows).
  { intros r Hr. apply list_elem_of_In in Hr. unfold kept in Hr.
    rewrite rows_filter in Hr. apply filter_In in Hr as [Hr _].
    by rewrite <- (rows_pd_DataFrame catalog_rows). }
  assert (Hperm : forall argsort, permutes argsort ->
    Permutation (rows (sort_by_column argsort c kept (ascending w))) (rows kept)).
  { intros argsort Hp. unfold rows. apply Permutation_map.
    by apply sort_by_column_Permutation. }
  apply (StronglySorted_unique_strong
    (fun r1 r2 => (if ascending w then key_le c r1 r2 else key_le c r2 r1) = true)).
  - intros x1 x2 Hx1 Hx2 H12 H21.
    rewrite (Hperm argsort1 permutes1) in Hx1.
    rewrite (Hperm argsort2 permutes2) in Hx2.
    apply Hkept in Hx1, Hx2.
    destruct (ascending w);
      by apply (catalog_keys_distinct (sort_by w) c).
  - by apply sort_by_column_ordered.
  - by apply sort_by_column_ordered.
  - by rewrite (Hperm argsort1 permutes1), (Hperm argsort2 permutes2).
Qed.

End Deterministic.

(** ** The theorems at concrete inputs *)

(** [filter_data_selects] with the insertion kernel on the sample catalog. *)
Lemma filter_data_selects_witness :
  permutes insertion_argsort /\
  exists out,
    filter_data insertion_argsort catalog ["Electronics"] (0, 100000)
                (column_label ColPrice) true = Ok out /\
    Permutation (rows out)
                (List.filter (selected ["Electronics"] (0, 100000)) (rows catalog)) /\
    (forall r, In r (rows out) <->
               In r (rows catalog) /\ In (category r) ["Electronics"] /\
               0 <= price r <= 100000) /\
    (["Electronics"] = [] -> out = []).
Proof.
  split; [exact insertion_argsort_permutes|].
  exact (filter_data_selects insertion_argsort insertion_argsort_permutes
           catalog ["Electronics"] 0 100000 ColPrice true).
Defined.

(** [filter_data_groups_ties] with the insertion kernel: the two appliances
    tie on the category. *)
Lemma filter_data_groups_ties_witness :
  sorts insertion_argsort /\ permutes insertion_argsort /\
  exists out,
    filter_data insertion_argsort catalog ["Appliances"] (0, 100000)
                (column_label ColCategory) false = Ok out /\
    ordered ColCategory false (rows out) /\
    forall r0 : Row,
      Permutation
        (List.filter (same_key ColCategory r0) (rows out))
        (List.filter (same_key ColCategory r0)
           (List.filter (selected ["Appliances"] (0, 100000)) (rows catalog))).
Proof.
  split; [exact insertion_argsort_sorts|].
  split; [exact insertion_argsort_permutes|].
  exact (filter_data_groups_ties insertion_argsort insertion_argsort_sorts
           insertion_argsort_permutes catalog ["Appliances"] (0, 100000)
           ColCategory false).
Defined.

(** C2 fails on numpy's own kernel for integers: on the prices 0, 1, 0, 1,
    0, 1, 0 it answers 0, 2, 6, 4, 3, 1, 5, so that of the four products
    priced 0 the seventh comes before the fifth; with the toggle off the
    order of the ties is not the order of the frame either. *)
Lemma filter_data_reorders_ties :
  simd_argsort Z Z.leb [0; 1; 0; 1; 0; 1; 0] =
    [0; 2; 6; 4; 3; 1; 5]%nat /\
  filter_data simd_argsort tied_prices ["z"] (0, 1) "price" true =
    Ok (pd_DataFrame [priced_as "a" 0; priced_as "c" 0; priced_as "g" 0;
                      priced_as "e" 0; priced_as "d" 1; priced_as "b" 1;
                      priced_as "f" 1]) /\
  filter_data simd_argsort tied_prices ["z"] (0, 1) "price" false =
    Ok (pd_DataFrame [priced_as "b" 1; priced_as "f" 1; priced_as "d" 1;
                      priced_as "c" 0; priced_as "a" 0; priced_as "e" 0;
                      priced_as "g" 0]) /\
  List.filter (same_key ColPrice (priced_as "a" 0))
              (List.filter (selected ["z"] (0, 1)) (rows tied_prices)) =
    [priced_as "a" 0; priced_as "c" 0; priced_as "e" 0; priced_as "g" 0] /\
  List.filter (same_key ColPrice (priced_as "a" 0))
              [priced_as "a" 0; priced_as "c" 0; priced_as "g" 0;
               priced_as "e" 0; priced_as "d" 1; priced_as "b" 1;
               priced_as "f" 1] <>
  List.filter (same_key ColPrice (priced_as "a" 0))
              (List.filter (selected ["z"] (0, 1)) (rows tied_prices)) /\
  List.filter (same_key ColPrice (priced_as "a" 0))
              [priced_as "b" 1; priced_as "f" 1; priced_as "d" 1;
               priced_as "c" 0; priced_as "a" 0; priced_as "e" 0;
               priced_as "g" 0] <>
  List.filter (same_key ColPrice (priced_as "a" 0))
              (List.filter (selected ["z"] (0, 1)) (rows tied_prices)).
Proof.
  split; [vm_compute; reflexivity|].
  split; [vm_compute; reflexivity|].
  split; [vm_compute; reflexivity|].
  split; [vm_compute; reflexivity|].
  split; vm_compute; discriminate.
Qed.

(** C8 fails on a sort key outside the three of the specification:
    "company" is accepted, and the rows come back sorted by company. *)
Lemma filter_data_accepts_company :
  ~ In "company" ["price"; "last_updated"; "name"] /\
  filter_data insertion_argsort catalog ["Electronics"] (0, 100000) "company" true =
    Ok [(0%nat, laptop); (1%nat, earbuds); (2%nat, smartphone)].
Proof.
  split; [|vm_compute; reflexivity].
  simpl. intros [H|[H|[H|[]]]]; discriminate H.
Qed.

(** [search_plain_query] on the sample catalog, which is ASCII text, and
    the query "hp". *)
Lemma search_plain_query_witness :
  ascii_text "hp" = true /\
  Forall (fun r => ascii_text (name r) = true /\
                   ascii_text (company r) = true) (rows catalog) /\
  plain_query "hp" = true /\
  search catalog "hp" =
    Ok (List.filter (fun x => search_matches "hp" (snd x)) catalog).
Proof.
  assert (Hrows : Forall (fun r => ascii_text (name r) = true /\
                                   ascii_text (company r) = true)
                         (rows catalog))
    by (repeat constructor).
  split; [reflexivity|]. split; [exact Hrows|]. split; [reflexivity|].
  exact (proj1 search_plain_query catalog "hp" eq_refl Hrows eq_refl).
Defined.

(** C4 fails on a query that [re] reads as syntax: "." occurs in no name
    and in no company of the sample catalog, and the search keeps all seven
    rows. *)
Lemma search_dot_is_regex :
  search catalog "." = Ok catalog /\
  List.filter (fun x => search_matches "." (snd x)) catalog = [].
Proof. split; vm_compute; reflexivity. Qed.

(** C6 fails at both figures.  On the sample catalog the sidebar metric
    shows 29214, and the mean rounded to 2 decimals is 29214.29.  For forty
    products priced 23, 0, ..., 0 the mean is 0.575, which rounded to 2
    decimals is 0.58, and the caption shows 0.57: the double nearest to
    0.575 lies below it. *)
Lemma average_price_not_the_rounded_mean :
  sidebar_average catalog = Ok 29214 /\
  mean_in_hundredths (map price (rows catalog)) = Some 2921429 /\
  100 * 29214 <> 2921429 /\
  caption_average (priced (23 :: repeat 0 39)) = Ok (hundredths 57) /\
  mean_in_hundredths (map price (rows (priced (23 :: repeat 0 39)))) = Some 58 /\
  hundredths 57 <> hundredths 58.
Proof.
  split; [vm_compute; reflexivity|].
  split; [vm_compute; reflexivity|].
  split; [lia|].
  split; [vm_compute; reflexivity|].
  split; [vm_compute; reflexivity|].
  vm_compute. discriminate.
Qed.

(** [filter_data_obj_frame] on a heap that holds the sample catalog. *)
Lemma filter_data_obj_frame_witness :
  ({[ 0%nat := catalog ]} : gmap nat (list (nat * Row))) !! 0%nat = Some catalog /\
  exists (r : outcome nat) (h' : gmap nat (list (nat * Row))),
    filter_data_obj insertion_argsort 0 ["Electronics"] (0, 100000) "price" true
                    {[ 0%nat := catalog ]} = (r, h') /\
    {[ 0%nat := catalog ]} ⊆ h' /\
    h' !! 0%nat = Some catalog /\
    match filter_data insertion_argsort catalog ["Electronics"] (0, 100000)
                      "price" true with
    | Ok result =>
        exists out : nat,
          r = Ok out /\
          ({[ 0%nat := catalog ]} : gmap nat (list (nat * Row))) !! out = None /\
          out <> 0%nat /\ h' !! out = Some result
    | Raise e => r = Raise e
    | Unmodelled => r = Unmodelled
    end.
Proof.
  split; [reflexivity|].
  exact (filter_data_obj_frame insertion_argsort {[ 0%nat := catalog ]} 0
           catalog ["Electronics"] (0, 100000) "price" true eq_refl).
Defined.

(** [search_mask_name_company] on the sample catalog and a copy of it with
    other prices, dates and categories. *)
Lemma search_mask_name_company_witness :
  map name (rows catalog) = map name (rows repriced_catalog) /\
  map company (rows catalog) = map company (rows repriced_catalog) /\
  search_mask catalog "hp" = search_mask repriced_catalog "hp" /\
  (index_labels catalog = index_labels repriced_catalog ->
   index_labels <$> search catalog "hp" =
   index_labels <$> search repriced_catalog "hp").
Proof.
  split; [reflexivity|]. split; [reflexivity|].
  exact (search_mask_name_company catalog repriced_catalog "hp" eq_refl eq_refl).
Defined.

(** [filter_data_ordered] with the insertion kernel: the appliances by
    descending date. *)
Lemma filter_data_ordered_witness :
  sorts insertion_argsort /\
  exists out,
    filter_data insertion_argsort catalog ["Appliances"] (0, 100000)
                (column_label ColLastUpdated) false = Ok out /\
    ordered ColLastUpdated false (rows out).
Proof.
  split; [exact insertion_argsort_sorts|].
  exact (filter_data_ordered insertion_argsort insertion_argsort_sorts
           catalog ["Appliances"] (0, 100000) ColLastUpdated false).
Defined.

(** [filter_data_electronics_by_price] with the insertion kernel. *)
Lemma filter_data_electronics_by_price_witness :
  sorts insertion_argsort /\ permutes insertion_argsort /\
  filter_data insertion_argsort catalog ["Electronics"] (0, 100000) "price" true =
  Ok [(0%nat, earbuds); (1%nat, smartphone); (2%nat, laptop)].
Proof.
  split; [exact insertion_argsort_sorts|].
  split; [exact insertion_argsort_permutes|].
  exact (filter_data_electronics_by_price insertion_argsort
           insertion_argsort_sorts insertion_argsort_permutes).
Defined.

(** [search_sublist] on the sample catalog. *)
Lemma search_sublist_witness :
  search catalog "a" =
    Ok [(0%nat, laptop); (1%nat, smartphone); (2%nat, earbuds);
        (3%nat, refrigerator); (4%nat, washing_machine); (5%nat, keyboard)] /\
  sublist [(0%nat, laptop); (1%nat, smartphone); (2%nat, earbuds);
           (3%nat, refrigerator); (4%nat, washing_machine); (5%nat, keyboard)]
          catalog.
Proof.
  assert (H : search catalog "a" =
    Ok [(0%nat, laptop); (1%nat, smartphone); (2%nat, earbuds);
        (3%nat, refrigerator); (4%nat, washing_machine); (5%nat, keyboard)])
    by (vm_compute; reflexivity).
  split; [exact H|].
  exact (search_sublist catalog _ "a" H).
Defined.

(** [page_kernel_independent] for the two kernels of this file, on a page
    with an empty search box. *)
Lemma page_kernel_independent_witness :
  permutes insertion_argsort /\ sorts insertion_argsort /\
  permutes reversed_argsort /\ sorts reversed_argsort /\
  page insertion_argsort
       {| selected_cats := ["Electronics"; "Appliances"]; price_sel := (800, 70000);
          sort_by := SortName; ascending := false; text_input := "  " |} =
  page reversed_argsort
       {| selected_cats := ["Electronics"; "Appliances"]; price_sel := (800, 70000);
          sort_by := SortName; ascending := false; text_input := "  " |}.
Proof.
  split; [exact insertion_argsort_permutes|].
  split; [exact insertion_argsort_sorts|].
  split; [exact reversed_argsort_permutes|].
  split; [exact reversed_argsort_sorts|].
  exact (page_kernel_independent insertion_argsort reversed_argsort
           insertion_argsort_permutes insertion_argsort_sorts
           reversed_argsort_permutes reversed_argsort_sorts _).
Defined.

(** * The rest of the page *)

(** ** Unique values and bounds *)

Lemma unique_from_In (seen col : list string) (v : string) :
  In v (unique_from seen col) <-> In v col /\ ~ In v seen.
Proof.
  revert seen. induction col as [|x col IH]; intros seen; simpl; [tauto|].
  destruct (existsb (String.eqb x) seen) eqn:Hx.
  - apply existsb_exists in Hx as (y & Hy & ->%String.eqb_eq).
    rewrite IH. split; [tauto|]. intros [[->|H] Hs]; tauto.
  - assert (Hnot : ~ In x seen).
    { intros Hin. apply not_true_iff_false in Hx. apply Hx, existsb_exists.
      exists x. split; [done|apply String.eqb_refl]. }
    simpl. rewrite IH. simpl. split.
    + intros [->|[H Hs]]; [tauto|]. split; [tauto|]. intros Hv. apply Hs. tauto.
    + intros [[->|H] Hs]; [tauto|].
      destruct (string_dec x v) as [->|Hne]; [tauto|]. right.
      split; [done|]. intros [Hxv|Hv]; tauto.
Qed.

Lemma unique_from_NoDup (seen col : list string) : List.NoDup (unique_from seen col).
Proof.
  revert seen. induction col as [|x col IH]; intros seen; simpl; [constructor|].
  destruct (existsb (String.eqb x) seen); [apply IH|].
  constructor; [|apply IH]. rewrite unique_from_In. simpl. tauto.
Qed.

Lemma unique_In (col : list string) (v : string) : In v (unique col) <-> In v col.
Proof. unfold unique. rewrite unique_from_In. simpl. tauto. Qed.

Lemma fold_min_le (l : list Z) (p : Z) :
  fold_left Z.min l p <= p /\ Forall (fun x => fold_left Z.min l p <= x) l.
Proof.
  revert p. induction l as [|x l IH]; intros p; simpl; [split; [lia|constructor]|].
  destruct (IH (Z.min p x)) as [Hle Hall]. split; [lia|].
  constructor; [lia|done].
Qed.

Lemma fold_max_ge (l : list Z) (p : Z) :
  p <= fold_left Z.max l p /\ Forall (fun x => x <= fold_left Z.max l p) l.
Proof.
  revert p. induction l as [|x l IH]; intros p; simpl; [split; [lia|constructor]|].
  destruct (IH (Z.max p x)) as [Hle Hall]. split; [lia|].
  constructor; [lia|done].
Qed.

Lemma int_min_max_bounds (col : list Z) (lo hi : Z) :
  int_min col = Ok lo -> int_max col = Ok hi ->
  Forall (fun p => lo <= p <= hi) col.
Proof.
  destruct col as [|p col]; simpl; [discriminate|]. intros [= <-] [= <-].
  destruct (fold_min_le col p) as [Hlo Hlos], (fold_max_ge col p) as [Hhi His].
  constructor; [lia|].
  rewrite List.Forall_forall in *. intros x Hx.
  specialize (Hlos x Hx). specialize (His x Hx). lia.
Qed.

Lemma filter_true {A : Type} (f : A -> bool) (l : list A) :
  Forall (fun x => f x = true) l -> List.filter f l = l.
Proof. induction 1 as [|x l Hx Hl IH]; [done|]. simpl. by rewrite Hx, IH. Qed.

(** ** The sidebar's first state *)

Section Page.

Variable argsort : forall A : Type, (A -> A -> bool) -> list A -> list nat.
Hypothesis argsort_permutes : permutes argsort.

Lemma filter_data_rows (df : DataFrame) (categories : list string)
    (price_range : Z * Z) (c : Column) (ascending : bool) :
  exists out,
    filter_data argsort df categories price_range (column_label c) ascending = Ok out /\
    Permutation (rows out) (List.filter (selected categories price_range) (rows df)) /\
    index_labels out = seq 0 (length out).
Proof.
  rewrite filter_data_column. eexists. split; [reflexivity|]. split.
  - rewrite rows_reset_index, <- rows_filter. unfold rows.
    apply Permutation_map. by apply sort_by_column_Permutation.
  - unfold reset_index. rewrite index_pd_DataFrame. f_equal.
    unfold pd_DataFrame. rewrite length_combine, length_seq. lia.
Qed.

(** With the widgets as the sidebar first shows them (every category of
    the frame selected, the slider from the lowest to the highest price),
    [filter_data] keeps every row of a frame that has rows, for each column
    sorted by and both directions; the slider's ends are in order. *)
Theorem default_selection_keeps_all (df : DataFrame) (categories : list string)
    (price_range : Z * Z) (c : Column) (ascending : bool) :
  default_selection df = Ok (categories, price_range) ->
  fst price_range <= snd price_range /\
  List.NoDup categories /\
  exists out,
    filter_data argsort df categories price_range (column_label c) ascending = Ok out /\
    Permutation (rows out) (rows df).
Proof.
  unfold default_selection.
  destruct (int_min (map price (rows df))) as [lo| |] eqn:Hlo; simpl; try discriminate.
  destruct (int_max (map price (rows df))) as [hi| |] eqn:Hhi; simpl; try discriminate.
  intros [= <- <-]. simpl.
  pose proof (int_min_max_bounds _ _ _ Hlo Hhi) as Hbounds.
  split; [|split; [apply unique_from_NoDup|]].
  - destruct (rows df) as [|r rs]; [discriminate|].
    apply Forall_inv in Hbounds. lia.
  - destruct (filter_data_rows df (unique (map category (rows df))) (lo, hi)
                c ascending) as (out & Hout & Hperm & _).
    exists out. split; [done|]. rewrite Hperm, filter_true; [done|].
    apply List.Forall_forall. intros r Hr. apply selected_spec. split.
    + apply unique_In, in_map, Hr.
    + apply (proj1 (List.Forall_forall _ _) Hbounds (price r)), in_map, Hr.
Qed.

(** ** The banner *)

(** What the banner counts is never more than the frame holds: a frame the
    page shows has at most the rows of the loaded frame, the banner warns
    exactly when it has none, and otherwise it counts between 1 and the
    total number of products. *)
Theorem result_banner_counts (df out : DataFrame) (w : Widgets) :
  result_df argsort df w = Ok out ->
  (length out <= length df)%nat /\
  (result_banner out = Warning <-> out = []) /\
  (forall n, result_banner out = Success n ->
             n = length out /\ (1 <= n <= length df)%nat).
Proof.
  intros Hres.
  assert (Hlen : (length out <= length df)%nat).
  { rewrite result_df_cases in Hres.
    destruct (truthy (strip (text_input w))).
    - apply sublist_length. unfold search in Hres.
      destruct (search_mask df (strip (text_input w))) as [mask| |];
        simpl in Hres; try discriminate.
      injection Hres as <-. apply getitem_mask_sublist.
    - destruct (option_label_column (sort_by w)) as [c Hc]. rewrite Hc in Hres.
      destruct (filter_data_rows df (selected_cats w) (price_sel w) c (ascending w))
        as (out' & Hout & Hperm & _).
      rewrite Hout in Hres. injection Hres as ->.
      apply Permutation_length in Hperm. unfold rows in Hperm.
      rewrite !length_map in Hperm || rewrite length_map in Hperm.
      rewrite Hperm, <- (length_map snd df). apply filter_length_le. }
  split; [exact Hlen|]. split.
  - destruct out; simpl; split; congruence.
  - intros n. destruct out as [|x out]; simpl; [discriminate|].
    intros [= <-]. simpl in Hlen. lia.
Qed.

(** ** Narrowing the filters *)

(** Narrowing the filters never adds a product: with fewer categories and
    a price range inside the other, every row of the result is a row of the
    wider result, as often as it occurs there, whatever the two sort
    orders. *)
Theorem filter_data_narrows (df : DataFrame) (cats1 cats2 : list string)
    (lo1 hi1 lo2 hi2 : Z) (c1 c2 : Column) (asc1 asc2 : bool)
    (out1 out2 : DataFrame) :
  (forall v, In v cats1 -> In v cats2) ->
  lo2 <= lo1 -> hi1 <= hi2 ->
  filter_data argsort df cats1 (lo1, hi1) (column_label c1) asc1 = Ok out1 ->
  filter_data argsort df cats2 (lo2, hi2) (column_label c2) asc2 = Ok out2 ->
  rows out1 ⊆+ rows out2.
Proof.
  intros Hcats Hlo Hhi H1 H2.
  destruct (filter_data_rows df cats1 (lo1, hi1) c1 asc1) as (o1 & Ho1 & Hp1 & _).
  destruct (filter_data_rows df cats2 (lo2, hi2) c2 asc2) as (o2 & Ho2 & Hp2 & _).
  rewrite Ho1 in H1. rewrite Ho2 in H2. injection H1 as <-. injection H2 as <-.
  rewrite Hp1, Hp2. clear Ho1 Ho2 Hp1 Hp2. apply sublist_submseteq.
  induction (rows df) as [|r rs IH]; simpl; [constructor|].
  destruct (selected cats1 (lo1, hi1) r) eqn:Hs1.
  - assert (Hs2 : selected cats2 (lo2, hi2) r = true).
    { apply selected_spec. apply selected_spec in Hs1 as [Hin ?].
      split; [by apply Hcats|lia]. }
    rewrite Hs2. by constructor.
  - destruct (selected cats2 (lo2, hi2) r); [by constructor|done].
Qed.

End Page.

(** ** The details view *)

Lemma details_cons (i : nat) (r : Row) (df : DataFrame) (s : string) :
  details ((i, r) :: df) (Some s) =
  if String.eqb (name r) s then FirstRow r else details df (Some s).
Proof. unfold details. simpl. by destruct (String.eqb (name r) s). Qed.

Lemma details_first (df : DataFrame) (s : string) :
  In s (map name (rows df)) ->
  exists r pre post,
    details df (Some s) = FirstRow r /\ name r = s /\
    rows df = pre ++ r :: post /\ Forall (fun x => name x <> s) pre.
Proof.
  induction df as [|[i r] df IH]; simpl; [tauto|]. intros Hin.
  rewrite details_cons. destruct (String.eqb_spec (name r) s) as [Heq|Hne].
  - exists r, [], (rows df). repeat split; [done|constructor].
  - destruct Hin as [Heq|Hin]; [done|].
    destruct (IH Hin) as (r' & pre & post & Hd & Hn & Hrows & Hpre).
    exists r', (r :: pre), post. repeat split; [done..| |].
    + unfold rows in *. simpl. by rewrite Hrows.
    + by constructor.
Qed.

Lemma details_none (df : DataFrame) (s : string) :
  ~ In s (map name (rows df)) -> details df (Some s) = IndexError.
Proof.
  induction df as [|[i r] df IH]; simpl; [done|]. intros Hnot.
  rewrite details_cons. destruct (String.eqb_spec (name r) s); [tauto|].
  apply IH. tauto.
Qed.

(** The details select box offers every product name of the frame once.
    For a name it offers, the details view shows a row of the frame with
    that name, the first one in the frame's order; for any other name, and
    when the box has no option, [iloc[0]] raises [IndexError]. *)
Theorem details_of_selected (df : DataFrame) (s : string) :
  List.NoDup (name_options df) /\
  (forall r, In r (rows df) -> In (name r) (name_options df)) /\
  (In s (name_options df) ->
   exists r pre post,
     details df (Some s) = FirstRow r /\ name r = s /\
     rows df = pre ++ r :: post /\ Forall (fun x => name x <> s) pre) /\
  (~ In s (name_options df) -> details df (Some s) = IndexError) /\
  details df None = IndexError.
Proof.
  split; [apply unique_from_NoDup|]. split; [|split; [|split]].
  - intros r Hr. apply unique_In, in_map, Hr.
  - intros Hs. apply details_first, unique_In, Hs.
  - intros Hs. apply details_none. intros Hin. apply Hs, unique_In, Hin.
  - unfold details. induction df as [|[i r] df IH]; [done|]. simpl. apply IH.
Qed.

(** ** A date that does not parse *)

Lemma collect_prefix_ok (es : list (string * Details)) :
  Forall (fun x => exists ts, to_datetime (d_last_updated (snd x)) = Ok ts) es ->
  exists rs, collect es = Ok rs.
Proof.
  induction 1 as [|[cat d] es [ts Hts] Hes [rs IH]]; simpl; [eauto|].
  unfold make_row. simpl in Hts. rewrite Hts. simpl. rewrite IH. simpl. eauto.
Qed.

(** [load_data] stops at the first item, in the order of the dict, whose
    date [pd.to_datetime] refuses: the exception of that item leaves
    [load_data], and no frame is built from the items before it. *)
Theorem load_data_first_failure (products : Catalog)
    (es1 es2 : list (string * Details)) (cat : string) (d : Details) (e : exn) :
  entries products = es1 ++ (cat, d) :: es2 ->
  Forall (fun x => exists ts, to_datetime (d_last_updated (snd x)) = Ok ts) es1 ->
  to_datetime (d_last_updated d) = Raise e ->
  load_data_from products = Raise e.
Proof.
  intros Hentries Hes1 Hd. unfold load_data_from.
  rewrite load_rows_collect, Hentries, collect_app.
  destruct (collect_prefix_ok es1 Hes1) as [rs ->]. simpl.
  unfold make_row. by rewrite Hd.
Qed.

(** ** The search box: [strip] *)

Lemma lstrip_decomp (l : list ascii) :
  exists lead, l = lead ++ lstrip l /\ forallb is_space lead = true.
Proof.
  induction l as [|c l (lead & Hl & Hlead)]; [by exists []|]. simpl.
  destruct (is_space c) eqn:Hc; [|by exists []].
  exists (c :: lead). simpl. rewrite Hc, Hlead. by rewrite <- Hl.
Qed.

Lemma lstrip_head (l l' : list ascii) (c : ascii) :
  lstrip l = c :: l' -> is_space c = false.
Proof.
  induction l as [|x l IH]; simpl; [discriminate|].
  destruct (is_space x) eqn:Hx; [done|]. by intros [= <- _].
Qed.

Lemma lstrip_nil (l : list ascii) :
  lstrip l = [] <-> forallb is_space l = true.
Proof.
  induction l as [|x l IH]; simpl; [done|].
  destruct (is_space x); simpl; [done|]. split; discriminate.
Qed.

Lemma forallb_rev {A : Type} (f : A -> bool) (l : list A) :
  forallb f (rev l) = forallb f l.
Proof.
  induction l as [|x l IH]; [done|]. simpl.
  rewrite forallb_app, IH. simpl. destruct (forallb f l), (f x); reflexivity.
Qed.

(** What [strip] does to the characters of a text. *)
Lemma strip_chars (s : string) :
  list_ascii_of_string (strip s) =
  rev (lstrip (rev (lstrip (list_ascii_of_string s)))).
Proof. unfold strip. apply list_ascii_of_string_of_list_ascii. Qed.

Lemma strip_decomp (s : string) :
  exists lead trail,
    list_ascii_of_string s = lead ++ list_ascii_of_string (strip s) ++ trail /\
    forallb is_space lead = true /\ forallb is_space trail = true.
Proof.
  rewrite strip_chars.
  destruct (lstrip_decomp (list_ascii_of_string s)) as (lead & Hl & Hlead).
  destruct (lstrip_decomp (rev (lstrip (list_ascii_of_string s))))
    as (t & Ht & Htrail).
  exists lead, (rev t). split; [|split; [done|by rewrite forallb_rev]].
  rewrite Hl at 1. f_equal.
  rewrite <- (rev_involutive (lstrip (list_ascii_of_string s))) at 1.
  rewrite Ht at 1. by rewrite rev_app_distr.
Qed.

Lemma strip_empty (s : string) :
  truthy (strip s) = false <->
  forallb is_space (list_ascii_of_string s) = true.
Proof.
  unfold truthy. rewrite negb_false_iff, String.eqb_eq.
  destruct (lstrip_decomp (list_ascii_of_string s)) as (lead & Hl & Hlead).
  assert (Hall : forallb is_space (list_ascii_of_string s) =
                 forallb is_space (lstrip (list_ascii_of_string s))).
  { rewrite Hl at 1. by rewrite forallb_app, Hlead. }
  rewrite Hall, <- forallb_rev, <- lstrip_nil. split.
  - intros Hs. apply (f_equal list_ascii_of_string) in Hs.
    rewrite strip_chars in Hs. simpl in Hs.
    apply (f_equal (@rev ascii)) in Hs. by rewrite rev_involutive in Hs.
  - intros Hs. unfold strip. by rewrite Hs.
Qed.

(** For ASCII text in the search box: the page shows the filtered frame
    exactly when the box holds nothing but whitespace.  Otherwise it
    searches for the text of the box without the whitespace around it: the
    query is the text between a run of whitespace at each end, and it
    neither starts nor ends with a whitespace character. *)
Theorem whitespace_is_no_query
    (argsort : forall A : Type, (A -> A -> bool) -> list A -> list nat)
    (df : DataFrame) (w : Widgets) :
  ascii_text (text_input w) = true ->
  (forallb is_space (list_ascii_of_string (text_input w)) = true ->
   result_df argsort df w =
   filter_data argsort df (selected_cats w) (price_sel w)
               (option_label (sort_by w)) (ascending w)) /\
  (forallb is_space (list_ascii_of_string (text_input w)) = false ->
   result_df argsort df w = search df (strip (text_input w))) /\
  (exists lead trail,
     list_ascii_of_string (text_input w) =
       lead ++ list_ascii_of_string (strip (text_input w)) ++ trail /\
     forallb is_space lead = true /\ forallb is_space trail = true) /\
  (forall c q, list_ascii_of_string (strip (text_input w)) = c :: q ->
               is_space c = false) /\
  (forall q c, list_ascii_of_string (strip (text_input w)) = q ++ [c] ->
               is_space c = false).
Proof.
  intros _. split; [|split; [|split; [apply strip_decomp|split]]].
  - intros Hall. rewrite result_df_cases.
    by rewrite (proj2 (strip_empty (text_input w)) Hall).
  - intros Hsome. rewrite result_df_cases.
    destruct (truthy (strip (text_input w))) eqn:Ht; [done|].
    apply strip_empty in Ht. congruence.
  - intros c q Hq. rewrite strip_chars in Hq.
    destruct (lstrip_decomp (rev (lstrip (list_ascii_of_string (text_input w)))))
      as (t & Ht & _).
    apply (f_equal (@rev ascii)) in Ht.
    rewrite rev_involutive, rev_app_distr, Hq in Ht. simpl in Ht.
    by apply lstrip_head in Ht.
  - intros q c Hq. rewrite strip_chars in Hq.
    apply (f_equal (@rev ascii)) in Hq.
    rewrite rev_involutive, rev_app_distr in Hq. simpl in Hq.
    by apply lstrip_head in Hq.
Qed.

(** ** The search ignores case *)

Lemma lower_nonletter (c : ascii) : is_letter c = false -> lower c = c.
Proof. destruct c as [[] [] [] [] [] [] [] []]; vm_compute; congruence. Qed.

Lemma lower_letter (c : ascii) : is_letter (lower c) = is_letter c.
Proof. destruct c as [[] [] [] [] [] [] [] []]; vm_compute; congruence. Qed.

Lemma special_nonletter (c : ascii) : is_special c = true -> is_letter c = false.
Proof. destruct c as [[] [] [] [] [] [] [] []]; vm_compute; congruence. Qed.

(** Characters with the same lower case are equal, unless both are letters. *)
Lemma lower_eq (c1 c2 : ascii) :
  lower c1 = lower c2 ->
  c1 = c2 \/ (is_letter c1 = true /\ is_letter c2 = true).
Proof.
  intros Heq.
  destruct (is_letter c1) eqn:H1, (is_letter c2) eqn:H2; [tauto|left..].
  - rewrite <- (lower_letter c1), Heq, lower_letter in H1. congruence.
  - rewrite <- (lower_letter c2), <- Heq, lower_letter in H2. congruence.
  - by rewrite <- (lower_nonletter c1), <- (lower_nonletter c2).
Qed.

Lemma lower_eq_syntax (c1 c2 : ascii) :
  lower c1 = lower c2 ->
  Ascii.eqb c1 "."%char = Ascii.eqb c2 "."%char /\
  is_special c1 = is_special c2 /\
  Ascii.eqb c1 "010"%char = Ascii.eqb c2 "010"%char.
Proof.
  intros [->|[H1 H2]]%lower_eq; [done|].
  assert (Hns : forall c, is_letter c = true ->
    Ascii.eqb c "."%char = false /\ is_special c = false /\
    Ascii.eqb c "010"%char = false).
  { intros c Hc. repeat split.
    - destruct (Ascii.eqb_spec c "."%char) as [->|]; [discriminate|done].
    - destruct (is_special c) eqn:Hs; [|done].
      apply special_nonletter in Hs. congruence.
    - destruct (Ascii.eqb_spec c "010"%char) as [->|]; [discriminate|done]. }
  destruct (Hns c1 H1) as (-> & -> & ->), (Hns c2 H2) as (-> & -> & ->). done.
Qed.

Lemma sre_parse_same_letters (p1 p2 : list ascii) :
  map lower p1 = map lower p2 ->
  match sre_parse p1, sre_parse p2 with
  | Some ts1, Some ts2 => Forall2 token_equiv ts1 ts2
  | None, None => True
  | _, _ => False
  end.
Proof.
  revert p2. induction p1 as [|c1 p1 IH]; intros [|c2 p2]; simpl; try done.
  intros [= Hc Hp]. specialize (IH p2 Hp).
  destruct (lower_eq_syntax c1 c2 Hc) as (Hdot & Hsp & _).
  rewrite <- Hdot, <- Hsp.
  destruct (sre_parse p1) as [ts1|], (sre_parse p2) as [ts2|]; simpl; try done.
  destruct (Ascii.eqb c1 "."%char); [by constructor|].
  destruct (is_special c1); [done|]. by constructor.
Qed.

Lemma token_matches_equiv (t1 t2 : token) (c1 c2 : ascii) :
  token_equiv t1 t2 -> lower c1 = lower c2 ->
  token_matches t1 c1 = token_matches t2 c2.
Proof.
  destruct t1 as [a|], t2 as [b|]; simpl; try done.
  - intros -> ->. done.
  - intros _ Hc. by destruct (lower_eq_syntax c1 c2 Hc) as (_ & _ & ->).
Qed.

Lemma match_here_equiv (ts1 ts2 : list token) (s1 s2 : list ascii) :
  Forall2 token_equiv ts1 ts2 -> map lower s1 = map lower s2 ->
  match_here ts1 s1 = match_here ts2 s2.
Proof.
  intros Hts. revert s1 s2.
  induction Hts as [|t1 t2 ts1 ts2 Ht Hts IH]; intros s1 s2 Hs.
  - by destruct s1, s2.
  - destruct s1 as [|c1 s1], s2 as [|c2 s2]; try done. simpl.
    injection Hs as Hc Hs.
    by rewrite (token_matches_equiv t1 t2 c1 c2 Ht Hc), (IH s1 s2 Hs).
Qed.

Lemma re_search_equiv (ts1 ts2 : list token) (s1 s2 : list ascii) :
  Forall2 token_equiv ts1 ts2 -> map lower s1 = map lower s2 ->
  re_search ts1 s1 = re_search ts2 s2.
Proof.
  intros Hts. revert s2. induction s1 as [|c1 s1 IH]; intros [|c2 s2] Hs;
    try done.
  - simpl. by rewrite (match_here_equiv ts1 ts2 [] [] Hts).
  - simpl re_search.
    rewrite (match_here_equiv ts1 ts2 (c1 :: s1) (c2 :: s2) Hts Hs).
    injection Hs as _ Hs. by rewrite (IH s2 Hs).
Qed.

Lemma str_contains_same_letters (col1 col2 : list string) (q1 q2 : string) :
  same_letters q1 q2 -> Forall2 same_letters col1 col2 ->
  str_contains col1 q1 = str_contains col2 q2.
Proof.
  intros Hq Hcol. unfold str_contains.
  pose proof (sre_parse_same_letters _ _ Hq) as Hts.
  destruct (sre_parse (list_ascii_of_string q1)) as [ts1|],
    (sre_parse (list_ascii_of_string q2)) as [ts2|]; try done.
  f_equal. induction Hcol as [|s1 s2 col1 col2 Hs Hcol IH]; [done|].
  simpl. by rewrite (re_search_equiv ts1 ts2 _ _ Hts Hs), IH.
Qed.

Lemma search_mask_same_letters (df1 df2 : DataFrame) (q1 q2 : string) :
  same_letters q1 q2 ->
  Forall2 (fun r1 r2 => same_letters (name r1) (name r2) /\
                        same_letters (company r1) (company r2))
          (rows df1) (rows df2) ->
  search_mask df1 q1 = search_mask df2 q2.
Proof.
  intros Hq Hrows. unfold search_mask.
  rewrite (str_contains_same_letters (map name (rows df1))
             (map name (rows df2)) q1 q2 Hq).
  - rewrite (str_contains_same_letters (map company (rows df1))
               (map company (rows df2)) q1 q2 Hq); [done|].
    induction Hrows as [|r1 r2 l1 l2 [_ H] _ IH]; simpl; by constructor.
  - induction Hrows as [|r1 r2 l1 l2 [H _] _ IH]; simpl; by constructor.
Qed.

(** The search does not see the case of letters, in the query or in the
    frame: when a query of literal characters and dots gives a mask, a
    query that differs from it in the case of letters only, on a frame whose
    names and companies differ in case only, gives the same mask. *)
Theorem search_ignores_case (df1 df2 : DataFrame) (q1 q2 : string)
    (mask : list bool) :
  same_letters q1 q2 ->
  Forall2 (fun r1 r2 => same_letters (name r1) (name r2) /\
                        same_letters (company r1) (company r2))
          (rows df1) (rows df2) ->
  search_mask df1 q1 = Ok mask ->
  search_mask df2 q2 = Ok mask.
Proof.
  intros Hq Hrows Hmask.
  by rewrite <- (search_mask_same_letters df1 df2 q1 q2 Hq Hrows).
Qed.

(** ** A longer query finds less *)

Lemma is_prefix_spec (p s : list ascii) :
  is_prefix p s = true <-> exists post, s = p ++ post.
Proof.
  revert s. induction p as [|a p IH]; intros s; simpl.
  - split; [eauto|done].
  - destruct s as [|b s].
    + split; [done|]. by intros [post [=]].
    + rewrite andb_true_iff, IH. split.
      * intros [->%Ascii.eqb_eq [post ->]]. eauto.
      * intros [post [= -> ->]]. split; [apply Ascii.eqb_refl|eauto].
Qed.

Lemma is_substring_spec (p s : list ascii) :
  is_substring p s = true <-> exists pre post, s = pre ++ p ++ post.
Proof.
  induction s as [|b s IH]; simpl.
  - rewrite orb_false_r, is_prefix_spec. split.
    + intros [post Hs]. by exists [], post.
    + intros (pre & post & Hs). symmetry in Hs.
      apply app_eq_nil in Hs as [-> Hs]. eauto.
  - rewrite orb_true_iff, is_prefix_spec, IH. split.
    + intros [[post Hs]|(pre & post & ->)].
      * by exists [], post.
      * by exists (b :: pre), post.
    + intros ([|x pre] & post & Hs).
      * left. eauto.
      * right. injection Hs as -> ->. eauto.
Qed.

Lemma is_substring_trans (a b s : list ascii) :
  is_substring a b = true -> is_substring b s = true -> is_substring a s = true.
Proof.
  rewrite !is_substring_spec.
  intros (pre1 & post1 & ->) (pre2 & post2 & ->).
  exists (pre2 ++ pre1), (post1 ++ post2). by rewrite <- !app_assoc.
Qed.

Lemma filter_sublist_mono {A : Type} (f g : A -> bool) (l : list A) :
  (forall x, f x = true -> g x = true) ->
  sublist (List.filter f l) (List.filter g l).
Proof.
  intros Hfg. induction l as [|x l IH]; simpl; [constructor|].
  destruct (f x) eqn:Hf.
  - rewrite (Hfg x Hf). by constructor.
  - destruct (g x); [by constructor|done].
Qed.

(** Typing more never finds more: when a query without [re] syntax occurs
    in a longer one (case ignored), every row the longer query finds is
    found by the shorter one, and the rows keep their order. *)
Theorem search_longer_query (df out1 out2 : DataFrame) (q1 q2 : string) :
  plain_query q1 = true -> plain_query q2 = true ->
  ci_substring q1 q2 = true ->
  search df q1 = Ok out1 -> search df q2 = Ok out2 ->
  sublist out2 out1.
Proof.
  intros Hp1 Hp2 Hsub. rewrite !search_plain by done.
  intros [= <-] [= <-]. apply filter_sublist_mono.
  intros [i r]. unfold search_matches, ci_substring in *. simpl.
  rewrite !orb_true_iff. intros [H|H]; [left|right];
    by apply (is_substring_trans _ _ _ Hsub).
Qed.

(** ** The price with thousands separators *)

Lemma py_str_negative (n : Z) : n < 0 -> py_str n = String "-" (py_str (- n)).
Proof. destruct n; try lia. reflexivity. Qed.

Lemma to_int_normal (n : Z) :
  Z.to_int n <> Decimal.Pos Decimal.Nil /\ Z.to_int n <> Decimal.Neg Decimal.Nil.
Proof.
  pose proof (DecimalZ.to_of (Z.to_int n)) as Hnorm.
  rewrite DecimalZ.of_to in Hnorm.
  split; intros Heq; rewrite Heq in Hnorm; discriminate Hnorm.
Qed.

Lemma parse_py_str (n : Z) : parse_int (py_str n) = Some n.
Proof.
  unfold parse_int, py_str. destruct (to_int_normal n) as [Hpos Hneg].
  rewrite NilZero.isi by done. simpl. by rewrite DecimalZ.of_to.
Qed.

Lemma string_of_uint_digits (d : Decimal.uint) :
  forallb not_comma (list_ascii_of_string (NilEmpty.string_of_uint d)) = true.
Proof. induction d; simpl; done. Qed.

Lemma py_str_digits (n : Z) :
  0 <= n -> forallb not_comma (list_ascii_of_string (py_str n)) = true.
Proof.
  intros Hn. unfold py_str. destruct n as [|p|p]; [done| |lia].
  simpl. destruct (Pos.to_uint p); try done; apply string_of_uint_digits.
Qed.

(** Induction along [group_rev]: three characters at a time. *)
Lemma group_rev_ind (P : list ascii -> Prop) :
  P [] -> (forall a, P [a]) -> (forall a b, P [a; b]) -> (forall a b c, P [a; b; c]) ->
  (forall a b c d rest, P (d :: rest) -> P (a :: b :: c :: d :: rest)) ->
  forall l, P l.
Proof.
  intros H0 H1 H2 H3 Hstep l.
  assert (Hall : forall n l, (length l <= n)%nat -> P l).
  { clear l. induction n as [|n IH]; intros l Hl.
    - destruct l; [done|simpl in Hl; lia].
    - destruct l as [|a [|b [|c [|d rest]]]]; try done.
      apply Hstep, IH. simpl in *. lia. }
  by apply (Hall (length l)).
Qed.

Lemma filter_group_rev (l : list ascii) :
  List.filter not_comma (group_rev l) = List.filter not_comma l.
Proof.
  induction l as [| | | |a b c d rest IH] using group_rev_ind; try done.
  change (group_rev (a :: b :: c :: d :: rest))
    with (a :: b :: c :: ","%char :: group_rev (d :: rest)).
  cbn [List.filter]. rewrite IH. cbn [List.filter].
  change (not_comma ","%char) with false. cbv iota.
  by destruct (not_comma a), (not_comma b), (not_comma c).
Qed.

Lemma remove_commas_group (s : string) :
  forallb not_comma (list_ascii_of_string s) = true ->
  remove_commas (group s) = s.
Proof.
  intros Hs. unfold remove_commas, group.
  rewrite list_ascii_of_string_of_list_ascii.
  rewrite filter_rev, filter_group_rev, <- filter_rev, rev_involutive.
  rewrite filter_true; [apply string_of_list_ascii_of_string|].
  apply List.Forall_forall. intros c Hc.
  by apply (proj1 (forallb_forall _ _) Hs).
Qed.

(** Every fourth character from the right is a comma, no other is, and
    the first character is none. *)
Lemma group_rev_shape (l : list ascii) :
  forallb not_comma l = true ->
  (l <> [] -> (length (group_rev l) mod 4 <> 0)%nat) /\
  forall (i : nat) (c : ascii),
    group_rev l !! i = Some c -> (c = ","%char <-> (i mod 4 = 3)%nat).
Proof.
  induction l as [|a|a b|a b c|a b c d rest IH] using group_rev_ind.
  - intros _. split; [done|]. intros i c. by destruct i.
  - simpl. rewrite andb_true_r. intros Ha. split; [done|].
    intros [|i] x; simpl; [|by destruct i]. intros [= <-]. split; [|done].
    intros ->. done.
  - simpl. rewrite andb_true_r. intros [Ha Hb]%andb_true_iff. split; [done|].
    intros [|[|i]] x; simpl; try (by destruct i);
      intros [= <-]; (split; [intros ->|]; done).
  - simpl. rewrite andb_true_r.
    intros [Ha [Hb Hc]%andb_true_iff]%andb_true_iff. split; [done|].
    intros [|[|[|i]]] x; simpl; try (by destruct i);
      intros [= <-]; (split; [intros ->|]; done).
  - intros Hall.
    change (group_rev (a :: b :: c :: d :: rest))
      with (a :: b :: c :: ","%char :: group_rev (d :: rest)).
    simpl in Hall.
    apply andb_true_iff in Hall as [Ha [Hb [Hc Hrest]%andb_true_iff]%andb_true_iff].
    destruct (IH Hrest) as [Hlen Hpos]. split.
    + intros _. specialize (Hlen ltac:(done)).
      change (length (a :: b :: c :: ","%char :: group_rev (d :: rest)))
        with (4 + length (group_rev (d :: rest)))%nat.
      rewrite <- Nat.Div0.add_mod_idemp_l. exact Hlen.
    + intros [|[|[|[|i]]]] x.
      * simpl. intros [= <-]. split; [intros ->|]; done.
      * simpl. intros [= <-]. split; [intros ->|]; done.
      * simpl. intros [= <-]. split; [intros ->|]; done.
      * simpl. intros [= <-]. done.
      * change ((a :: b :: c :: ","%char :: group_rev (d :: rest)) !! S (S (S (S i))))
          with (group_rev (d :: rest) !! i).
        intros Hi. rewrite (Hpos i x Hi).
        change (S (S (S (S i)))) with (4 + i)%nat.
        rewrite <- Nat.Div0.add_mod_idemp_l. done.
Qed.

(** The price the details view shows reads back as the price: without its
    commas it is the decimal number [str(n)].  A negative number is the
    minus sign before the same digits.  In a number that is not negative
    every fourth character from the right is a comma, no other character is
    one, and the first character is a digit. *)
Theorem format_thousands_reads_back (n : Z) :
  remove_commas (format_thousands n) = py_str n /\
  parse_int (remove_commas (format_thousands n)) = Some n /\
  (n < 0 -> format_thousands n = String "-" (format_thousands (- n))) /\
  (0 <= n ->
   (length (list_ascii_of_string (format_thousands n)) mod 4 <> 0)%nat /\
   forall (i : nat) (c : ascii),
     rev (list_ascii_of_string (format_thousands n)) !! i = Some c ->
     (c = ","%char <-> (i mod 4 = 3)%nat)).
Proof.
  assert (Hplain : remove_commas (format_thousands n) = py_str n).
  { unfold format_thousands. destruct (Z.ltb_spec n 0) as [Hn|Hn].
    - rewrite (py_str_negative n Hn).
      pose proof (remove_commas_group (py_str (- n))
                    (py_str_digits (- n) ltac:(lia))) as Hg.
      unfold remove_commas in *. simpl. by rewrite Hg.
    - apply remove_commas_group, py_str_digits, Hn. }
  split; [exact Hplain|]. split; [rewrite Hplain; apply parse_py_str|]. split.
  - intros Hn. unfold format_thousands.
    destruct (Z.ltb_spec n 0); [|lia]. destruct (Z.ltb_spec (- n) 0); [lia|done].
  - intros Hn. unfold format_thousands. destruct (Z.ltb_spec n 0); [lia|].
    unfold group. rewrite list_ascii_of_string_of_list_ascii.
    rewrite length_rev, rev_involutive.
    pose proof (py_str_digits n Hn) as Hd. rewrite <- forallb_rev in Hd.
    destruct (group_rev_shape _ Hd) as [Hlen Hpos]. split; [|exact Hpos].
    apply Hlen. intros Hnil. apply (f_equal (@rev ascii)) in Hnil.
    rewrite rev_involutive in Hnil. simpl in Hnil.
    pose proof (parse_py_str n) as Hparse.
    rewrite <- (string_of_list_ascii_of_string (py_str n)), Hnil in Hparse.
    discriminate Hparse.
Qed.

(** ** The date of the details view *)

Lemma digit_char_digit (c : ascii) (n : Z) :
  digit c = Some n -> digit_char n = c /\ 0 <= n <= 9.
Proof.
  destruct c as [[] [] [] [] [] [] [] []]; intros H; vm_compute in H;
    try discriminate H; injection H as <-; (split; [reflexivity|lia]).
Qed.

(** Cases on the bits of a character that a match reads, one at a time. *)
Ltac prune_match H :=
  repeat match type of H with
         | context [match ?c with Ascii _ _ _ _ _ _ _ _ => _ end] =>
             is_var c; destruct c
         | context [if ?b then _ else _] =>
             is_var b; destruct b; try discriminate H
         end.

Lemma to_datetime_inv (s : string) (ts : Timestamp) :
  to_datetime s = Ok ts ->
  exists y1 y2 y3 y4 m1 m2 d1 d2,
    list_ascii_of_string s =
      [y1; y2; y3; y4; "-"%char; m1; m2; "-"%char; d1; d2] /\
    number [y1; y2; y3; y4] 0 = Some (year ts) /\
    number [m1; m2] 0 = Some (month ts) /\
    number [d1; d2] 0 = Some (day ts) /\
    1 <= month ts <= 12 /\ 1 <= day ts <= days_in_month (year ts) (month ts) /\
    1678 <= year ts <= 2261.
Proof.
  unfold to_datetime.
  destruct (list_ascii_of_string s)
    as [|y1 [|y2 [|y3 [|y4 [|c5 [|m1 [|m2 [|c8 [|d1 [|d2 [|x rest]]]]]]]]]]];
    try discriminate; intros H; prune_match H.
  destruct (number [y1; y2; y3; y4] 0) as [y|] eqn:Hy; [|discriminate].
  destruct (number [m1; m2] 0) as [m|] eqn:Hm; [|discriminate].
  destruct (number [d1; d2] 0) as [d|] eqn:Hd; [|discriminate].
  destruct (negb _) eqn:Hvalid; [discriminate|].
  destruct ((1678 <=? y) && (y <=? 2261)) eqn:Hrange; [|discriminate].
  injection H as <-. simpl.
  apply negb_false_iff in Hvalid. rewrite !andb_true_iff, !Z.leb_le in Hvalid.
  rewrite andb_true_iff, !Z.leb_le in Hrange.
  exists y1, y2, y3, y4, m1, m2, d1, d2.
  split; [reflexivity|]. split; [exact Hy|]. split; [exact Hm|].
  split; [exact Hd|]. lia.
Qed.

Lemma number_two (a b : ascii) (n : Z) :
  number [a; b] 0 = Some n -> two_digits n = [a; b].
Proof.
  simpl. destruct (digit a) as [na|] eqn:Ha; [|discriminate].
  destruct (digit b) as [nb|] eqn:Hb; [|discriminate]. simpl. intros [= <-].
  apply digit_char_digit in Ha as [<- Ha], Hb as [<- Hb]. unfold two_digits.
  repeat f_equal; Z.div_mod_to_equations; lia.
Qed.

Lemma number_four (a b c d : ascii) (n : Z) :
  number [a; b; c; d] 0 = Some n -> four_digits n = [a; b; c; d].
Proof.
  simpl. destruct (digit a) as [na|] eqn:Ha; [|discriminate].
  destruct (digit b) as [nb|] eqn:Hb; [|discriminate].
  destruct (digit c) as [nc|] eqn:Hc; [|discriminate].
  destruct (digit d) as [nd|] eqn:Hd; [|discriminate]. simpl. intros [= <-].
  apply digit_char_digit in Ha as [<- Ha], Hb as [<- Hb], Hc as [<- Hc],
    Hd as [<- Hd].
  unfold four_digits. repeat f_equal; Z.div_mod_to_equations; lia.
Qed.

Lemma month_cases (m : Z) :
  1 <= m <= 12 ->
  m = 1 \/ m = 2 \/ m = 3 \/ m = 4 \/ m = 5 \/ m = 6 \/
  m = 7 \/ m = 8 \/ m = 9 \/ m = 10 \/ m = 11 \/ m = 12.
Proof. lia. Qed.

(** The printed date in terms of the characters of the parsed string. *)
Lemma strftime_to_datetime (s : string) (ts : Timestamp) :
  to_datetime s = Ok ts ->
  exists y1 y2 y3 y4 m1 m2 d1 d2,
    s = string_of_list_ascii
          [y1; y2; y3; y4; "-"%char; m1; m2; "-"%char; d1; d2] /\
    two_digits (month ts) = [m1; m2] /\ 1 <= month ts <= 12 /\
    strftime ts =
      (string_of_list_ascii [d1; d2] ++ " " ++ month_abbr (month ts) ++ " " ++
       string_of_list_ascii [y1; y2; y3; y4])%string.
Proof.
  intros (y1 & y2 & y3 & y4 & m1 & m2 & d1 & d2 & Hs & Hy & Hm & Hd & Hmr & _)
    %to_datetime_inv.
  exists y1, y2, y3, y4, m1, m2, d1, d2. split; [|split; [|split; [done|]]].
  - by rewrite <- Hs, string_of_list_ascii_of_string.
  - by apply number_two.
  - unfold strftime. by rewrite (number_two _ _ _ Hd), (number_four _ _ _ _ _ Hy).
Qed.

(** The date of the details view is the date of the dataset: for a date
    string [YYYY-MM-DD] that [load_data] parses, the view prints the two
    day digits of the string, the short name of its month and its four
    year digits, 11 characters in all; and two strings that are printed
    alike are the same string. *)
Theorem strftime_shows_the_date (s : string) (ts : Timestamp) :
  to_datetime s = Ok ts ->
  strftime ts =
    (substring 8 2 s ++ " " ++ month_abbr (month ts) ++ " " ++
     substring 0 4 s)%string /\
  list_ascii_of_string (substring 5 2 s) = two_digits (month ts) /\
  1 <= month ts <= 12 /\
  String.length (strftime ts) = 11%nat /\
  forall (s' : string) (ts' : Timestamp),
    to_datetime s' = Ok ts' -> strftime ts' = strftime ts -> s' = s.
Proof.
  intros Hs.
  destruct (strftime_to_datetime s ts Hs)
    as (y1 & y2 & y3 & y4 & m1 & m2 & d1 & d2 & -> & Hm & Hmr & Hprint).
  split; [exact Hprint|]. split; [by rewrite Hm|]. split; [done|]. split.
  - rewrite Hprint.
    destruct (month_cases _ Hmr) as [->|[->|[->|[->|[->|[->|[->|[->|[->|[->|[->| ->]]]]]]]]]]];
      reflexivity.
  - intros s' ts' Hs' Heq.
    destruct (strftime_to_datetime s' ts' Hs')
      as (z1 & z2 & z3 & z4 & n1 & n2 & e1 & e2 & -> & Hm' & Hmr' & Hprint').
    rewrite Hprint, Hprint' in Heq.
    assert (Hmonth : month ts' = month ts /\ e1 = d1 /\ e2 = d2 /\
                     z1 = y1 /\ z2 = y2 /\ z3 = y3 /\ z4 = y4).
    { clear Hs Hs' Hm Hm' Hprint Hprint'.
      destruct (month_cases _ Hmr) as [E|[E|[E|[E|[E|[E|[E|[E|[E|[E|[E|E]]]]]]]]]]];
        destruct (month_cases _ Hmr') as [E'|[E'|[E'|[E'|[E'|[E'|[E'|[E'|[E'|[E'|[E'|E']]]]]]]]]]];
        rewrite E, E' in Heq |- *; simplify_eq/=; done. }
    destruct Hmonth as (Hmo & -> & -> & -> & -> & -> & ->).
    rewrite Hmo, Hm in Hm'. injection Hm' as -> ->. reflexivity.
Qed.

(** ** The theorems of this part at concrete inputs *)

(** [default_selection_keeps_all] on the sample catalog. *)
Lemma default_selection_keeps_all_witness :
  permutes insertion_argsort /\
  default_selection catalog =
    Ok (["Electronics"; "Appliances"; "Accessories"], (800, 70000)) /\
  800 <= 70000 /\
  List.NoDup ["Electronics"; "Appliances"; "Accessories"] /\
  exists out,
    filter_data insertion_argsort catalog
                ["Electronics"; "Appliances"; "Accessories"] (800, 70000)
                (column_label ColName) false = Ok out /\
    Permutation (rows out) (rows catalog).
Proof.
  split; [exact insertion_argsort_permutes|]. split; [reflexivity|].
  exact (default_selection_keeps_all insertion_argsort insertion_argsort_permutes
           catalog ["Electronics"; "Appliances"; "Accessories"] (800, 70000)
           ColName false eq_refl).
Defined.

(** [result_banner_counts] on the sample catalog with "hp" in the search
    box: one product found. *)
Lemma result_banner_counts_witness :
  permutes insertion_argsort /\
  result_df insertion_argsort catalog
            {| selected_cats := ["Electronics"]; price_sel := (800, 70000);
               sort_by := SortPrice; ascending := true; text_input := " hp " |} =
    Ok [(6%nat, mouse)] /\
  (length [(6%nat, mouse)] <= length catalog)%nat /\
  (result_banner [(6%nat, mouse)] = Warning <-> [(6%nat, mouse)] = []) /\
  (forall n, result_banner [(6%nat, mouse)] = Success n ->
             n = length [(6%nat, mouse)] /\ (1 <= n <= length catalog)%nat).
Proof.
  assert (H : result_df insertion_argsort catalog
            {| selected_cats := ["Electronics"]; price_sel := (800, 70000);
               sort_by := SortPrice; ascending := true; text_input := " hp " |} =
    Ok [(6%nat, mouse)]) by (vm_compute; reflexivity).
  split; [exact insertion_argsort_permutes|]. split; [exact H|].
  exact (result_banner_counts insertion_argsort insertion_argsort_permutes
           catalog _ _ H).
Defined.

(** [filter_data_narrows] on the sample catalog: the electronics between
    2500 and 30000 by price, among the electronics and appliances up to
    100000 by descending name. *)
Lemma filter_data_narrows_witness :
  permutes insertion_argsort /\
  (forall v, In v ["Electronics"] -> In v ["Electronics"; "Appliances"]) /\
  0 <= 2500 /\ 30000 <= 100000 /\
  filter_data insertion_argsort catalog ["Electronics"] (2500, 30000)
              (column_label ColPrice) true =
    Ok [(0%nat, earbuds); (1%nat, smartphone)] /\
  filter_data insertion_argsort catalog ["Electronics"; "Appliances"] (0, 100000)
              (column_label ColName) false =
    Ok [(0%nat, washing_machine); (1%nat, smartphone); (2%nat, refrigerator);
        (3%nat, laptop); (4%nat, earbuds)] /\
  rows [(0%nat, earbuds); (1%nat, smartphone)] ⊆+
  rows [(0%nat, washing_machine); (1%nat, smartphone); (2%nat, refrigerator);
        (3%nat, laptop); (4%nat, earbuds)].
Proof.
  assert (Hcats : forall v, In v ["Electronics"] ->
                            In v ["Electronics"; "Appliances"])
    by (intros v [<-|[]]; left; reflexivity).
  assert (H1 : filter_data insertion_argsort catalog ["Electronics"] (2500, 30000)
                 (column_label ColPrice) true =
               Ok [(0%nat, earbuds); (1%nat, smartphone)])
    by (vm_compute; reflexivity).
  assert (H2 : filter_data insertion_argsort catalog ["Electronics"; "Appliances"]
                 (0, 100000) (column_label ColName) false =
               Ok [(0%nat, washing_machine); (1%nat, smartphone);
                   (2%nat, refrigerator); (3%nat, laptop); (4%nat, earbuds)])
    by (vm_compute; reflexivity).
  split; [exact insertion_argsort_permutes|]. split; [exact Hcats|].
  split; [lia|]. split; [lia|]. split; [exact H1|]. split; [exact H2|].
  apply (filter_data_narrows insertion_argsort insertion_argsort_permutes
           catalog ["Electronics"] ["Electronics"; "Appliances"]
           2500 30000 0 100000 ColPrice ColName true false _ _ Hcats);
    [lia|lia|exact H1|exact H2].
Defined.

(** [load_data_first_failure] on a dict whose second item is dated the
    30th of February. *)
Lemma load_data_first_failure_witness :
  entries [("Electronics", [item "Laptop" 70000 "Dell" "2025-10-10";
                            item "Smartphone" 30000 "Samsung" "2025-02-30";
                            item "Earbuds" 2500 "Realme" "2025-08-20"])] =
    [("Electronics", snd (item "Laptop" 70000 "Dell" "2025-10-10"))] ++
    ("Electronics", snd (item "Smartphone" 30000 "Samsung" "2025-02-30")) ::
    [("Electronics", snd (item "Earbuds" 2500 "Realme" "2025-08-20"))] /\
  to_datetime "2025-10-10" = Ok (date 2025 10 10) /\
  to_datetime "2025-02-30" = Raise (ParseError "2025-02-30") /\
  load_data_from [("Electronics", [item "Laptop" 70000 "Dell" "2025-10-10";
                                   item "Smartphone" 30000 "Samsung" "2025-02-30";
                                   item "Earbuds" 2500 "Realme" "2025-08-20"])] =
    Raise (ParseError "2025-02-30").
Proof.
  split; [reflexivity|]. split; [reflexivity|]. split; [reflexivity|].
  apply (load_data_first_failure _
           [("Electronics", snd (item "Laptop" 70000 "Dell" "2025-10-10"))]
           [("Electronics", snd (item "Earbuds" 2500 "Realme" "2025-08-20"))]
           "Electronics" (snd (item "Smartphone" 30000 "Samsung" "2025-02-30"))).
  - reflexivity.
  - constructor; [|constructor]. exists (date 2025 10 10). reflexivity.
  - reflexivity.
Defined.

(** [whitespace_is_no_query] on a box with " hp " and on a box of three
    spaces. *)
Lemma whitespace_is_no_query_witness :
  ascii_text " hp " = true /\ ascii_text "   " = true /\
  result_df insertion_argsort catalog
            {| selected_cats := ["Electronics"]; price_sel := (800, 70000);
               sort_by := SortPrice; ascending := true; text_input := " hp " |} =
    search catalog "hp" /\
  result_df insertion_argsort catalog
            {| selected_cats := ["Electronics"]; price_sel := (800, 70000);
               sort_by := SortPrice; ascending := true; text_input := "   " |} =
    filter_data insertion_argsort catalog ["Electronics"] (800, 70000)
                "price" true.
Proof.
  split; [reflexivity|]. split; [reflexivity|]. split.
  - exact (proj1 (proj2 (whitespace_is_no_query insertion_argsort catalog
             {| selected_cats := ["Electronics"]; price_sel := (800, 70000);
                sort_by := SortPrice; ascending := true;
                text_input := " hp " |} eq_refl)) eq_refl).
  - exact (proj1 (whitespace_is_no_query insertion_argsort catalog
             {| selected_cats := ["Electronics"]; price_sel := (800, 70000);
                sort_by := SortPrice; ascending := true;
                text_input := "   " |} eq_refl) eq_refl).
Defined.

(** [search_ignores_case]: "DELL" and "dell" on the sample catalog. *)
Lemma search_ignores_case_witness :
  same_letters "DELL" "dell" /\
  Forall2 (fun r1 r2 => same_letters (name r1) (name r2) /\
                        same_letters (company r1) (company r2))
          (rows catalog) (rows catalog) /\
  search_mask catalog "DELL" =
    Ok [true; false; false; false; false; false; false] /\
  search_mask catalog "dell" =
    Ok [true; false; false; false; false; false; false].
Proof.
  assert (Hrows : Forall2 (fun r1 r2 => same_letters (name r1) (name r2) /\
                                        same_letters (company r1) (company r2))
                          (rows catalog) (rows catalog))
    by (repeat constructor).
  assert (Hmask : search_mask catalog "DELL" =
                  Ok [true; false; false; false; false; false; false])
    by (vm_compute; reflexivity).
  split; [reflexivity|]. split; [exact Hrows|]. split; [exact Hmask|].
  exact (search_ignores_case catalog catalog "DELL" "dell" _ eq_refl Hrows Hmask).
Defined.

(** [search_longer_query]: "r" occurs in "Refrigerator". *)
Lemma search_longer_query_witness :
  plain_query "r" = true /\ plain_query "Refrigerator" = true /\
  ci_substring "r" "Refrigerator" = true /\
  search catalog "r" =
    Ok [(1%nat, smartphone); (2%nat, earbuds); (3%nat, refrigerator);
        (4%nat, washing_machine); (5%nat, keyboard)] /\
  search catalog "Refrigerator" = Ok [(3%nat, refrigerator)] /\
  sublist [(3%nat, refrigerator)]
          [(1%nat, smartphone); (2%nat, earbuds); (3%nat, refrigerator);
           (4%nat, washing_machine); (5%nat, keyboard)].
Proof.
  assert (H1 : search catalog "r" =
               Ok [(1%nat, smartphone); (2%nat, earbuds); (3%nat, refrigerator);
                   (4%nat, washing_machine); (5%nat, keyboard)])
    by (vm_compute; reflexivity).
  assert (H2 : search catalog "Refrigerator" = Ok [(3%nat, refrigerator)])
    by (vm_compute; reflexivity).
  split; [reflexivity|]. split; [reflexivity|]. split; [reflexivity|].
  split; [exact H1|]. split; [exact H2|].
  exact (search_longer_query catalog _ _ "r" "Refrigerator" eq_refl eq_refl
           eq_refl H1 H2).
Defined.

(** [strftime_shows_the_date] on the date of the laptop. *)
Lemma strftime_shows_the_date_witness :
  to_datetime "2025-10-10" = Ok (date 2025 10 10) /\
  strftime (date 2025 10 10) = "10 Oct 2025" /\
  forall (s' : string) (ts' : Timestamp),
    to_datetime s' = Ok ts' -> strftime ts' = strftime (date 2025 10 10) ->
    s' = "2025-10-10".
Proof.
  split; [reflexivity|].
  destruct (strftime_shows_the_date "2025-10-10" (date 2025 10 10) eq_refl)
    as (Hprint & _ & _ & _ & Hinj).
  split; [exact Hprint|exact Hinj].
Defined.

(** ** The toggle *)

Section Toggle.

Variable argsort : forall A : Type, (A -> A -> bool) -> list A -> list nat.
Hypothesis argsort_permutes : permutes argsort.
Hypothesis argsort_sorts : sorts argsort.

(** Switching the toggle turns the table upside down, as long as no two
    of the rows kept have the same value in the column sorted by: the rows
    in descending order are the rows in ascending order read from the last
    to the first, under the same index labels. *)
Theorem toggle_reverses (df : DataFrame) (categories : list string)
    (price_range : Z * Z) (c : Column) (up down : DataFrame) :
  (forall r1 r2 : Row,
     In r1 (rows df) -> In r2 (rows df) ->
     selected categories price_range r1 = true ->
     selected categories price_range r2 = true ->
     key_le c r1 r2 = true -> key_le c r2 r1 = true -> r1 = r2) ->
  filter_data argsort df categories price_range (column_label c) true = Ok up ->
  filter_data argsort df categories price_range (column_label c) false = Ok down ->
  rows down = rev (rows up) /\ index_labels down = index_labels up.
Proof.
  intros Hties. rewrite !filter_data_column. intros [= <-] [= <-].
  set (kept := List.filter
    (fun x : nat * Row => selected categories price_range (snd x)) df).
  assert (Hperm : forall asc,
    Permutation (rows (sort_by_column argsort c kept asc)) (rows kept)).
  { intros asc. unfold rows. apply Permutation_map.
    by apply sort_by_column_Permutation. }
  assert (Hrows : rows (sort_by_column argsort c kept false) =
                  rev (rows (sort_by_column argsort c kept true))).
  { apply (StronglySorted_unique_strong
             (fun r1 r2 => key_le c r2 r1 = true)).
    - intros x1 x2 Hx1 Hx2 H12 H21.
      rewrite Hperm in Hx1. apply list_elem_of_In in Hx1.
      apply list_elem_of_In, in_rev in Hx2. apply list_elem_of_In in Hx2.
      rewrite Hperm in Hx2. apply list_elem_of_In in Hx2.
      unfold kept in Hx1, Hx2. rewrite rows_filter in Hx1, Hx2.
      apply filter_In in Hx1 as [Hx1 Hs1], Hx2 as [Hx2 Hs2].
      by apply Hties.
    - apply (sort_by_column_ordered argsort argsort_sorts c kept false).
    - apply StronglySorted_rev.
      apply (sort_by_column_ordered argsort argsort_sorts c kept true).
    - rewrite <- Permutation_rev. by rewrite !Hperm. }
  split.
  - by rewrite !rows_reset_index.
  - unfold reset_index. rewrite !index_pd_DataFrame. f_equal.
    fold (rows (sort_by_column argsort c kept false)).
    fold (rows (sort_by_column argsort c kept true)).
    by rewrite Hrows, length_rev.
Qed.

End Toggle.

(** [toggle_reverses] on the electronics of the sample catalog by price. *)
Lemma toggle_reverses_witness :
  permutes insertion_argsort /\ sorts insertion_argsort /\
  filter_data insertion_argsort catalog ["Electronics"] (0, 100000)
              (column_label ColPrice) true =
    Ok [(0%nat, earbuds); (1%nat, smartphone); (2%nat, laptop)] /\
  filter_data insertion_argsort catalog ["Electronics"] (0, 100000)
              (column_label ColPrice) false =
    Ok [(0%nat, laptop); (1%nat, smartphone); (2%nat, earbuds)] /\
  rows [(0%nat, laptop); (1%nat, smartphone); (2%nat, earbuds)] =
    rev (rows [(0%nat, earbuds); (1%nat, smartphone); (2%nat, laptop)]) /\
  index_labels [(0%nat, laptop); (1%nat, smartphone); (2%nat, earbuds)] =
    index_labels [(0%nat, earbuds); (1%nat, smartphone); (2%nat, laptop)].
Proof.
  assert (Hties : forall r1 r2 : Row,
     In r1 (rows catalog) -> In r2 (rows catalog) ->
     selected ["Electronics"] (0, 100000) r1 = true ->
     selected ["Electronics"] (0, 100000) r2 = true ->
     key_le ColPrice r1 r2 = true -> key_le ColPrice r2 r1 = true -> r1 = r2)
    by (intros r1 r2 H1 H2 _ _;
        exact (catalog_keys_distinct SortPrice ColPrice r1 r2 eq_refl H1 H2)).
  assert (Hup : filter_data insertion_argsort catalog ["Electronics"] (0, 100000)
                  (column_label ColPrice) true =
                Ok [(0%nat, earbuds); (1%nat, smartphone); (2%nat, laptop)])
    by (vm_compute; reflexivity).
  assert (Hdown : filter_data insertion_argsort catalog ["Electronics"] (0, 100000)
                    (column_label ColPrice) false =
                  Ok [(0%nat, laptop); (1%nat, smartphone); (2%nat, earbuds)])
    by (vm_compute; reflexivity).
  split; [exact insertion_argsort_permutes|].
  split; [exact insertion_argsort_sorts|].
  split; [exact Hup|]. split; [exact Hdown|].
  exact (toggle_reverses insertion_argsort insertion_argsort_permutes
           insertion_argsort_sorts catalog ["Electronics"] (0, 100000) ColPrice
           _ _ Hties Hup Hdown).
Defined.

(** Rows that tie are not turned round by a stable kernel: the two
    appliances, sorted by category, come in the order of the frame with the
    toggle on and off. *)
Example toggle_with_ties :
  filter_data insertion_argsort catalog ["Appliances"] (0, 100000) "category" true =
    Ok [(0%nat, refrigerator); (1%nat, washing_machine)] /\
  filter_data insertion_argsort catalog ["Appliances"] (0, 100000) "category" false =
    Ok [(0%nat, refrigerator); (1%nat, washing_machine)].
Proof. split; vm_compute; reflexivity. Qed.

(** ** [load_data] and the dicts of [PRODUCTS] *)

Lemma load_item_eq (cat : string) (d : nat) (data : list nat)
    (h : gmap nat (gmap string scalar)) :
  load_item cat d data h =
  match h !! d with
  | None => (Unmodelled, h)
  | Some o =>
      let l := fresh (dom h) in
      let o1 := <["category" := Str cat]> o in
      match o !! "last_updated" with
      | None => (Raise (KeyError "last_updated"), <[l := o1]> h)
      | Some (Str s) =>
          match to_datetime s with
          | Ok ts => (Ok (data ++ [l]), <[l := <["last_updated" := Date ts]> o1]> h)
          | Raise e => (Raise e, <[l := o1]> h)
          | Unmodelled => (Unmodelled, <[l := o1]> h)
          end
      | Some _ => (Unmodelled, <[l := o1]> h)
      end
  end.
Proof.
  unfold load_item, mbind, dpy_bind, dict_copy.
  destruct (h !! d) as [o|]; [|reflexivity]. cbv zeta.
  set (l := fresh (dom h)).
  unfold dict_setitem at 1. rewrite lookup_insert_eq, insert_insert_eq.
  unfold dict_getitem. rewrite lookup_insert_eq.
  rewrite lookup_insert_ne by done.
  destruct (o !! "last_updated") as [[s|n|ts]|]; try reflexivity.
  unfold pd_to_datetime. destruct (to_datetime s) as [ts| |]; try reflexivity.
  simpl. unfold dict_setitem. by rewrite lookup_insert_eq, insert_insert_eq.
Qed.

(** A dict of four keys has no fifth. *)
Lemma details_of_dict_inv (o : gmap string scalar) (det : Details) :
  details_of_dict o = Some det ->
  o !! "name" = Some (Str (d_name det)) /\
  o !! "price" = Some (Int (d_price det)) /\
  o !! "company" = Some (Str (d_company det)) /\
  o !! "last_updated" = Some (Str (d_last_updated det)) /\
  o !! "category" = None /\ size o = 4%nat.
Proof.
  unfold details_of_dict.
  destruct (o !! "name") as [[n| |]|] eqn:Hn; try discriminate.
  destruct (o !! "price") as [[|p|]|] eqn:Hp; try discriminate.
  destruct (o !! "company") as [[c| |]|] eqn:Hc; try discriminate.
  destruct (o !! "last_updated") as [[d| |]|] eqn:Hd; try discriminate.
  destruct (decide (size o = 4%nat)) as [Hsize|]; [|discriminate].
  intros [= <-]. simpl. repeat split; try done.
  apply not_elem_of_dom.
  assert (Hdom : ({["name"; "price"; "company"; "last_updated"]} : gset string)
                 = dom o).
  { apply set_subseteq_size_eq.
    - intros k Hk. apply elem_of_dom. set_unfold in Hk.
      destruct_or! Hk; subst k; eauto.
    - rewrite size_dom, Hsize. vm_compute. lia. }
  rewrite <- Hdom. vm_compute. intros H. discriminate H.
Qed.

Lemma row_of_loaded_dict (o : gmap string scalar) (det : Details) (cat : string)
    (ts : Timestamp) :
  details_of_dict o = Some det ->
  row_of_dict (<["last_updated" := Date ts]> (<["category" := Str cat]> o)) =
  Some {| name := d_name det; price := d_price det; company := d_company det;
          last_updated := ts; category := cat |}.
Proof.
  intros (Hn & Hp & Hc & Hd & Hcat & Hsize)%details_of_dict_inv.
  unfold row_of_dict.
  rewrite lookup_insert_eq.
  rewrite !(lookup_insert_ne _ "last_updated") by done.
  rewrite lookup_insert_eq.
  rewrite !(lookup_insert_ne _ "category") by done.
  rewrite Hn, Hp, Hc.
  rewrite map_size_insert_Some
    by (rewrite lookup_insert_ne by done; by rewrite Hd).
  rewrite map_size_insert_None, Hsize by done.
  reflexivity.
Qed.

Lemma keeps_dicts_bind {A B : Type} (m : dpy A) (f : A -> dpy B) :
  keeps_dicts m -> (forall a, keeps_dicts (f a)) -> keeps_dicts (m ≫= f).
Proof.
  intros Hm Hf h. unfold mbind, dpy_bind. specialize (Hm h).
  destruct (m h) as [[a|e|] h1]; simpl in *; try done.
  transitivity h1; [done|apply Hf].
Qed.

Lemma keeps_dicts_ret {A : Type} (a : A) : keeps_dicts (mret a).
Proof. by intros h. Qed.

Lemma load_item_keeps_dicts (cat : string) (d : nat) (data : list nat) :
  keeps_dicts (load_item cat d data).
Proof.
  intros h. rewrite load_item_eq.
  assert (Hfresh : h !! fresh (dom h) = None)
    by apply not_elem_of_dom, is_fresh.
  destruct (h !! d) as [o|]; [|done]. cbv zeta.
  destruct (o !! "last_updated") as [[s|n|ts]|]; simpl;
    try by apply insert_subseteq.
  destruct (to_datetime s); simpl; by apply insert_subseteq.
Qed.

Lemma dfor_each_keeps_dicts {A S : Type} (xs : list A) (body : A -> S -> dpy S)
    (s : S) :
  (forall x s', keeps_dicts (body x s')) -> keeps_dicts (dfor_each xs body s).
Proof.
  intros Hbody. revert s. induction xs as [|x xs IH]; intros s; simpl.
  - apply keeps_dicts_ret.
  - apply keeps_dicts_bind; [apply Hbody|apply IH].
Qed.

Lemma read_rows_store (data : list nat) (h : gmap nat (gmap string scalar)) :
  snd (read_rows data h) = h.
Proof.
  induction data as [|d data IH]; simpl; [done|].
  unfold mbind at 1, dpy_bind.
  destruct (h !! d ≫= row_of_dict); simpl; [|done].
  unfold mbind, dpy_bind. destruct (read_rows data h) as [[rs|e|] h'];
    simpl in *; done.
Qed.

(** [load_data] leaves [PRODUCTS] as it was: every dict of the store
    before the call is in the store after it, with the keys and values it
    had, whatever the dicts hold and also when the call raises.  The
    category and the parsed date are written to copies. *)
Theorem load_data_obj_keeps_dicts
    (products : list (string * list (string * nat)))
    (h : gmap nat (gmap string scalar)) :
  h ⊆ snd (load_data_obj products h) /\
  forall (d : nat) (o : gmap string scalar),
    h !! d = Some o -> snd (load_data_obj products h) !! d = Some o.
Proof.
  assert (H : h ⊆ snd (load_data_obj products h)).
  { unfold load_data_obj. revert h. apply keeps_dicts_bind.
    - apply dfor_each_keeps_dicts. intros [cat items] data.
      apply dfor_each_keeps_dicts. intros [key d] data'.
      apply load_item_keeps_dicts.
    - intros data h. unfold mbind, dpy_bind.
      pose proof (read_rows_store data h) as Hrows.
      destruct (read_rows data h) as [[rs|e|] h']; simpl in *; by subst. }
  split; [exact H|]. intros d o Hd. by apply (lookup_weaken h).
Qed.

(** The two loops as one loop over the (category, reference) pairs. *)
Lemma dfor_each_app {A S : Type} (xs ys : list A) (body : A -> S -> dpy S)
    (s : S) (h : gmap nat (gmap string scalar)) :
  dfor_each (xs ++ ys) body s h =
  (s' ← dfor_each xs body s; dfor_each ys body s') h.
Proof.
  revert s h. induction xs as [|x xs IH]; intros s h; simpl; [done|].
  unfold mbind, dpy_bind. destruct (body x s h) as [[s'|e|] h'];
    first [done | apply IH].
Qed.

Lemma inner_loop_obj (cat : string) (items : list (string * nat))
    (data : list nat) (h : gmap nat (gmap string scalar)) :
  dfor_each items (fun '(_, details) data => load_item cat details data) data h =
  dfor_each (map (fun '(_, d) => (cat, d)) items)
            (fun '(cat, d) data => load_item cat d data) data h.
Proof.
  revert data h. induction items as [|[key d] items IH]; intros data h; simpl;
    [done|].
  unfold mbind, dpy_bind. destruct (load_item cat d data h) as [[s'|e|] h'];
    first [done | apply IH].
Qed.

Lemma outer_loop_obj (products : list (string * list (string * nat)))
    (data : list nat) (h : gmap nat (gmap string scalar)) :
  dfor_each products (fun '(cat, items) data =>
    dfor_each items (fun '(_, details) data =>
      load_item cat details data) data) data h =
  dfor_each (entries_obj products)
            (fun '(cat, d) data => load_item cat d data) data h.
Proof.
  revert data h. induction products as [|[cat items] products IH];
    intros data h; [done|].
  cbn [dfor_each entries_obj flat_map]. rewrite dfor_each_app.
  unfold mbind, dpy_bind. rewrite inner_loop_obj.
  destruct (dfor_each (map _ items) _ data h) as [[s'|e|] h'];
    first [done | apply IH].
Qed.

Lemma read_products_entries (h : gmap nat (gmap string scalar))
    (p : list (string * list (string * nat))) (products : Catalog) :
  read_products h p = Some products ->
  Forall2 (holds h) (entries_obj p) (entries products).
Proof.
  unfold read_products. intros H%mapM_Some_1.
  induction H as [|[cat items] [cat' items'] p products Hitems _ IH];
    [constructor|].
  cbn [entries_obj entries flat_map]. apply Forall2_app; [|exact IH].
  clear IH. destruct (mapM _ items) as [its|] eqn:Hmap; [|discriminate].
  simpl in Hitems. injection Hitems as <- <-.
  apply mapM_Some_1 in Hmap.
  induction Hmap as [|[key d] [key' det] items its Hd _ IH]; simpl;
    [constructor|].
  constructor; [|exact IH].
  destruct (h !! d) as [o|] eqn:Ho; [|discriminate]. simpl in Hd.
  destruct (details_of_dict o) as [det'|] eqn:Hdet; [|discriminate].
  simpl in Hd. injection Hd as <- <-. split; [done|]. by exists o.
Qed.

Lemma dfor_each_cons {A S : Type} (x : A) (xs : list A) (body : A -> S -> dpy S)
    (s : S) (h : gmap nat (gmap string scalar)) :
  dfor_each (x :: xs) body s h =
  match body x s h with
  | (Ok s', h') => dfor_each xs body s' h'
  | (Raise e, h') => (Raise e, h')
  | (Unmodelled, h') => (Unmodelled, h')
  end.
Proof. reflexivity. Qed.

Lemma loop_obj_collect (es : list (string * nat)) (es' : list (string * Details)) :
  forall (data : list nat) (h : gmap nat (gmap string scalar)),
    Forall2 (holds h) es es' ->
    exists h', h ⊆ h' /\
      match collect es' with
      | Ok rs =>
          exists data',
            dfor_each es (fun '(cat, d) data => load_item cat d data) data h =
              (Ok (data ++ data'), h') /\
            Forall2 (fun l r => h' !! l ≫= row_of_dict = Some r) data' rs
      | Raise e =>
          dfor_each es (fun '(cat, d) data => load_item cat d data) data h =
            (Raise e, h')
      | Unmodelled =>
          dfor_each es (fun '(cat, d) data => load_item cat d data) data h =
            (Unmodelled, h')
      end.
Proof.
  revert es'. induction es as [|[cat d] es IH]; intros es' data h Hes.
  - apply Forall2_nil_inv_l in Hes as ->. exists h. split; [done|]. simpl.
    exists []. split; [by rewrite app_nil_r|constructor].
  - apply Forall2_cons_inv_l in Hes
      as ([cat' det] & es'' & [Hcat (o & Ho & Hdet)] & Hes & ->).
    simpl in Hcat, Ho, Hdet. subst cat'.
    assert (Hfresh : h !! fresh (dom h) = None)
      by apply not_elem_of_dom, is_fresh.
    cbn [collect]. rewrite !dfor_each_cons, load_item_eq, Ho. cbv zeta.
    destruct (details_of_dict_inv o det Hdet) as (_ & _ & _ & Hd & _).
    rewrite Hd. unfold make_row.
    destruct (to_datetime (d_last_updated det)) as [ts|e|]; simpl.
    + set (l := fresh (dom h)) in *.
      set (h1 := <[l := <["last_updated" := Date ts]>
                           (<["category" := Str cat]> o)]> h).
      assert (Hh1 : h ⊆ h1) by by apply insert_subseteq.
      destruct (IH es'' (data ++ [l]) h1) as (h' & Hh' & Hloop).
      { eapply Forall2_impl; [exact Hes|].
        intros e e' [He (o' & Ho' & Hdet')]. split; [done|].
        exists o'. split; [|done]. by apply (lookup_weaken h). }
      exists h'. split; [by transitivity h1|].
      destruct (collect es'') as [rs|e|]; simpl.
      * destruct Hloop as (data' & Hloop & Hrows). exists (l :: data').
        split; [by rewrite Hloop, <- app_assoc|].
        constructor; [|exact Hrows].
        rewrite (lookup_weaken h1 h' l _ (lookup_insert_eq _ _ _) Hh'). simpl.
        by apply row_of_loaded_dict.
      * exact Hloop.
      * exact Hloop.
    + eexists. split; [|reflexivity]. by apply insert_subseteq.
    + eexists. split; [|reflexivity]. by apply insert_subseteq.
Qed.

Lemma read_rows_ok (data : list nat) (rs : list Row)
    (h : gmap nat (gmap string scalar)) :
  Forall2 (fun l r => h !! l ≫= row_of_dict = Some r) data rs ->
  read_rows data h = (Ok rs, h).
Proof.
  induction 1 as [|l r data rs Hl _ IH]; simpl; [done|].
  unfold mbind at 1, dpy_bind. rewrite Hl.
  unfold mbind, dpy_bind. by rewrite IH.
Qed.

(** [load_data] in the store does what [load_data_from] says of the nested
    dict that the store holds: the same frame, or the same exception. *)
Theorem load_data_obj_refines
    (p : list (string * list (string * nat)))
    (h : gmap nat (gmap string scalar)) (products : Catalog) :
  read_products h p = Some products ->
  fst (load_data_obj p h) = load_data_from products.
Proof.
  intros Hes%read_products_entries.
  unfold load_data_obj, load_data_from. rewrite load_rows_collect.
  unfold mbind at 1, dpy_bind. rewrite outer_loop_obj.
  destruct (loop_obj_collect _ _ [] h Hes) as (h' & _ & Hloop).
  destruct (collect (entries products)) as [rs|e|]; simpl.
  - destruct Hloop as (data' & -> & Hrows). simpl.
    unfold mbind, dpy_bind. by rewrite (read_rows_ok _ _ _ Hrows).
  - by rewrite Hloop.
  - by rewrite Hloop.
Qed.

(** An item without a date stops [load_data] with a [KeyError] for
    "last_updated": the first such item in the order of the dict, when the
    items before it have their four keys and dates that parse. *)
Theorem load_data_obj_missing_date
    (p : list (string * list (string * nat)))
    (h : gmap nat (gmap string scalar))
    (es1 es2 : list (string * nat)) (es1' : list (string * Details))
    (rs : list Row) (cat : string) (d : nat) (o : gmap string scalar) :
  entries_obj p = es1 ++ (cat, d) :: es2 ->
  Forall2 (holds h) es1 es1' -> collect es1' = Ok rs ->
  h !! d = Some o -> o !! "last_updated" = None ->
  fst (load_data_obj p h) = Raise (KeyError "last_updated").
Proof.
  intros Hentries Hes1 Hrs Hd Ho. unfold load_data_obj.
  unfold mbind at 1, dpy_bind. rewrite outer_loop_obj, Hentries, dfor_each_app.
  unfold mbind at 1, dpy_bind.
  destruct (loop_obj_collect _ _ [] h Hes1) as (h' & Hh' & Hloop).
  rewrite Hrs in Hloop. destruct Hloop as (data' & -> & _).
  rewrite dfor_each_cons, load_item_eq, (lookup_weaken h h' d o Hd Hh').
  cbv zeta. by rewrite Ho.
Qed.

(** [load_data_obj_refines] on [PRODUCTS]. *)
Lemma load_data_obj_refines_witness :
  read_products PRODUCTS_store PRODUCTS_obj = Some PRODUCTS /\
  fst (load_data_obj PRODUCTS_obj PRODUCTS_store) = load_data_from PRODUCTS.
Proof.
  assert (H : read_products PRODUCTS_store PRODUCTS_obj = Some PRODUCTS)
    by (vm_compute; reflexivity).
  split; [exact H|].
  exact (load_data_obj_refines PRODUCTS_obj PRODUCTS_store PRODUCTS H).
Defined.

(** [load_data_obj_missing_date] on a dict whose second item has no date. *)
Lemma load_data_obj_missing_date_witness :
  fst (load_data_obj
         [("Electronics", [("Laptop", 0%nat); ("Smartphone", 1%nat)])]
         {[ 0%nat := dict_of_details (snd (item "Laptop" 70000 "Dell" "2025-10-10"));
            1%nat := {[ "name" := Str "Smartphone"; "price" := Int 30000;
                        "company" := Str "Samsung" ]} ]}) =
  Raise (KeyError "last_updated").
Proof.
  apply (load_data_obj_missing_date _ _
           [("Electronics", 0%nat)] []
           [("Electronics", snd (item "Laptop" 70000 "Dell" "2025-10-10"))]
           [laptop] "Electronics" 1%nat
           {[ "name" := Str "Smartphone"; "price" := Int 30000;
              "company" := Str "Samsung" ]}).
  - reflexivity.
  - constructor; [|constructor]. split; [reflexivity|].
    exists (dict_of_details (snd (item "Laptop" 70000 "Dell" "2025-10-10"))).
    split; vm_compute; reflexivity.
  - reflexivity.
  - vm_compute; reflexivity.
  - vm_compute; reflexivity.
Defined.
